(** * Problem 3: two-tier cache, metrics aggregator, alert evaluator and
      search cache key

    A shallow embedding of
    - [services/search_service.py]  ([SearchService._create_cache_key]),
    - [services/cache_service.py]   ([CacheService]),
    - [core/monitoring.py]          ([PerformanceMonitor]),
    - [dashboard/monitoring_dashboard.py] ([MonitoringDashboard._check_alerts]),
    with the constants of [core/config.py].

    Conventions of the embedding.
    - Python [int] is [Z]; Python [float] quantities (response times, rates,
      percentages) are exact rationals [Q]; wall-clock time is a [Z] number of
      seconds handed to every operation by its caller.
    - Python [str] is [string], read as a sequence of code points below 256.
    - A Python [dict] whose iteration order is observable is an association
      list in insertion order ([pydict]); a dict that is only looked up,
      updated and counted is a [gmap].
    - An operation that catches its own exceptions is a total function; what
      the handler does (counter, log line, return value) is written out. *)

From Stdlib Require Import ZArith QArith Qround Qabs String Ascii List Bool Lia Lqa.
From Stdlib Require Import DecimalString DecimalPos DecimalZ Sorting.Mergesort Sorting.Permutation Sorting.Sorted.
From stdpp Require Import gmap strings list fin_maps.

#[local] Set Warnings "-register-all".
Local Open Scope string_scope.
Local Open Scope Z_scope.

(** ** Python built-ins used by the sources *)
Module Py.

Definition str_int (z : Z) : string := NilZero.string_of_int (Z.to_int z).

Definition str_bool (b : bool) : string := if b then "True" else "False".

Fixpoint join (sep : string) (parts : list string) : string :=
  match parts with
  | [] => ""
  | [p] => p
  | p :: rest => p +:+ sep +:+ join sep rest
  end.

Definition hex_digit (n : N) : ascii :=
  if (n <? 10)%N then ascii_of_N (48 + n) else ascii_of_N (87 + n).

(** [\xhh] with two lower-case hexadecimal digits. *)
Definition hex_escape (c : ascii) : string :=
  let n := N_of_ascii c in
  String "\" (String "x" (String (hex_digit (n / 16)) (String (hex_digit (n mod 16)) ""))).

(** Code points below 256 that [str.isprintable] rejects. *)
Definition unprintable (c : ascii) : bool :=
  let n := N_of_ascii c in
  ((n <? 32) || (n =? 127) || ((128 <=? n) && (n <=? 160)) || (n =? 173))%N.

Definition has_char (c : ascii) (s : string) : bool :=
  existsb (Ascii.eqb c) (list_ascii_of_string s).

Definition squote : ascii := "'"%char.
Definition dquote : ascii := ascii_of_N 34.

Definition repr_char (quote c : ascii) : string :=
  if Ascii.eqb c quote || Ascii.eqb c "\"%char then String "\" (String c "")
  else if Ascii.eqb c (ascii_of_N 9) then "\t"
  else if Ascii.eqb c (ascii_of_N 10) then "\n"
  else if Ascii.eqb c (ascii_of_N 13) then "\r"
  else if unprintable c then hex_escape c
  else String c "".

(** [repr] of a [str]: single quotes unless the text holds a single quote
    and no double quote. *)
Definition repr_str (s : string) : string :=
  let quote := if has_char squote s && negb (has_char dquote s) then dquote else squote in
  String quote
    (String.concat "" (map (repr_char quote) (list_ascii_of_string s))
     +:+ String quote "").

(** JSON-shaped values: what a request body or a cached document holds. *)
Inductive pyval : Type :=
| PNone
| PBool (b : bool)
| PInt (z : Z)
| PStr (s : string)
| PList (items : list pyval)
| PDict (entries : list (string * pyval)).

Fixpoint repr (v : pyval) : string :=
  match v with
  | PNone => "None"
  | PBool b => str_bool b
  | PInt z => str_int z
  | PStr s => repr_str s
  | PList items => "[" +:+ join ", " (map repr items) +:+ "]"
  | PDict entries =>
      "{" +:+ join ", " (map (fun '(k, x) => repr_str k +:+ ": " +:+ repr x) entries) +:+ "}"
  end.

(** An insertion-ordered dict with string keys. *)
Definition pydict (V : Type) : Type := list (string * V).

Section Dict.
Context {V : Type}.

Fixpoint dict_get (d : pydict V) (k : string) : option V :=
  match d with
  | [] => None
  | (k', v) :: rest => if String.eqb k' k then Some v else dict_get rest k
  end.

(** [d[k] = v]: an existing key keeps its position, a new one goes last. *)
Fixpoint dict_set (d : pydict V) (k : string) (v : V) : pydict V :=
  match d with
  | [] => [(k, v)]
  | (k', v') :: rest =>
      if String.eqb k' k then (k', v) :: rest else (k', v') :: dict_set rest k v
  end.

Definition dict_keys (d : pydict V) : list string := map fst d.

(** A dict holds each key once. *)
Definition dict_wf (d : pydict V) : Prop := List.NoDup (dict_keys d).

(** Python's [==] on dicts: the same bindings, in whatever order. *)
Definition dict_same (d1 d2 : pydict V) : Prop :=
  forall k, dict_get d1 k = dict_get d2 k.
End Dict.

(** [decimal.Decimal], finite: sign, coefficient, exponent. *)
Record Decimal : Type := mkDecimal {
  dec_sign : bool;
  dec_int : N;
  dec_exp : Z
}.

Definition str_N (n : N) : string := NilZero.string_of_uint (N.to_uint n).

Fixpoint zeros (n : nat) : string :=
  match n with O => "" | S n' => String "0" (zeros n') end.

Definition str_signed (z : Z) : string :=
  if z <? 0 then str_int z else "+" +:+ str_int z.

(** [Decimal.__str__] with the default context ([capitals = 1]). *)
Definition str_decimal (d : Decimal) : string :=
  let sign := if dec_sign d then "-" else "" in
  let digits := str_N (dec_int d) in
  let len := Z.of_nat (String.length digits) in
  let leftdigits := dec_exp d + len in
  let dotplace := if (dec_exp d <=? 0) && (-6 <? leftdigits) then leftdigits else 1 in
  let intpart :=
    if dotplace <=? 0 then "0"
    else if len <=? dotplace then digits +:+ zeros (Z.to_nat (dotplace - len))
    else substring 0 (Z.to_nat dotplace) digits in
  let fracpart :=
    if dotplace <=? 0 then "." +:+ zeros (Z.to_nat (- dotplace)) +:+ digits
    else if len <=? dotplace then ""
    else "." +:+ substring (Z.to_nat dotplace) (Z.to_nat (len - dotplace)) digits in
  let exp := if leftdigits =? dotplace then "" else "E" +:+ str_signed (leftdigits - dotplace) in
  sign +:+ intpart +:+ fracpart +:+ exp.

(** [bool(d)] for a finite decimal. *)
Definition decimal_truthy (d : Decimal) : bool := negb (dec_int d =? 0)%N.

(** The number a finite decimal stands for; [==] on decimals compares it. *)
Definition decimal_value (d : Decimal) : Q :=
  ((if dec_sign d then - (1) else 1) * inject_Z (Z.of_N (dec_int d)) * (10 # 1) ^ dec_exp d)%Q.

End Py.

(** ** services/search_service.py *)
Module Search.
Import Py.

(** [schemas.models.ProductSearchRequest]. *)
Record ProductSearchRequest : Type := mkRequest {
  query : string;
  category_id : option Z;
  brand : option string;
  min_price : option Decimal;
  max_price : option Decimal;
  min_rating : option Decimal;
  in_stock_only : bool;
  featured_only : bool;
  tags : option (list string);
  attributes : option (pydict pyval);
  sort_by : string;
  sort_order : string;
  page : Z;
  size : Z
}.

(** [str(x or "")] for an optional int: [None] and [0] are falsy. *)
Definition str_int_or_empty (x : option Z) : string :=
  match x with
  | Some z => if z =? 0 then "" else str_int z
  | None => ""
  end.

(** [str(x or "")] for an optional str. *)
Definition str_or_empty (x : option string) : string :=
  match x with
  | Some s => s
  | None => ""
  end.

(** [str(x or "")] for an optional Decimal: [None] and zero are falsy. *)
Definition str_decimal_or_empty (x : option Decimal) : string :=
  match x with
  | Some d => if decimal_truthy d then str_decimal d else ""
  | None => ""
  end.

(** [str(request.tags or [])]. *)
Definition str_tags (x : option (list string)) : string :=
  match x with
  | Some l => "[" +:+ join ", " (map repr_str l) +:+ "]"
  | None => "[]"
  end.

(** [str(request.attributes or {})]. *)
Definition str_attributes (x : option (pydict pyval)) : string :=
  match x with
  | Some d => repr (PDict d)
  | None => "{}"
  end.

Definition _create_cache_key (request : ProductSearchRequest) : string :=
  let key_parts :=
    [ "search";
      query request;
      str_int_or_empty (category_id request);
      str_or_empty (brand request);
      str_decimal_or_empty (min_price request);
      str_decimal_or_empty (max_price request);
      str_decimal_or_empty (min_rating request);
      str_bool (in_stock_only request);
      str_bool (featured_only request);
      str_tags (tags request);
      str_attributes (attributes request);
      sort_by request;
      sort_order request;
      str_int (page request);
      str_int (size request) ] in
  join ":" key_parts.

(** Equality of the attribute field as the request sees it: two maps are
    the same value when they hold the same bindings. *)
Definition attrs_same (a b : option (pydict pyval)) : Prop :=
  match a, b with
  | None, None => True
  | Some d1, Some d2 => dict_wf d1 /\ dict_wf d2 /\ dict_same d1 d2
  | _, _ => False
  end.

(** Two requests with identical field values. *)
Definition same_fields (r1 r2 : ProductSearchRequest) : Prop :=
  query r1 = query r2 /\
  category_id r1 = category_id r2 /\
  brand r1 = brand r2 /\
  min_price r1 = min_price r2 /\
  max_price r1 = max_price r2 /\
  min_rating r1 = min_rating r2 /\
  in_stock_only r1 = in_stock_only r2 /\
  featured_only r1 = featured_only r2 /\
  tags r1 = tags r2 /\
  attrs_same (attributes r1) (attributes r2) /\
  sort_by r1 = sort_by r2 /\
  sort_order r1 = sort_order r2 /\
  page r1 = page r2 /\
  size r1 = size r2.

(** A filter that is left out, or that holds the empty value of its type. *)
Definition unset_int (x : option Z) : Prop := x = None \/ x = Some 0.

Definition unset_str (x : option string) : Prop := x = None \/ x = Some "".

Definition unset_decimal (x : option Decimal) : Prop :=
  x = None \/ exists d, x = Some d /\ dec_int d = 0%N.

Definition unset_tags (x : option (list string)) : Prop := x = None \/ x = Some [].

Definition unset_attributes (x : option (pydict pyval)) : Prop := x = None \/ x = Some [].

(** Two readings of one filter: identical, or unset in both. *)
Definition alike {A : Type} (unset : A -> Prop) (a b : A) : Prop :=
  a = b \/ (unset a /\ unset b).

(** Two requests that carry the same filters: each optional filter is
    identical in both (a decimal with the same sign, digits and exponent, the
    tags in the same order, the attributes with the same keys in the same
    order bound to identical values) or unset in both, and every other field
    is identical. *)
Definition same_filters (r1 r2 : ProductSearchRequest) : Prop :=
  query r1 = query r2 /\
  alike unset_int (category_id r1) (category_id r2) /\
  alike unset_str (brand r1) (brand r2) /\
  alike unset_decimal (min_price r1) (min_price r2) /\
  alike unset_decimal (max_price r1) (max_price r2) /\
  alike unset_decimal (min_rating r1) (min_rating r2) /\
  in_stock_only r1 = in_stock_only r2 /\
  featured_only r1 = featured_only r2 /\
  alike unset_tags (tags r1) (tags r2) /\
  alike unset_attributes (attributes r1) (attributes r2) /\
  sort_by r1 = sort_by r2 /\
  sort_order r1 = sort_order r2 /\
  page r1 = page r2 /\
  size r1 = size r2.

Definition base_request (attrs : option (pydict pyval)) : ProductSearchRequest :=
  mkRequest "phone" None None None None None false false None attrs
            "relevance" "desc" 1 20.

Definition attrs_ab : pydict pyval := [("a", PInt 1); ("b", PInt 2)].
Definition attrs_ba : pydict pyval := [("b", PInt 2); ("a", PInt 1)].

End Search.


(** ** core/config.py *)
Module Config.

Definition CACHE_DEFAULT_TTL : Z := 3600.
Definition CACHE_SHORT_TTL : Z := 300.
Definition CACHE_LONG_TTL : Z := 86400.
Definition CACHE_PREFIX : string := "perf_demo".
Definition CACHE_COMPRESSION : bool := true.
Definition SLOW_QUERY_THRESHOLD : Q := 1.
Definition ENABLE_METRICS : bool := true.

End Config.

(** ** The shared tier: a Redis server seen through the calls the service makes *)
Module Redis.

(** Glob matching of [KEYS pattern]: [*], [?], [\c] and bracket classes with
    ranges and [^] negation.  [in_class] is [None] outside a class and
    otherwise holds the negation flag and whether a member matched so far. *)
Fixpoint glob_from (pat : list ascii) (in_class : option (bool * bool)) (s : list ascii)
  : bool :=
  match in_class with
  | None =>
      match pat with
      | [] => match s with [] => true | _ => false end
      | c :: pat' =>
          if Ascii.eqb c "*" then
            (fix star (t : list ascii) : bool :=
               glob_from pat' None t
               || match t with [] => false | _ :: t' => star t' end) s
          else
            match s with
            | [] => false
            | x :: s' =>
                if Ascii.eqb c "?" then glob_from pat' None s'
                else if Ascii.eqb c "[" then
                  match pat' with
                  | n :: pat'' =>
                      if Ascii.eqb n "^" then glob_from pat'' (Some (true, false)) s
                      else glob_from pat' (Some (false, false)) s
                  | [] => glob_from pat' (Some (false, false)) s
                  end
                else if Ascii.eqb c "\" then
                  match pat' with
                  | e :: pat'' => Ascii.eqb e x && glob_from pat'' None s'
                  | [] => Ascii.eqb c x && glob_from pat' None s'
                  end
                else Ascii.eqb c x && glob_from pat' None s'
            end
      end
  | Some (negate, found) =>
      match s with
      | [] => false
      | x :: s' =>
          match pat with
          | [] => xorb negate found && match s' with [] => true | _ => false end
          | c :: pat' =>
              if Ascii.eqb c "]" then xorb negate found && glob_from pat' None s'
              else if Ascii.eqb c "\" then
                match pat' with
                | e :: pat'' => glob_from pat'' (Some (negate, found || Ascii.eqb e x)) s
                | [] => glob_from pat' (Some (negate, found || Ascii.eqb c x)) s
                end
              else
                match pat' with
                | d :: hi :: pat'' =>
                    if Ascii.eqb d "-" then
                      let a := N.min (N_of_ascii c) (N_of_ascii hi) in
                      let b := N.max (N_of_ascii c) (N_of_ascii hi) in
                      let n := N_of_ascii x in
                      glob_from pat'' (Some (negate, found || ((a <=? n) && (n <=? b))%N)) s
                    else glob_from pat' (Some (negate, found || Ascii.eqb c x)) s
                | _ => glob_from pat' (Some (negate, found || Ascii.eqb c x)) s
                end
          end
      end
  end.

Definition glob (pattern key : string) : bool :=
  glob_from (list_ascii_of_string pattern) None (list_ascii_of_string key).

End Redis.


(** ** services/cache_service.py *)
Module Cache.
Import Py Config.

(** [json.dumps] of a string with [ensure_ascii]: everything outside
    space..tilde is escaped. *)
Definition json_char (c : ascii) : string :=
  let n := N_of_ascii c in
  if Ascii.eqb c dquote then String "\" (String dquote "")
  else if Ascii.eqb c "\"%char then "\\"
  else if (n =? 10)%N then "\n"
  else if (n =? 13)%N then "\r"
  else if (n =? 9)%N then "\t"
  else if (n =? 8)%N then "\b"
  else if (n =? 12)%N then "\f"
  else if ((n <? 32) || (126 <? n))%N then
    "\u00" +:+ String (hex_digit (n / 16)) (String (hex_digit (n mod 16)) "")
  else String c "".

Definition json_str (s : string) : string :=
  String dquote
    (String.concat "" (map json_char (list_ascii_of_string s)) +:+ String dquote "").

Fixpoint json_dumps (v : pyval) : string :=
  match v with
  | PNone => "null"
  | PBool b => if b then "true" else "false"
  | PInt z => str_int z
  | PStr s => json_str s
  | PList items => "[" +:+ join ", " (map json_dumps items) +:+ "]"
  | PDict entries =>
      "{" +:+ join ", " (map (fun '(k, x) => json_str k +:+ ": " +:+ json_dumps x) entries)
      +:+ "}"
  end.

(** The bytes kept in the shared tier, represented by the document they
    encode ([json.loads] undoes [json.dumps] on these values, and
    [gzip.decompress] undoes [gzip.compress]) together with the [b"gzip:"]
    tag. *)
Record payload : Type := mkPayload {
  gzip_tagged : bool;
  document : pyval
}.

Definition _serialize (data : pyval) : payload :=
  let serialized := json_dumps data in
  if CACHE_COMPRESSION && (1024 <? Z.of_nat (String.length serialized))
  then mkPayload true data
  else mkPayload false data.

Definition _deserialize (data : payload) : pyval := document data.

Definition _get_cache_key (key : string) : string := CACHE_PREFIX +:+ ":" +:+ key.

Record local_entry : Type := mkEntry {
  data : pyval;
  expires_at : Z
}.

Record stats : Type := mkStats {
  hits : Z;
  misses : Z;
  sets : Z;
  deletes : Z;
  errors : Z
}.

(** A key of the shared tier: its bytes and the instant the server drops it. *)
Record redis_entry : Type := mkRedisEntry {
  rvalue : payload;
  rexpires : Z
}.

Record log_line : Type := mkLog {
  level : string;
  message : string
}.

Record CacheService : Type := mkCache {
  redis_client : option (gmap string redis_entry);
  local_cache : gmap string local_entry;
  cache_stats : stats;
  logged : list log_line
}.

(** [CacheService()] followed by [initialize()]: [client] is [None] when the
    connection attempt failed. *)
Definition new (client : option (gmap string redis_entry)) : CacheService :=
  mkCache client ∅ (mkStats 0 0 0 0 0) [].

Definition with_local (c : CacheService) (l : gmap string local_entry) : CacheService :=
  mkCache (redis_client c) l (cache_stats c) (logged c).

Definition with_redis (c : CacheService) (db : gmap string redis_entry) : CacheService :=
  mkCache (Some db) (local_cache c) (cache_stats c) (logged c).

Definition count_hit (c : CacheService) : CacheService :=
  let s := cache_stats c in
  mkCache (redis_client c) (local_cache c)
          (mkStats (hits s + 1) (misses s) (sets s) (deletes s) (errors s)) (logged c).

Definition count_miss (c : CacheService) : CacheService :=
  let s := cache_stats c in
  mkCache (redis_client c) (local_cache c)
          (mkStats (hits s) (misses s + 1) (sets s) (deletes s) (errors s)) (logged c).

Definition count_set (c : CacheService) : CacheService :=
  let s := cache_stats c in
  mkCache (redis_client c) (local_cache c)
          (mkStats (hits s) (misses s) (sets s + 1) (deletes s) (errors s)) (logged c).

Definition count_deletes (n : Z) (c : CacheService) : CacheService :=
  let s := cache_stats c in
  mkCache (redis_client c) (local_cache c)
          (mkStats (hits s) (misses s) (sets s) (deletes s + n) (errors s)) (logged c).

(** The [except Exception as e] handler shared by the operations:
    [logger.error(...)] and [cache_stats["errors"] += 1]. *)
Definition on_error (what : string) (e : string) (c : CacheService) : CacheService :=
  let s := cache_stats c in
  mkCache (redis_client c) (local_cache c)
          (mkStats (hits s) (misses s) (sets s) (deletes s) (errors s + 1))
          (logged c ++ [mkLog "ERROR" (what +:+ ": " +:+ e)]).

(** What the server answers to [GET] at instant [now]. *)
Definition redis_get (db : gmap string redis_entry) (now : Z) (full_key : string)
  : option payload :=
  match db !! full_key with
  | Some r => if now <? rexpires r then Some (rvalue r) else None
  | None => None
  end.

(** [SETEX key ttl value]; a time to live below one second is refused. *)
Definition redis_setex (db : gmap string redis_entry) (now : Z) (full_key : string)
    (ttl : Z) (value : payload) : string + gmap string redis_entry :=
  if ttl <=? 0 then inl "invalid expire time in 'setex' command"
  else inr (<[full_key := mkRedisEntry value (now + ttl)]> db).

Definition live (now : Z) (r : redis_entry) : bool := now <? rexpires r.

(** [KEYS pattern] at instant [now]. *)
Definition redis_keys (db : gmap string redis_entry) (now : Z) (pattern : string)
  : gmap string redis_entry :=
  filter (fun kv => Is_true (Redis.glob pattern (fst kv) && live now (snd kv))) db.

(** [DEL key...] over the result of [KEYS]: what is left. *)
Definition redis_delete_keys (db : gmap string redis_entry) (now : Z) (pattern : string)
  : gmap string redis_entry :=
  filter (fun kv => ~ Is_true (Redis.glob pattern (fst kv) && live now (snd kv))) db.

(** [fault] is [Some e] when the round trips of this call to the shared tier
    raise an exception whose text is [e]. *)
Definition get (c : CacheService) (now : Z) (fault : option string) (key : string)
  : pyval * CacheService :=
  let found :=
    match local_cache c !! key with
    | Some cache_entry =>
        if now <? expires_at cache_entry then (Some (data cache_entry), c)
        else (None, with_local c (base.delete key (local_cache c)))
    | None => (None, c)
    end in
  match found with
  | (Some value, c1) => (value, count_hit c1)
  | (None, c1) =>
      match redis_client c1 with
      | Some db =>
          match fault with
          | Some e => (PNone, on_error ("Cache get error for key " +:+ key) e c1)
          | None =>
              match redis_get db now (_get_cache_key key) with
              | Some cached_data =>
                  let value := _deserialize cached_data in
                  let c2 := with_local c1
                    (<[key := mkEntry value (now + CACHE_SHORT_TTL)]> (local_cache c1)) in
                  (value, count_hit c2)
              | None => (PNone, count_miss c1)
              end
          end
      | None => (PNone, count_miss c1)
      end
  end.

(** [ttl or settings.CACHE_DEFAULT_TTL]. *)
Definition effective_ttl (ttl : option Z) : Z :=
  match ttl with
  | Some t => if t =? 0 then CACHE_DEFAULT_TTL else t
  | None => CACHE_DEFAULT_TTL
  end.

Definition set (c : CacheService) (now : Z) (fault : option string) (key : string)
    (value : pyval) (ttl : option Z) : bool * CacheService :=
  let ttl := effective_ttl ttl in
  let serialized_data := _serialize value in
  let c1 := with_local c
    (<[key := mkEntry value (now + Z.min ttl CACHE_SHORT_TTL)]> (local_cache c)) in
  let failed e := (false, on_error ("Cache set error for key " +:+ key) e c1) in
  match redis_client c1 with
  | Some db =>
      match fault with
      | Some e => failed e
      | None =>
          match redis_setex db now (_get_cache_key key) ttl serialized_data with
          | inl e => failed e
          | inr db' => (true, count_set (with_redis c1 db'))
          end
      end
  | None => (true, count_set c1)
  end.

Definition delete (c : CacheService) (now : Z) (fault : option string) (key : string)
  : bool * CacheService :=
  let c1 := with_local c (base.delete key (local_cache c)) in
  match redis_client c1 with
  | Some db =>
      match fault with
      | Some e => (false, on_error ("Cache delete error for key " +:+ key) e c1)
      | None => (true, count_deletes 1 (with_redis c1 (base.delete (_get_cache_key key) db)))
      end
  | None => (true, count_deletes 1 c1)
  end.

Definition delete_pattern (c : CacheService) (now : Z) (fault : option string)
    (pattern : string) : Z * CacheService :=
  match redis_client c with
  | None => (0, c)
  | Some db =>
      match fault with
      | Some e => (0, on_error ("Cache delete pattern error for " +:+ pattern) e c)
      | None =>
          let full_pattern := _get_cache_key pattern in
          let keys := redis_keys db now full_pattern in
          if decide (keys = ∅) then (0, c)
          else
            let deleted_count := Z.of_nat (size keys) in
            (deleted_count,
             count_deletes deleted_count
               (with_redis c (redis_delete_keys db now full_pattern)))
      end
  end.

(** [get_or_set]: the producer is a state transformer over the caller's
    world [W], so that a call of it is visible in the resulting world. *)
Definition get_or_set {W : Type} (c : CacheService) (now_get now_set : Z)
    (fault_get fault_set : option string) (key : string)
    (factory_func : W -> pyval * W) (ttl : option Z) (w : W)
  : pyval * CacheService * W :=
  let (cached_value, c1) := get c now_get fault_get key in
  match cached_value with
  | PNone =>
      let (value, w') := factory_func w in
      let (_, c2) := set c1 now_set fault_set key value ttl in
      (value, c2, w')
  | _ => (cached_value, c1, w)
  end.

(** Round half to even, as [round(x, 2)] does on an exact value. *)
Definition round_half_even (q : Q) : Z :=
  let f := Qfloor q in
  let r := (q - inject_Z f)%Q in
  match (r ?= 1 # 2)%Q with
  | Lt => f
  | Gt => f + 1
  | Eq => if Z.even f then f else f + 1
  end.

Definition round2 (q : Q) : Q := (inject_Z (round_half_even (q * 100)) / 100)%Q.

Record stats_view : Type := mkStatsView {
  v_hits : Z;
  v_misses : Z;
  v_hit_rate : Q;
  v_sets : Z;
  v_deletes : Z;
  v_errors : Z;
  v_local_cache_size : nat;
  v_redis_connected : bool
}.

Definition get_stats (c : CacheService) : stats_view :=
  let s := cache_stats c in
  let total_requests := hits s + misses s in
  let hit_rate :=
    if 0 <? total_requests
    then (inject_Z (hits s) / inject_Z total_requests * 100)%Q
    else 0%Q in
  mkStatsView (hits s) (misses s) (round2 hit_rate) (sets s) (deletes s) (errors s)
              (size (local_cache c))
              (match redis_client c with Some _ => true | None => false end).

(** *** Sequences of calls *)

Inductive call : Type :=
| CallGet (key : string)
| CallSet (key : string) (value : pyval) (ttl : option Z)
| CallDelete (key : string)
| CallDeletePattern (pattern : string).

(** One call, the instant it runs at, and whether the shared tier raises
    during it. *)
Record step : Type := mkStep {
  at_time : Z;
  fault : option string;
  what : call
}.

(** Runs one call; the first component is what a [get] returned. *)
Definition run_step (c : CacheService) (s : step) : option pyval * CacheService :=
  match what s with
  | CallGet key => let (v, c') := get c (at_time s) (fault s) key in (Some v, c')
  | CallSet key value ttl => (None, snd (set c (at_time s) (fault s) key value ttl))
  | CallDelete key => (None, snd (delete c (at_time s) (fault s) key))
  | CallDeletePattern pattern => (None, snd (delete_pattern c (at_time s) (fault s) pattern))
  end.

(** Runs the calls in order and collects what the [get] calls returned. *)
Fixpoint run (c : CacheService) (steps : list step) : list pyval * CacheService :=
  match steps with
  | [] => ([], c)
  | s :: rest =>
      let (r, c') := run_step c s in
      let (rs, c'') := run c' rest in
      (match r with Some v => v :: rs | None => rs end, c'')
  end.

Definition is_get (s : step) : bool :=
  match what s with CallGet _ => true | _ => false end.

(** N: the [get] calls of a sequence. *)
Definition count_gets (steps : list step) : Z :=
  Z.of_nat (length (List.filter is_get steps)).

Definition is_value (v : pyval) : bool :=
  match v with PNone => false | _ => true end.

(** M: the [get] calls that returned a value. *)
Definition count_values (results : list pyval) : Z :=
  Z.of_nat (length (List.filter is_value results)).

Definition is_get_error (l : log_line) : bool :=
  String.prefix "Cache get error for key " (message l).

(** The [get] calls whose handler logged a failure. *)
Definition count_get_errors (log : list log_line) : Z :=
  Z.of_nat (length (List.filter is_get_error log)).

(** The shared tier raises during the call. *)
Definition faulty (s : step) : bool :=
  match fault s with Some _ => true | None => false end.

Definition is_connected (client : option (gmap string redis_entry)) : bool :=
  match client with Some _ => true | None => false end.

(** A [get] that came back empty-handed while the shared tier was raising. *)
Definition failed_read (sv : step * pyval) : bool :=
  faulty (fst sv) && negb (is_value (snd sv)).

(** E: the [get] calls of a connected service that returned nothing while
    the shared tier was raising; [results] holds what the [get] calls
    returned, in order. *)
Definition count_failed_reads (client : option (gmap string redis_entry))
    (steps : list step) (results : list pyval) : Z :=
  if is_connected client
  then Z.of_nat (length (List.filter failed_read (combine (List.filter is_get steps) results)))
  else 0.

(** A call other than [get] that the shared tier fails: it raises during the
    call, or it refuses the negative time to live of a [set]. *)
Definition failed_write (s : step) : bool :=
  match what s with
  | CallGet _ => false
  | CallSet _ _ ttl => faulty s || match ttl with Some t => t <? 0 | None => false end
  | CallDelete _ => faulty s
  | CallDeletePattern _ => faulty s
  end.

(** F: the calls other than [get] that the shared tier of a connected
    service fails. *)
Definition count_failed_writes (client : option (gmap string redis_entry))
    (steps : list step) : Z :=
  if is_connected client then Z.of_nat (length (List.filter failed_write steps)) else 0.

(** The sequence never stores [None]. *)
Definition stores_values (steps : list step) : Prop :=
  forall s key ttl, In s steps -> what s <> CallSet key PNone ttl.

(** Neither tier holds [None]. *)
Definition holds_values (c : CacheService) : Prop :=
  (forall k e, local_cache c !! k = Some e -> data e <> PNone) /\
  (forall db k r, redis_client c = Some db -> db !! k = Some r ->
                  document (rvalue r) <> PNone).

(** For a key present in both tiers, the local copy expires no later than
    the shared one. *)
Definition local_expires_first (c : CacheService) (key : string) : Prop :=
  forall db e r,
    redis_client c = Some db ->
    local_cache c !! key = Some e ->
    db !! _get_cache_key key = Some r ->
    expires_at e <= rexpires r.
(** The calls other than [get] leave hits, misses and the count of failed
    reads alone, and never lower the error counter. *)
Definition quiet_step (c c' : CacheService) : Prop :=
  hits (cache_stats c') = hits (cache_stats c) /\
  misses (cache_stats c') = misses (cache_stats c) /\
  count_get_errors (logged c') = count_get_errors (logged c) /\
  errors (cache_stats c) <= errors (cache_stats c').

End Cache.


(** ** core/monitoring.py *)
Module Monitor.
Import Py Config.

(** Response times in ascending order, as [list.sort] leaves them. *)
Module QOrder <: Orders.TotalLeBool.
Definition t : Type := Q.
Definition leb (x y : Q) : bool := Qle_bool x y.
Lemma leb_total : forall x y : Q, leb x y = true \/ leb y x = true.
Proof.
  intros x y. unfold leb. rewrite !Qle_bool_iff.
  destruct (Qlt_le_dec x y) as [H | H]; [left; apply Qlt_le_weak, H | right; exact H].
Qed.
End QOrder.

Module QSort := Mergesort.Sort QOrder.

Record PerformanceMetric : Type := mkMetric {
  endpoint : string;
  method : string;
  response_time : Q;
  status_code : Z;
  timestamp : Z;
  user_id : option Z;
  ip_address : option string;
  cache_hit : bool;
  database_queries : Z;
  database_time : Q;
  memory_usage : option Q;
  cpu_usage : option Q
}.

(** What the process reads from its surroundings during one call: the
    clock, the zone offset that [datetime.timestamp()] applies to a naive
    value, and the [psutil] readings. *)
Record probe : Type := mkProbe {
  clock : Z;
  utc_offset : Z;
  memory_percent : Q;
  memory_used : Z;
  memory_available : Z;
  cpu_percent : Q
}.

(** The arguments of one [record_request] call. *)
Record observation : Type := mkObservation {
  o_endpoint : string;
  o_response_time : Q;
  o_status_code : Z;
  o_method : string;
  o_user_id : option Z;
  o_ip_address : option string;
  o_cache_hit : bool;
  o_database_queries : Z;
  o_database_time : Q
}.

(** One value of [endpoint_stats]; [st_min_response_time = None] is
    [float('inf')]. *)
Record EndpointStats : Type := mkEndpointStats {
  st_total_requests : Z;
  st_total_response_time : Q;
  st_min_response_time : option Q;
  st_max_response_time : Q;
  st_status_codes : list (Z * Z);
  st_cache_hits : Z;
  st_database_queries : Z;
  st_database_time : Q;
  st_errors : Z
}.

Definition fresh_stats : EndpointStats :=
  mkEndpointStats 0 0 None 0 [] 0 0 0 0.

Record DatabasePerformance : Type := mkDb {
  db_total_queries : Z;
  db_total_time : Q;
  db_average_time : Q;
  db_slow_queries : Z
}.

Record PerformanceMonitor : Type := mkMonitor {
  metrics : list PerformanceMetric;
  endpoint_stats : pydict EndpointStats;
  cache_stats : pydict Z;
  error_rates : pydict Q;
  throughput : pydict Q;
  database_performance : DatabasePerformance;
  memory_readings : list Q;
  cpu_readings : list Q;
  start_time : Z;
  last_cleanup : Z
}.

(** [deque(maxlen=10000)]. *)
Definition METRICS_MAXLEN : Z := 10000.

Definition new (now : Z) : PerformanceMonitor :=
  mkMonitor [] [] [] [] [] (mkDb 0 0 0 0) [] [] now now.

(** [deque.append] on a bounded deque: the item goes to the right end and,
    when the bound is exceeded, the leftmost item is dropped. *)
Definition deque_append {A : Type} (maxlen : Z) (d : list A) (x : A) : list A :=
  let d' := (d ++ [x])%list in
  if maxlen <? Z.of_nat (length d') then tl d' else d'.

Definition qmin (a b : Q) : Q := if Qle_bool a b then a else b.
Definition qmax (a b : Q) : Q := if Qle_bool b a then a else b.

(** [min(stats["min_response_time"], response_time)] starting from infinity. *)
Definition min_with_inf (current : option Q) (x : Q) : option Q :=
  match current with
  | None => Some x
  | Some m => Some (qmin m x)
  end.

(** [stats["status_codes"][status_code] += 1] on a [defaultdict(int)]. *)
Fixpoint bump_code (codes : list (Z * Z)) (code : Z) : list (Z * Z) :=
  match codes with
  | [] => [(code, 1)]
  | (c, n) :: rest =>
      if c =? code then (c, n + 1) :: rest else (c, n) :: bump_code rest code
  end.

(** [defaultdict.__getitem__]. *)
Definition stats_of (d : pydict EndpointStats) (k : string) : EndpointStats :=
  match dict_get d k with
  | Some s => s
  | None => fresh_stats
  end.

Definition counter_of (d : pydict Z) (k : string) : Z :=
  match dict_get d k with
  | Some n => n
  | None => 0
  end.

Definition make_metric (env : probe) (o : observation) : PerformanceMetric :=
  mkMetric (o_endpoint o) (o_method o) (o_response_time o) (o_status_code o)
           (clock env) (o_user_id o) (o_ip_address o) (o_cache_hit o)
           (o_database_queries o) (o_database_time o)
           (if ENABLE_METRICS then Some (memory_percent env) else None)
           (if ENABLE_METRICS then Some (cpu_percent env) else None).

Definition update_stats (stats : EndpointStats) (o : observation) : EndpointStats :=
  mkEndpointStats
    (st_total_requests stats + 1)
    (st_total_response_time stats + o_response_time o)%Q
    (min_with_inf (st_min_response_time stats) (o_response_time o))
    (qmax (st_max_response_time stats) (o_response_time o))
    (bump_code (st_status_codes stats) (o_status_code o))
    (st_cache_hits stats + (if o_cache_hit o then 1 else 0))
    (st_database_queries stats + o_database_queries o)
    (st_database_time stats + o_database_time o)%Q
    (st_errors stats + (if 400 <=? o_status_code o then 1 else 0)).

Definition update_db (db : DatabasePerformance) (queries : Z) (time : Q)
  : DatabasePerformance :=
  mkDb (db_total_queries db + queries)
       (db_total_time db + time)%Q
       (db_average_time db)
       (if Qle_bool time SLOW_QUERY_THRESHOLD then db_slow_queries db
        else db_slow_queries db + 1).

(** [m.timestamp.timestamp()]: the naive UTC value read as local time. *)
Definition epoch_of (env : probe) (m : PerformanceMetric) : Z :=
  timestamp m - utc_offset env.

Definition record_request (self : PerformanceMonitor) (env : probe) (o : observation)
  : PerformanceMonitor :=
  let metric := make_metric env o in
  let metrics' := deque_append METRICS_MAXLEN (metrics self) metric in
  let stats := update_stats (stats_of (endpoint_stats self) (o_endpoint o)) o in
  let error_rates' :=
    if 400 <=? o_status_code o
    then dict_set (error_rates self) (o_endpoint o)
                  (inject_Z (st_errors stats) / inject_Z (st_total_requests stats))%Q
    else error_rates self in
  let time_window := 60 in
  let recent_requests :=
    List.filter (fun m => clock env - epoch_of env m <=? time_window) metrics' in
  mkMonitor
    metrics'
    (dict_set (endpoint_stats self) (o_endpoint o) stats)
    (cache_stats self)
    error_rates'
    (dict_set (throughput self) (o_endpoint o)
              (inject_Z (Z.of_nat (length recent_requests)) / inject_Z time_window)%Q)
    (update_db (database_performance self) (o_database_queries o) (o_database_time o))
    (memory_readings self) (cpu_readings self) (start_time self) (last_cleanup self).

Definition record_cache_hit (self : PerformanceMonitor) (cache_type : string)
  : PerformanceMonitor :=
  mkMonitor (metrics self) (endpoint_stats self)
            (dict_set (cache_stats self) cache_type (counter_of (cache_stats self) cache_type + 1))
            (error_rates self) (throughput self) (database_performance self)
            (memory_readings self) (cpu_readings self) (start_time self) (last_cleanup self).

Definition record_database_query (self : PerformanceMonitor) (query_time : Q)
  : PerformanceMonitor :=
  mkMonitor (metrics self) (endpoint_stats self) (cache_stats self)
            (error_rates self) (throughput self)
            (update_db (database_performance self) 1 query_time)
            (memory_readings self) (cpu_readings self) (start_time self) (last_cleanup self).

(** One value of the ["endpoints"] map of a snapshot. *)
Record EndpointMetrics : Type := mkEndpointMetrics {
  em_total_requests : Z;
  em_average_response_time : Q;
  em_min_response_time : Q;
  em_max_response_time : Q;
  em_cache_hit_rate : Q;
  em_error_rate : Q;
  em_throughput : Q;
  em_status_codes : list (Z * Z)
}.

Record DbView : Type := mkDbView {
  dv_total_queries : Z;
  dv_total_time : Q;
  dv_average_time : Q;
  dv_slow_queries : Z;
  dv_slow_query_rate : Q
}.

(** The dict that [get_metrics] returns. *)
Record Metrics : Type := mkMetrics {
  m_response_times : pydict Q;
  m_endpoints : pydict EndpointMetrics;
  m_cache_hit_rates : pydict Q;
  m_error_rates : pydict Q;
  m_throughput : pydict Q;
  m_database_performance : DbView;
  m_memory_current_percent : Q;
  m_memory_trend : list Q;
  m_cpu_current_percent : Q;
  m_cpu_trend : list Q;
  m_uptime_seconds : Z;
  m_total_metrics : nat;
  m_last_cleanup : Z;
  m_generated_at : Z
}.

(** [int(n * p)] for a fraction [p] of the window length. *)
Definition rank (n : nat) (p : Q) : nat :=
  Z.to_nat (Qfloor (inject_Z (Z.of_nat n) * p)).

Definition list_min (l : list Q) : Q :=
  match l with
  | [] => 0
  | x :: rest => fold_left qmin rest x
  end.

Definition list_max (l : list Q) : Q :=
  match l with
  | [] => 0
  | x :: rest => fold_left qmax rest x
  end.

Definition list_sum (l : list Q) : Q := fold_left Qplus l 0%Q.

Definition sorted_response_times (self : PerformanceMonitor) : list Q :=
  QSort.sort (map response_time (metrics self)).

Definition percentiles (response_times : list Q) : pydict Q :=
  match response_times with
  | [] => []
  | _ =>
      let n := length response_times in
      [ ("p50", nth (rank n (1 # 2)) response_times 0%Q);
        ("p90", nth (rank n (9 # 10)) response_times 0%Q);
        ("p95", nth (rank n (95 # 100)) response_times 0%Q);
        ("p99", nth (rank n (99 # 100)) response_times 0%Q);
        ("min", list_min response_times);
        ("max", list_max response_times);
        ("avg", (list_sum response_times / inject_Z (Z.of_nat n))%Q) ]
  end.

Definition endpoint_view (self : PerformanceMonitor) (name : string) (stats : EndpointStats)
  : EndpointMetrics :=
  let total := inject_Z (st_total_requests stats) in
  mkEndpointMetrics
    (st_total_requests stats)
    (st_total_response_time stats / total)%Q
    (match st_min_response_time stats with Some m => m | None => 0%Q end)
    (st_max_response_time stats)
    (inject_Z (st_cache_hits stats) / total * 100)%Q
    (inject_Z (st_errors stats) / total * 100)%Q
    (match dict_get (throughput self) name with Some t => t | None => 0%Q end)
    (st_status_codes stats).

Fixpoint endpoint_views (self : PerformanceMonitor) (items : pydict EndpointStats)
  : pydict EndpointMetrics :=
  match items with
  | [] => []
  | (name, stats) :: rest =>
      if 0 <? st_total_requests stats
      then (name, endpoint_view self name stats) :: endpoint_views self rest
      else endpoint_views self rest
  end.

Definition cache_hit_rates_of (cache_stats : pydict Z) : pydict Q :=
  let total_cache_requests := fold_left Z.add (map snd cache_stats) 0 in
  if 0 <? total_cache_requests
  then map (fun '(cache_type, hits) =>
              (cache_type, (inject_Z hits / inject_Z total_cache_requests * 100)%Q))
           cache_stats
  else [].

Definition db_view (db : DatabasePerformance) : DbView :=
  mkDbView
    (db_total_queries db)
    (db_total_time db)
    (if 0 <? db_total_queries db
     then (db_total_time db / inject_Z (db_total_queries db))%Q else 0%Q)
    (db_slow_queries db)
    (if 0 <? db_total_queries db
     then (inject_Z (db_slow_queries db) / inject_Z (db_total_queries db) * 100)%Q
     else 0%Q).

(** [l[-10:]]. *)
Definition last10 {A : Type} (l : list A) : list A :=
  skipn (length l - 10) l.

Definition get_metrics (self : PerformanceMonitor) (env : probe) : Metrics :=
  let response_times := sorted_response_times self in
  mkMetrics
    (percentiles response_times)
    (endpoint_views self (endpoint_stats self))
    (cache_hit_rates_of (cache_stats self))
    (error_rates self)
    (throughput self)
    (db_view (database_performance self))
    (memory_percent env)
    (last10 (memory_readings self))
    (cpu_percent env)
    (last10 (cpu_readings self))
    (clock env - start_time self)
    (length (metrics self))
    (last_cleanup self)
    (clock env).

(** The state after a series of [record_request] calls, oldest first. *)
Definition record_all (self : PerformanceMonitor) (calls : list (probe * observation))
  : PerformanceMonitor :=
  fold_left (fun m call => record_request m (fst call) (snd call)) calls self.

(** [reset_metrics]: every counter and buffer is cleared and both clocks
    restart. *)
Definition reset_metrics (self : PerformanceMonitor) (now : Z) : PerformanceMonitor :=
  mkMonitor [] [] [] [] [] (mkDb 0 0 0 0) [] [] now now.

(** Per-endpoint totals count no more failures than requests. *)
Definition stats_consistent (stats : EndpointStats) : Prop :=
  0 <= st_errors stats <= st_total_requests stats.

(** No stored error rate exceeds 1, and every endpoint's totals are
    consistent. *)
Definition rates_bounded (self : PerformanceMonitor) : Prop :=
  Forall (fun kv => (snd kv <= 1)%Q) (error_rates self) /\
  Forall (fun kv => stats_consistent (snd kv)) (endpoint_stats self).

(** The window bound as a length. *)
Definition capacity : nat := Z.to_nat METRICS_MAXLEN.

(** The last [n] items of a list. *)
Definition keep_last {A : Type} (n : nat) (l : list A) : list A :=
  skipn (length l - n) l.

(** The records that a series of calls appends, oldest first. *)
Definition recorded (calls : list (probe * observation)) : list PerformanceMetric :=
  map (fun call => make_metric (fst call) (snd call)) calls.

(** The response times 0.1, 0.2, ..., 1.0. *)
Definition tenths : list Q :=
  [1 # 10; 2 # 10; 3 # 10; 4 # 10; 5 # 10; 6 # 10; 7 # 10; 8 # 10; 9 # 10; 10 # 10].

End Monitor.


(** ** dashboard/monitoring_dashboard.py *)
Module Dashboard.
Import Py.

(** [f"{x:.Nf}"] on an exact value: [digits] decimals, ties to even. *)
Definition format_fixed (digits : nat) (x : Q) : string :=
  let scale := 10 ^ Z.of_nat digits in
  let scaled := Cache.round_half_even (Qabs x * inject_Z scale) in
  let frac := str_int (scaled mod scale) in
  (if Qle_bool 0 x then "" else "-")
  +:+ str_int (scaled / scale)
  +:+ (match digits with
       | O => ""
       | _ => "." +:+ zeros (digits - String.length frac) +:+ frac
       end).

Record alert : Type := mkAlert {
  type : string;
  message : string;
  timestamp : Z;
  severity : string
}.

(** What [_get_system_metrics] returns, as far as the alert rules read it;
    [None] is the empty dict of its error path. *)
Record system_metrics : Type := mkSystem {
  sys_cpu_percent : Q;
  sys_memory_percent : Q
}.

Definition key_or_zero (d : pydict Q) (k : string) : Q :=
  match dict_get d k with
  | Some x => x
  | None => 0%Q
  end.

Definition gt (x y : Q) : bool := negb (Qle_bool x y).

Definition response_time_alerts (now : Z) (response_times : pydict Q) : list alert :=
  if gt (key_or_zero response_times "p95") 1
  then [mkAlert "warning"
          ("High response time detected: P95 = "
           +:+ format_fixed 3 (key_or_zero response_times "p95") +:+ "s")
          now "medium"]
  else [].

Fixpoint error_rate_alerts (now : Z) (error_rates : pydict Q) : list alert :=
  match error_rates with
  | [] => []
  | (endpoint, rate) :: rest =>
      (if gt rate 5
       then [mkAlert "error"
               ("High error rate for " +:+ endpoint +:+ ": " +:+ format_fixed 1 rate +:+ "%")
               now "high"]
       else [])
      ++ error_rate_alerts now rest
  end.

Fixpoint cache_hit_alerts (now : Z) (cache_hit_rates : pydict Q) : list alert :=
  match cache_hit_rates with
  | [] => []
  | (cache_type, rate) :: rest =>
      (if gt 50 rate
       then [mkAlert "warning"
               ("Low cache hit rate for " +:+ cache_type +:+ ": " +:+ format_fixed 1 rate +:+ "%")
               now "low"]
       else [])
      ++ cache_hit_alerts now rest
  end.

Definition usage_alerts (now : Z) (what : string) (percent : Q) : list alert :=
  if gt percent 90
  then [mkAlert "critical" ("High " +:+ what +:+ " usage: " +:+ format_fixed 1 percent +:+ "%")
          now "critical"]
  else if gt percent 80
  then [mkAlert "warning" ("Elevated " +:+ what +:+ " usage: " +:+ format_fixed 1 percent +:+ "%")
          now "medium"]
  else [].

Definition slow_query_alerts (now : Z) (slow_query_rate : Q) : list alert :=
  if gt slow_query_rate 10
  then [mkAlert "warning" ("High slow query rate: " +:+ format_fixed 1 slow_query_rate +:+ "%")
          now "medium"]
  else [].

Definition _check_alerts (now : Z) (performance_metrics : Monitor.Metrics)
    (cache_stats : Cache.stats_view) (system : option system_metrics) : list alert :=
  let memory_percent := match system with Some s => sys_memory_percent s | None => 0%Q end in
  let cpu_percent := match system with Some s => sys_cpu_percent s | None => 0%Q end in
  (response_time_alerts now (Monitor.m_response_times performance_metrics)
   ++ error_rate_alerts now (Monitor.m_error_rates performance_metrics)
   ++ cache_hit_alerts now (Monitor.m_cache_hit_rates performance_metrics)
   ++ usage_alerts now "memory" memory_percent
   ++ usage_alerts now "CPU" cpu_percent
   ++ slow_query_alerts now
        (Monitor.dv_slow_query_rate (Monitor.m_database_performance performance_metrics)))%list.

Definition _determine_system_status (alerts : list alert) : string :=
  let critical_alerts := List.filter (fun a => String.eqb (severity a) "critical") alerts in
  let high_alerts := List.filter (fun a => String.eqb (severity a) "high") alerts in
  match critical_alerts, high_alerts with
  | _ :: _, _ => "critical"
  | [], _ :: _ => "degraded"
  | [], [] => "healthy"
  end.

(** The alerts of type error. *)
Definition error_alerts (alerts : list alert) : list alert :=
  List.filter (fun a => String.eqb (type a) "error") alerts.

(** The alerts about the error rate of one endpoint. *)
Definition error_alerts_for (endpoint : string) (alerts : list alert) : list alert :=
  List.filter
    (fun a => String.eqb (type a) "error" && String.eqb (severity a) "high"
              && String.prefix ("High error rate for " +:+ endpoint +:+ ":") (message a))
    alerts.

(** The readings that the resource rules see. *)
Definition memory_of (system : option system_metrics) : Q :=
  match system with Some s => sys_memory_percent s | None => 0%Q end.

Definition cpu_of (system : option system_metrics) : Q :=
  match system with Some s => sys_cpu_percent s | None => 0%Q end.

Definition with_severity (level : string) (alerts : list alert) : list alert :=
  List.filter (fun a => String.eqb (severity a) level) alerts.

End Dashboard.


(** ** Concrete inputs used by the examples below *)
Module Scenario.
Import Py.

Definition request_ab : Search.ProductSearchRequest := Search.base_request (Some Search.attrs_ab).
Definition request_ba : Search.ProductSearchRequest := Search.base_request (Some Search.attrs_ba).

(** A search for phones with every optional filter left out. *)
Definition request_bare : Search.ProductSearchRequest :=
  Search.mkRequest "phone" None None None None None false false None None
                   "relevance" "desc" 1 20.

(** The same search with every optional filter sent empty: category 0, an
    empty brand, the prices 0.00 and -0, the rating 0E+2, no tag and no
    attribute. *)
Definition request_blank : Search.ProductSearchRequest :=
  Search.mkRequest "phone" (Some 0) (Some "") (Some (mkDecimal false 0 (-2)))
                   (Some (mkDecimal true 0 0)) (Some (mkDecimal false 0 2))
                   false false (Some []) (Some []) "relevance" "desc" 1 20.

(** A search for phones from [price] upwards. *)
Definition request_from (price : Decimal) : Search.ProductSearchRequest :=
  Search.mkRequest "phone" None None (Some price) None None false false None None
                   "relevance" "desc" 1 20.

Definition product : pyval := PDict [("id", PInt 1); ("name", PStr "phone")].

(** A service whose shared tier is reachable and empty. *)
Definition connected : Cache.CacheService := Cache.new (Some ∅).

(** A service whose connection attempt failed at start-up. *)
Definition local_only : Cache.CacheService := Cache.new None.

Definition refused : option string := Some "Connection refused".

Definition after_set : Cache.CacheService :=
  snd (Cache.set connected 0 None "product:1" product (Some 3600)).



(** A miss, a write, a hit, a failed read after the local copy lapsed, an
    invalidation and a last miss. *)
Definition mixed_calls : list Cache.step :=
  [Cache.mkStep 0 None (Cache.CallGet "product:1");
   Cache.mkStep 1 None (Cache.CallSet "product:1" product (Some 3600));
   Cache.mkStep 2 None (Cache.CallGet "product:1");
   Cache.mkStep 400 refused (Cache.CallGet "product:1");
   Cache.mkStep 401 None (Cache.CallDeletePattern "product:*");
   Cache.mkStep 402 None (Cache.CallDelete "product:1");
   Cache.mkStep 403 None (Cache.CallGet "product:1")].


Definition quiet : Monitor.probe := Monitor.mkProbe 1000 0 50 4096 4096 10.

Definition hit (endpoint : string) (response_time : Q) (status_code : Z)
  : Monitor.observation :=
  Monitor.mkObservation endpoint response_time status_code "GET" None None false 0 0.

Definition busy : Dashboard.system_metrics := Dashboard.mkSystem 10 50.

(** One failing request on a fresh aggregator. *)
Definition one_failure : Monitor.PerformanceMonitor :=
  Monitor.record_request (Monitor.new 0) quiet (hit "/orders" (1 # 10) 500).

(** Ten requests whose response times are the tenths, slowest first. *)
Definition ten_requests : Monitor.PerformanceMonitor :=
  Monitor.record_all (Monitor.new 0)
    (map (fun t => (quiet, hit "/search" t 200)) (rev Monitor.tenths)).

(** [n] requests, the i-th taking i milliseconds. *)
Definition burst (n : nat) : list (Monitor.probe * Monitor.observation) :=
  map (fun i => (quiet, hit "/search" (Z.of_nat i # 1000) 200)) (seq 0 n).

End Scenario.


(** ** services/cache_service.py, the remaining operations *)
Module CacheOps.
Import Py Config Cache.

(** [logger.info(...)]. *)
Definition log_info (text : string) (c : CacheService) : CacheService :=
  mkCache (redis_client c) (local_cache c) (cache_stats c)
          (logged c ++ [mkLog "INFO" text])%list.

Definition clear_all (c : CacheService) (now : Z) (fault : option string)
  : bool * CacheService :=
  let c1 := with_local c ∅ in
  match redis_client c1 with
  | Some db =>
      match fault with
      | Some e => (false, on_error "Cache clear all error" e c1)
      | None =>
          let pattern := CACHE_PREFIX +:+ ":*" in
          let keys := redis_keys db now pattern in
          if decide (keys = ∅) then (true, log_info "All caches cleared" c1)
          else (true, log_info "All caches cleared"
                        (with_redis c1 (redis_delete_keys db now pattern)))
      end
  | None => (true, log_info "All caches cleared" c1)
  end.

(** The local half of [set_many]: one entry per item, in the dict's order. *)
Definition store_local (now ttl : Z) (data : pydict pyval) (l : gmap string local_entry)
  : gmap string local_entry :=
  fold_left
    (fun acc kv => <[fst kv := mkEntry (snd kv) (now + Z.min ttl CACHE_SHORT_TTL)]> acc)
    data l.

(** The pipeline of [set_many]: one [SETEX] per item, sent together. *)
Definition store_shared (now ttl : Z) (data : pydict pyval) (db : gmap string redis_entry)
  : gmap string redis_entry :=
  fold_left
    (fun acc kv =>
       <[_get_cache_key (fst kv) := mkRedisEntry (_serialize (snd kv)) (now + ttl)]> acc)
    data db.

Definition count_sets (n : Z) (c : CacheService) : CacheService :=
  let s := cache_stats c in
  mkCache (redis_client c) (local_cache c)
          (mkStats (hits s) (misses s) (sets s + n) (deletes s) (errors s)) (logged c).

Definition set_many (c : CacheService) (now : Z) (fault : option string)
    (data : pydict pyval) (ttl : option Z) : bool * CacheService :=
  let ttl := effective_ttl ttl in
  let c1 := with_local c (store_local now ttl data (local_cache c)) in
  let failed e := (false, on_error "Cache set many error" e c1) in
  let stored := Z.of_nat (length data) in
  match redis_client c1 with
  | Some db =>
      match fault with
      | Some e => failed e
      | None =>
          match data with
          | [] => (true, count_sets stored c1)
          | _ :: _ =>
              if ttl <=? 0 then failed "invalid expire time in 'setex' command"
              else (true, count_sets stored (with_redis c1 (store_shared now ttl data db)))
          end
      end
  | None => (true, count_sets stored c1)
  end.

(** [get_many]: every key comes with what the shared tier does during its
    read. *)
Fixpoint get_many_from (c : CacheService) (now : Z) (keys : list (string * option string))
    (results : pydict pyval) : pydict pyval * CacheService :=
  match keys with
  | [] => (results, c)
  | (key, fault) :: rest =>
      let (value, c') := get c now fault key in
      match value with
      | PNone => get_many_from c' now rest results
      | _ => get_many_from c' now rest (dict_set results key value)
      end
  end.

Definition get_many (c : CacheService) (now : Z) (keys : list (string * option string))
  : pydict pyval * CacheService :=
  get_many_from c now keys [].

(** The specialised methods. *)
Definition product_key (product_id : Z) : string := "product:" +:+ str_int product_id.

Definition get_product (c : CacheService) (now : Z) (fault : option string) (product_id : Z)
  : pyval * CacheService :=
  get c now fault (product_key product_id).

Definition set_product (c : CacheService) (now : Z) (fault : option string)
    (product_id : Z) (product : pyval) : bool * CacheService :=
  set c now fault (product_key product_id) product (Some CACHE_DEFAULT_TTL).

Definition invalidate_product (c : CacheService) (now : Z) (fault : option string)
    (product_id : Z) : bool * CacheService :=
  delete c now fault (product_key product_id).

Definition invalidate_category_products (c : CacheService) (now : Z)
    (fault : option string) (category_id : Z) : Z * CacheService :=
  delete_pattern c now fault ("products:category:" +:+ str_int category_id +:+ ":*").

(** No counter of [c'] is below the same counter of [c]. *)
Definition counters_grow (c c' : CacheService) : Prop :=
  hits (cache_stats c) <= hits (cache_stats c') /\
  misses (cache_stats c) <= misses (cache_stats c') /\
  sets (cache_stats c) <= sets (cache_stats c') /\
  deletes (cache_stats c) <= deletes (cache_stats c') /\
  errors (cache_stats c) <= errors (cache_stats c').

(** The shared copy of a full key, if the service has a client and the
    server holds the key. *)
Definition shared_entry (c : CacheService) (full_key : string) : option redis_entry :=
  match redis_client c with
  | Some db => db !! full_key
  | None => None
  end.

End CacheOps.


(** ** core/monitoring.py, the remaining readers *)
Module MonitorOps.
Import Py Config Monitor.

(** [get_endpoint_metrics]: the endpoint's name and the same figures as its
    entry in a snapshot; [None] for an endpoint never seen. *)
Definition get_endpoint_metrics (self : PerformanceMonitor) (endpoint : string)
  : option (string * EndpointMetrics) :=
  match dict_get (endpoint_stats self) endpoint with
  | None => None
  | Some stats =>
      if st_total_requests stats =? 0 then None
      else Some (endpoint, endpoint_view self endpoint stats)
  end.

(** One item of [get_slow_queries]. *)
Record SlowQuery : Type := mkSlowQuery {
  sq_endpoint : string;
  sq_database_time : Q;
  sq_timestamp : Z;
  sq_user_id : option Z
}.

Definition slow_entry (m : PerformanceMetric) : SlowQuery :=
  mkSlowQuery (endpoint m) (database_time m) (timestamp m) (user_id m).

Definition is_slow (m : PerformanceMetric) : bool :=
  negb (Qle_bool (database_time m) SLOW_QUERY_THRESHOLD).

(** [list.sort(key=database_time, reverse=True)]: descending, and stable,
    so items with equal times keep their order. *)
Fixpoint insert_desc (x : SlowQuery) (l : list SlowQuery) : list SlowQuery :=
  match l with
  | [] => [x]
  | y :: rest =>
      if Qle_bool (sq_database_time y) (sq_database_time x) then x :: y :: rest
      else y :: insert_desc x rest
  end.

Definition sort_desc (l : list SlowQuery) : list SlowQuery :=
  fold_right insert_desc [] l.

Definition get_slow_queries (self : PerformanceMonitor) : list SlowQuery :=
  let slow_queries := map slow_entry (List.filter is_slow (metrics self)) in
  firstn 50 (sort_desc slow_queries).

(** The total of a status-code histogram. *)
Definition code_total (codes : list (Z * Z)) : Z :=
  fold_right (fun kv acc => snd kv + acc) 0 codes.

(** What the running totals of one endpoint always satisfy. *)
Definition stats_sound (stats : EndpointStats) : Prop :=
  1 <= st_total_requests stats /\
  0 <= st_errors stats <= st_total_requests stats /\
  0 <= st_cache_hits stats <= st_total_requests stats /\
  code_total (st_status_codes stats) = st_total_requests stats.

(** The requests of a series that went to one endpoint and satisfy a test. *)
Definition count_calls (test : observation -> bool) (endpoint : string)
    (calls : list (probe * observation)) : Z :=
  Z.of_nat (length (List.filter
                      (fun call => String.eqb (o_endpoint (snd call)) endpoint
                                   && test (snd call)) calls)).

Definition failed (o : observation) : bool := 400 <=? o_status_code o.

(** The state after a series of [record_cache_hit] calls. *)
Definition record_cache_hits (self : PerformanceMonitor) (cache_types : list string)
  : PerformanceMonitor :=
  fold_left record_cache_hit cache_types self.

Definition sum_q (l : list Q) : Q := fold_right Qplus 0%Q l.

(** Slowest first. *)
Definition by_time_desc (x y : SlowQuery) : Prop :=
  (sq_database_time y <= sq_database_time x)%Q.

(** The queries and the slow requests that a series of calls reports. *)
Definition reported_queries (calls : list (probe * observation)) : Z :=
  fold_right (fun call acc => o_database_queries (snd call) + acc) 0 calls.

Definition slow_calls (calls : list (probe * observation)) : Z :=
  Z.of_nat (length (List.filter
                      (fun call => negb (Qle_bool (o_database_time (snd call)) 1)) calls)).

(** [x] is at least the running minimum [m], where [None] is infinity. *)
Definition min_le (m : option Q) (x : Q) : Prop :=
  match m with
  | Some lo => (lo <= x)%Q
  | None => False
  end.

End MonitorOps.

(** ** services/search_service.py, pagination in [search_products] *)
Module SearchOps.
Import Py Search.

(** [offset = (request.page - 1) * request.size]. *)
Definition offset_of (request : ProductSearchRequest) : Z :=
  (page request - 1) * size request.

(** [pages = (total + request.size - 1) // request.size]. *)
Definition pages_of (total : Z) (request : ProductSearchRequest) : Z :=
  (total + size request - 1) / size request.

(** [query.offset(offset).limit(request.size)] on the ordered rows that
    match the filters. *)
Definition page_rows {A : Type} (rows : list A) (request : ProductSearchRequest) : list A :=
  firstn (Z.to_nat (size request)) (skipn (Z.to_nat (offset_of request)) rows).

(** The same request for another page, or with another page size. *)
Definition with_page (request : ProductSearchRequest) (p : Z) : ProductSearchRequest :=
  mkRequest (query request) (category_id request) (brand request) (min_price request)
            (max_price request) (min_rating request) (in_stock_only request)
            (featured_only request) (tags request) (attributes request)
            (sort_by request) (sort_order request) p (size request).

Definition with_size (request : ProductSearchRequest) (s : Z) : ProductSearchRequest :=
  mkRequest (query request) (category_id request) (brand request) (min_price request)
            (max_price request) (min_rating request) (in_stock_only request)
            (featured_only request) (tags request) (attributes request)
            (sort_by request) (sort_order request) (page request) s.

(** [settings.SEARCH_CACHE_TTL]. *)
Definition SEARCH_CACHE_TTL : Z := 300.

(** [clear_search_cache]: one [delete_pattern] per pattern; [faults] says
    what the shared tier does during each of the three. *)
Definition clear_search_cache (c : Cache.CacheService) (now : Z)
    (faults : option string * option string * option string) : bool * Cache.CacheService :=
  let '(f1, f2, f3) := faults in
  let c1 := snd (Cache.delete_pattern c now f1 "search:*") in
  let c2 := snd (Cache.delete_pattern c1 now f2 "suggestions:*") in
  let c3 := snd (Cache.delete_pattern c2 now f3 "popular_searches:*") in
  (true, CacheOps.log_info "Search cache cleared" c3).

End SearchOps.

(** * Properties *)

(** ** Search cache key *)
Module SearchKey.
Import Py Search.

Lemma dict_get_absent {V : Type} (d : pydict V) (k : string) :
  ~ In k (dict_keys d) -> dict_get d k = None.
Proof.
  induction d as [| [k' v] rest IH]; intros Hnot; [reflexivity |].
  cbn in *. destruct (String.eqb_spec k' k) as [-> | Hne].
  - exfalso. apply Hnot. now left.
  - apply IH. intros Hin. apply Hnot. now right.
Qed.

(** Two dicts with the same bindings and the same key order are the same
    association list. *)
Lemma dict_same_order_eq {V : Type} (d1 d2 : pydict V) :
  dict_wf d1 -> dict_wf d2 -> dict_same d1 d2 ->
  dict_keys d1 = dict_keys d2 -> d1 = d2.
Proof.
  revert d2. induction d1 as [| [k v] rest IH]; intros [| [k' v'] rest'] W1 W2 Hsame Hkeys;
    try discriminate; [reflexivity |].
  cbn in Hkeys. injection Hkeys as -> Hkeys.
  apply List.NoDup_cons_iff in W1 as [Hk1 W1]. apply List.NoDup_cons_iff in W2 as [Hk2 W2].
  pose proof (Hsame k') as Hhead. cbn in Hhead. rewrite String.eqb_refl in Hhead.
  injection Hhead as ->. f_equal.
  apply IH; try assumption.
  intros j. pose proof (Hsame j) as Hj. cbn in Hj.
  destruct (String.eqb_spec k' j) as [E | Hne]; [| exact Hj].
  rewrite <- E. rewrite (dict_get_absent rest k'), (dict_get_absent rest' k'); auto.
Qed.

Lemma attrs_ab_same_ba : dict_same attrs_ab attrs_ba.
Proof.
  intros k. unfold attrs_ab, attrs_ba. cbn [dict_get].
  destruct (String.eqb_spec "a" k) as [<- | Ha]; [reflexivity |].
  destruct (String.eqb_spec "b" k) as [<- | Hb]; reflexivity.
Qed.

Lemma two_keys_wf {V : Type} (x y : V) : dict_wf [("a", x); ("b", y)] /\ dict_wf [("b", y); ("a", x)].
Proof.
  split; unfold dict_wf, dict_keys; cbn [map fst];
    (apply List.NoDup_cons; [| apply List.NoDup_cons; [intros [] | apply List.NoDup_nil]]);
    intros [H | []]; discriminate H.
Qed.

(** C1, as stated, fails: the requests [request_ab] and [request_ba] hold
    the same value in every field (their attribute maps bind a to 1 and b to
    2, populated in opposite orders), and their cache keys differ. *)
Lemma cache_key_depends_on_attribute_order :
  same_fields Scenario.request_ab Scenario.request_ba /\
  _create_cache_key Scenario.request_ab <> _create_cache_key Scenario.request_ba.
Proof.
  split.
  - unfold same_fields. cbn.
    repeat (split; [reflexivity |]).
    split; [| repeat split; reflexivity].
    destruct (two_keys_wf (PInt 1) (PInt 2)) as [W1 W2].
    split; [exact W1 |]. split; [exact W2 |]. exact attrs_ab_same_ba.
  - vm_compute. discriminate.
Qed.

(** The key also tells apart two notations of one price: 1.0 and 1.00 stand
    for the same number and give different keys. *)
Lemma cache_key_depends_on_decimal_notation :
  (decimal_value (mkDecimal false 10 (-1)) == decimal_value (mkDecimal false 100 (-2)))%Q /\
  _create_cache_key (Scenario.request_from (mkDecimal false 10 (-1)))
  = "search:phone:::1.0:::False:False:[]:{}:relevance:desc:1:20" /\
  _create_cache_key (Scenario.request_from (mkDecimal false 100 (-2)))
  = "search:phone:::1.00:::False:False:[]:{}:relevance:desc:1:20".
Proof.
  split; [vm_compute; reflexivity |]. split; vm_compute; reflexivity.
Qed.

Lemma alike_int (a b : option Z) :
  alike unset_int a b -> str_int_or_empty a = str_int_or_empty b.
Proof.
  intros [-> | [[-> | ->] [-> | ->]]]; reflexivity.
Qed.

Lemma alike_str (a b : option string) :
  alike unset_str a b -> str_or_empty a = str_or_empty b.
Proof.
  intros [-> | [[-> | ->] [-> | ->]]]; reflexivity.
Qed.

Lemma unset_decimal_empty (a : option Decimal) :
  unset_decimal a -> str_decimal_or_empty a = "".
Proof.
  intros [-> | (d & -> & Hzero)]; [reflexivity |].
  unfold str_decimal_or_empty, decimal_truthy. now rewrite Hzero.
Qed.

Lemma alike_decimal (a b : option Decimal) :
  alike unset_decimal a b -> str_decimal_or_empty a = str_decimal_or_empty b.
Proof.
  intros [-> | [Ha Hb]]; [reflexivity |].
  now rewrite (unset_decimal_empty a Ha), (unset_decimal_empty b Hb).
Qed.

Lemma alike_tags (a b : option (list string)) :
  alike unset_tags a b -> str_tags a = str_tags b.
Proof.
  intros [-> | [[-> | ->] [-> | ->]]]; reflexivity.
Qed.

Lemma alike_attributes (a b : option (pydict pyval)) :
  alike unset_attributes a b -> str_attributes a = str_attributes b.
Proof.
  intros [-> | [[-> | ->] [-> | ->]]]; reflexivity.
Qed.

(** C1, amended: two requests that carry the same filters get the same
    cache key, where a filter is the same in both when it is identical (a
    decimal in the same notation, the tags in the same order, the attributes
    with the same keys in the same order and identical values) or when each
    request leaves it out or sends it empty (category 0, an empty brand, a
    zero price or rating in any notation, no tag, no attribute). *)
Theorem cache_key_deterministic (r1 r2 : ProductSearchRequest) :
  same_filters r1 r2 ->
  _create_cache_key r1 = _create_cache_key r2.
Proof.
  intros (Hq & Hc & Hb & Hlo & Hhi & Hr & Hs & Hf & Ht & Ha & Hsb & Hso & Hp & Hz).
  unfold _create_cache_key.
  rewrite Hq, (alike_int _ _ Hc), (alike_str _ _ Hb), (alike_decimal _ _ Hlo),
    (alike_decimal _ _ Hhi), (alike_decimal _ _ Hr), Hs, Hf, (alike_tags _ _ Ht),
    (alike_attributes _ _ Ha), Hsb, Hso, Hp, Hz.
  reflexivity.
Qed.

Lemma cache_key_deterministic_witness :
  Scenario.request_bare <> Scenario.request_blank /\
  _create_cache_key Scenario.request_bare = _create_cache_key Scenario.request_blank /\
  _create_cache_key Scenario.request_blank
  = "search:phone::::::False:False:[]:{}:relevance:desc:1:20".
Proof.
  split; [discriminate |].
  split; [| vm_compute; reflexivity].
  apply (cache_key_deterministic Scenario.request_bare Scenario.request_blank).
  unfold same_filters, alike, unset_int, unset_str, unset_decimal, unset_tags,
    unset_attributes.
  cbn.
  repeat split; try reflexivity; right; split; eauto.
Defined.

End SearchKey.


(** ** Two-tier cache *)
Module CacheFacts.
Import Py Config Cache.

Lemma get_local_hit (c : CacheService) (now : Z) (f : option string) (k : string)
    (e : local_entry) :
  local_cache c !! k = Some e -> now < expires_at e ->
  get c now f k = (data e, count_hit c).
Proof.
  intros Hk Hlive. unfold get. rewrite Hk.
  apply Z.ltb_lt in Hlive. now rewrite Hlive.
Qed.

Lemma set_local_entry (c : CacheService) (now : Z) (f : option string) (k : string)
    (v : pyval) (ttl : option Z) :
  local_cache (snd (set c now f k v ttl)) !! k
  = Some (mkEntry v (now + Z.min (effective_ttl ttl) CACHE_SHORT_TTL)).
Proof.
  unfold set. cbn [with_local redis_client local_cache].
  destruct (redis_client c) as [db |]; [destruct f as [e |] |]; cbn;
    try (destruct (redis_setex _ _ _ _ _); cbn); apply lookup_insert_eq.
Qed.


(** After a [set] that reported success, the local copy of the key expires
    no later than its shared copy. *)
Lemma set_local_expires_first (c c1 : CacheService) (now : Z) (f : option string)
    (k : string) (v : pyval) (ttl : option Z) :
  set c now f k v ttl = (true, c1) -> local_expires_first c1 k.
Proof.
  unfold set. cbn [with_local redis_client local_cache].
  destruct (redis_client c) as [db |] eqn:Hclient.
  - destruct f as [e |]; [intros [=] |].
    unfold redis_setex. destruct (effective_ttl ttl <=? 0); [intros [=] |].
    intros [= <-]. intros db' e r Hdb He Hr. cbn in Hdb, He.
    injection Hdb as <-.
    rewrite lookup_insert_eq in He. rewrite lookup_insert_eq in Hr.
    injection He as <-. injection Hr as <-. cbn. lia.
  - intros [= <-]. intros db' e r Hdb. cbn in Hdb. congruence.
Qed.

Lemma delete_pattern_keeps_local (c : CacheService) (now : Z) (f : option string)
    (pattern : string) :
  local_cache (snd (delete_pattern c now f pattern)) = local_cache c.
Proof.
  unfold delete_pattern.
  destruct (redis_client c) as [db |]; [| reflexivity].
  destruct f as [e |]; [reflexivity |].
  destruct (decide _); reflexivity.
Qed.


(** C2 (the code departs from it): [set] at instant 0 with a TTL of 3600 s
    puts the shared copy's expiry at 3600; a [get] at instant 3500, after the
    local copy has lapsed, finds the shared copy and stores a local copy
    expiring at 3800, later than the shared one. *)
Theorem get_repopulation_outlives_shared_copy :
  fst (get Scenario.after_set 3500 None "product:1") = Scenario.product /\
  local_cache (snd (get Scenario.after_set 3500 None "product:1")) !! "product:1"
  = Some (mkEntry Scenario.product 3800) /\
  match redis_client (snd (get Scenario.after_set 3500 None "product:1")) with
  | Some db => rexpires <$> (db !! _get_cache_key "product:1")
  | None => None
  end = Some 3600 /\
  ~ local_expires_first (snd (get Scenario.after_set 3500 None "product:1")) "product:1".
Proof.
  split; [vm_compute; reflexivity |].
  split; [vm_compute; reflexivity |].
  split; [vm_compute; reflexivity |].
  intros H.
  specialize (H (<[_get_cache_key "product:1" :=
                    mkRedisEntry (_serialize Scenario.product) 3600]> ∅)
                (mkEntry Scenario.product 3800)
                (mkRedisEntry (_serialize Scenario.product) 3600)).
  assert (3800 <= 3600) as Habs; [| lia].
  apply H; vm_compute; reflexivity.
Qed.




(** C6 (the code departs from it): after [set("product:1", ...)],
    [delete_pattern("product:*")] removes the shared copy and returns 1, and
    leaves the local copy in place, so that the next [get] still returns the
    value. *)
Theorem delete_pattern_leaves_local_copy :
  fst (delete_pattern Scenario.after_set 1 None "product:*") = 1 /\
  match redis_client (snd (delete_pattern Scenario.after_set 1 None "product:*")) with
  | Some db => redis_get db 1 (_get_cache_key "product:1")
  | None => None
  end = None /\
  local_cache (snd (delete_pattern Scenario.after_set 1 None "product:*")) !! "product:1"
  = Some (mkEntry Scenario.product 300) /\
  fst (get (snd (delete_pattern Scenario.after_set 1 None "product:*")) 2 None "product:1")
  = Scenario.product.
Proof.
  repeat split; vm_compute; reflexivity.
Qed.



(** *** Hit and miss accounting *)

Lemma count_get_errors_app (l1 l2 : list log_line) :
  count_get_errors (l1 ++ l2) = count_get_errors l1 + count_get_errors l2.
Proof.
  unfold count_get_errors. rewrite List.filter_app, List.length_app. lia.
Qed.

Lemma prefix_of_append (s a b : string) : String.prefix s ((s +:+ a) +:+ b) = true.
Proof.
  induction s as [| ch s IH].
  - change (("" +:+ a) +:+ b) with (a +:+ b). destruct (a +:+ b); reflexivity.
  - change (String.prefix (String ch s) ((String ch s +:+ a) +:+ b))
      with (if ascii_dec ch ch then String.prefix s ((s +:+ a) +:+ b) else false).
    destruct (ascii_dec ch ch) as [_ | Hne]; [exact IH | contradiction].
Qed.

Lemma get_error_counted (k e : string) :
  count_get_errors [mkLog "ERROR" (("Cache get error for key " +:+ k) +:+ ": " +:+ e)] = 1.
Proof.
  unfold count_get_errors, is_get_error. cbn [List.filter message].
  now rewrite prefix_of_append.
Qed.

(** What one [get] does to the tiers and to the counters. *)
Lemma get_accounting (c : CacheService) (now : Z) (f : option string) (k : string) :
  holds_values c ->
  let v := fst (get c now f k) in
  let c' := snd (get c now f k) in
  holds_values c' /\
  hits (cache_stats c') = hits (cache_stats c) + (if is_value v then 1 else 0) /\
  misses (cache_stats c') + count_get_errors (logged c')
  = misses (cache_stats c) + count_get_errors (logged c) + (if is_value v then 0 else 1) /\
  errors (cache_stats c') - errors (cache_stats c)
  = count_get_errors (logged c') - count_get_errors (logged c).
Proof.
  intros [Hlocal Hshared]. unfold get.
  assert (Hdrop : forall j e, base.delete k (local_cache c) !! j = Some e -> data e <> PNone).
  { intros j e He. apply lookup_delete_Some in He as [_ He]. eauto. }
  assert (Hrest :
    forall l : gmap string local_entry,
      (forall j e, l !! j = Some e -> data e <> PNone) ->
      let r :=
        match redis_client c with
        | Some db =>
            match f with
            | Some e => (PNone, on_error ("Cache get error for key " +:+ k) e (with_local c l))
            | None =>
                match redis_get db now (_get_cache_key k) with
                | Some cached_data =>
                    (_deserialize cached_data,
                     count_hit (with_local (with_local c l)
                       (<[k := mkEntry (_deserialize cached_data) (now + CACHE_SHORT_TTL)]> l)))
                | None => (PNone, count_miss (with_local c l))
                end
            end
        | None => (PNone, count_miss (with_local c l))
        end in
      holds_values (snd r) /\
      hits (cache_stats (snd r)) = hits (cache_stats c) + (if is_value (fst r) then 1 else 0) /\
      misses (cache_stats (snd r)) + count_get_errors (logged (snd r))
      = misses (cache_stats c) + count_get_errors (logged c)
        + (if is_value (fst r) then 0 else 1) /\
      errors (cache_stats (snd r)) - errors (cache_stats c)
      = count_get_errors (logged (snd r)) - count_get_errors (logged c)).
  { intros l Hl.
    destruct (redis_client c) as [db |] eqn:Hdb.
    - destruct f as [e |].
      + cbn. rewrite count_get_errors_app, get_error_counted.
        repeat split; try lia.
        * intros j x Hx. cbn in Hx. eauto.
        * intros db' j r Hc Hr. cbn in Hc. rewrite Hdb in Hc. injection Hc as <-. eauto.
      + unfold redis_get.
        destruct (db !! _get_cache_key k) as [r |] eqn:Hr.
        * destruct (now <? rexpires r).
          -- assert (Hv : document (rvalue r) <> PNone) by eauto.
             cbn. unfold _deserialize.
             destruct (document (rvalue r)) eqn:Hdoc; try contradiction;
               (cbn [is_value]; repeat split; try lia;
                [ intros j x Hx; cbn in Hx;
                  apply lookup_insert_Some in Hx as [[_ <-] | [_ Hx]]; [cbn; congruence | eauto]
                | intros db' j r' Hc Hr'; cbn in Hc; rewrite Hdb in Hc;
                  injection Hc as <-; eauto ]).
          -- cbn. repeat split; try lia.
             ++ intros j x Hx. cbn in Hx. eauto.
             ++ intros db' j r' Hc Hr'. cbn in Hc. rewrite Hdb in Hc. injection Hc as <-. eauto.
        * cbn. repeat split; try lia.
          -- intros j x Hx. cbn in Hx. eauto.
          -- intros db' j r' Hc Hr'. cbn in Hc. rewrite Hdb in Hc. injection Hc as <-. eauto.
    - cbn. repeat split; try lia.
      + intros j x Hx. cbn in Hx. eauto.
      + intros db' j r' Hc Hr'. cbn in Hc. congruence. }
  destruct (local_cache c !! k) as [e |] eqn:Hk.
  - destruct (now <? expires_at e).
    + assert (Hv : data e <> PNone) by eauto.
      cbn. destruct (data e) eqn:Hd; try contradiction;
        (cbn [is_value]; repeat split; try lia; [intros j x Hx; cbn in Hx; eauto
                                | intros db' j r' Hc Hr'; cbn in Hc; eauto]).
    + cbn [fst snd]. cbn [with_local redis_client local_cache].
      apply (Hrest (base.delete k (local_cache c)) Hdrop).
  - cbn [fst snd].
    replace c with (with_local c (local_cache c)) at 1 2 3 4 5 6 7 8 by (destruct c; reflexivity).
    apply (Hrest (local_cache c) Hlocal).
Qed.

Lemma set_accounting (c : CacheService) (now : Z) (f : option string) (k : string)
    (v : pyval) (ttl : option Z) :
  holds_values c -> v <> PNone ->
  holds_values (snd (set c now f k v ttl)) /\ quiet_step c (snd (set c now f k v ttl)).
Proof.
  intros [Hlocal Hshared] Hv. unfold set, quiet_step.
  cbn [with_local redis_client local_cache].
  assert (Hins : forall j x,
            <[k := mkEntry v (now + Z.min (effective_ttl ttl) CACHE_SHORT_TTL)]>
              (local_cache c) !! j = Some x -> data x <> PNone).
  { intros j x Hx. apply lookup_insert_Some in Hx as [[_ <-] | [_ Hx]]; [exact Hv | eauto]. }
  assert (Hfail : forall e,
            let c' := on_error ("Cache set error for key " +:+ k) e
                        (with_local c (<[k := mkEntry v (now + Z.min (effective_ttl ttl)
                                                            CACHE_SHORT_TTL)]> (local_cache c))) in
            holds_values c' /\
            hits (cache_stats c') = hits (cache_stats c) /\
            misses (cache_stats c') = misses (cache_stats c) /\
            count_get_errors (logged c') = count_get_errors (logged c) /\
            errors (cache_stats c) <= errors (cache_stats c')).
  { intros e. cbn. rewrite count_get_errors_app.
    change (count_get_errors [_]) with 0.
    repeat split; try lia; [exact Hins | intros db' j r Hc Hr; cbn in Hc; eauto]. }
  destruct (redis_client c) as [db |] eqn:Hdb.
  - destruct f as [e |]; [apply Hfail |].
    unfold redis_setex. destruct (effective_ttl ttl <=? 0); [apply Hfail |].
    cbn. repeat split; try lia; [exact Hins |].
    intros db' j r Hc Hr. injection Hc as <-.
    apply lookup_insert_Some in Hr as [[_ <-] | [_ Hr]]; [| eauto].
    unfold _serialize. now destruct (_ && _).
  - cbn. repeat split; try lia; [exact Hins |].
    intros db' j r Hc. cbn in Hc. congruence.
Qed.

Lemma delete_accounting (c : CacheService) (now : Z) (f : option string) (k : string) :
  holds_values c ->
  holds_values (snd (delete c now f k)) /\ quiet_step c (snd (delete c now f k)).
Proof.
  intros [Hlocal Hshared]. unfold delete, quiet_step.
  cbn [with_local redis_client local_cache].
  assert (Hdrop : forall j e, base.delete k (local_cache c) !! j = Some e -> data e <> PNone).
  { intros j e He. apply lookup_delete_Some in He as [_ He]. eauto. }
  destruct (redis_client c) as [db |] eqn:Hdb.
  - destruct f as [e |]; cbn.
    + rewrite count_get_errors_app. change (count_get_errors [_]) with 0.
      repeat split; try lia; [exact Hdrop | intros db' j r Hc Hr; cbn in Hc; rewrite Hdb in Hc; eauto].
    + repeat split; try lia; [exact Hdrop |].
      intros db' j r Hc Hr. injection Hc as <-.
      apply lookup_delete_Some in Hr as [_ Hr]. eauto.
  - cbn. repeat split; try lia; [exact Hdrop |].
    intros db' j r Hc. cbn in Hc. congruence.
Qed.

Lemma delete_pattern_accounting (c : CacheService) (now : Z) (f : option string)
    (pattern : string) :
  holds_values c ->
  holds_values (snd (delete_pattern c now f pattern)) /\
  quiet_step c (snd (delete_pattern c now f pattern)).
Proof.
  intros [Hlocal Hshared]. unfold delete_pattern, quiet_step.
  destruct (redis_client c) as [db |] eqn:Hdb.
  - destruct f as [e |]; cbn.
    + rewrite count_get_errors_app. change (count_get_errors [_]) with 0.
      repeat split; try lia; [exact Hlocal | intros db' j r Hc Hr; cbn in Hc; rewrite Hdb in Hc; eauto].
    + destruct (decide _) as [Hnone | Hsome]; cbn.
      * repeat split; try lia; [exact Hlocal | intros db' j r Hc Hr; rewrite ?Hdb in Hc; eauto].
      * repeat split; try lia; [exact Hlocal |].
        intros db' j r Hc Hr. cbn in Hc. injection Hc as <-.
        unfold redis_delete_keys in Hr.
        apply map_lookup_filter_Some in Hr as [Hr _]. eauto.
  - cbn. repeat split; try lia; [exact Hlocal | intros db' j r Hc Hr; rewrite ?Hdb in Hc; eauto].
Qed.

(** The accounting of a whole sequence, from any state that holds no
    [None]. *)
Lemma run_accounting (steps : list step) (c : CacheService) :
  holds_values c -> stores_values steps ->
  hits (cache_stats (snd (run c steps)))
  = hits (cache_stats c) + count_values (fst (run c steps)) /\
  misses (cache_stats (snd (run c steps))) + count_get_errors (logged (snd (run c steps)))
  = misses (cache_stats c) + count_get_errors (logged c)
    + (count_gets steps - count_values (fst (run c steps))) /\
  count_get_errors (logged (snd (run c steps))) - count_get_errors (logged c)
  <= errors (cache_stats (snd (run c steps))) - errors (cache_stats c).
Proof.
  revert c. induction steps as [| s rest IH]; intros c Hc Hsteps.
  - cbn. unfold count_values, count_gets. cbn. lia.
  - assert (Hrest : stores_values rest).
    { intros s' key ttl Hin. apply Hsteps. now right. }
    assert (Hs : forall key ttl, what s <> CallSet key PNone ttl).
    { intros key ttl. apply Hsteps. now left. }
    cbn [run]. unfold run_step, count_gets. cbn [List.filter]. unfold is_get at 1.
    destruct (what s) as [key | key value ttl | key | pattern] eqn:Hwhat.
    + pose proof (get_accounting c (at_time s) (fault s) key Hc) as (Hc' & Hh & Hm & He).
      destruct (get c (at_time s) (fault s) key) as [v c'].
      cbn [fst snd] in Hc', Hh, Hm, He.
      specialize (IH c' Hc' Hrest). destruct (run c' rest) as [rs c''].
      cbn [fst snd] in IH |- *. destruct IH as (IHh & IHm & IHe).
      unfold count_values in *. cbn [List.filter length].
      fold (count_gets rest) in *.
      destruct (is_value v); cbn [length]; unfold count_gets in *; lia.
    + assert (Hv : value <> PNone).
      { intros ->. now apply (Hs key ttl). }
      pose proof (set_accounting c (at_time s) (fault s) key value ttl Hc Hv)
        as (Hc' & Hh & Hm & Hg & He).
      specialize (IH _ Hc' Hrest).
      destruct (run (snd (set c (at_time s) (fault s) key value ttl)) rest) as [rs c''].
      cbn [fst snd] in IH |- *. unfold count_gets in *. lia.
    + pose proof (delete_accounting c (at_time s) (fault s) key Hc)
        as (Hc' & Hh & Hm & Hg & He).
      specialize (IH _ Hc' Hrest).
      destruct (run (snd (delete c (at_time s) (fault s) key)) rest) as [rs c''].
      cbn [fst snd] in IH |- *. unfold count_gets in *. lia.
    + pose proof (delete_pattern_accounting c (at_time s) (fault s) pattern Hc)
        as (Hc' & Hh & Hm & Hg & He).
      specialize (IH _ Hc' Hrest).
      destruct (run (snd (delete_pattern c (at_time s) (fault s) pattern)) rest) as [rs c''].
      cbn [fst snd] in IH |- *. unfold count_gets in *. lia.
Qed.

(** What one [get] does to the counters, told from its result and from
    whether the shared tier was raising. *)
Lemma get_counters (c : CacheService) (now : Z) (f : option string) (k : string) :
  holds_values c ->
  let v := fst (get c now f k) in
  let c' := snd (get c now f k) in
  let raising := match f with Some _ => true | None => false end in
  is_connected (redis_client c') = is_connected (redis_client c) /\
  hits (cache_stats c') = hits (cache_stats c) + (if is_value v then 1 else 0) /\
  misses (cache_stats c')
  = misses (cache_stats c)
    + (if is_value v then 0
       else if is_connected (redis_client c) && raising then 0 else 1) /\
  errors (cache_stats c')
  = errors (cache_stats c)
    + (if is_connected (redis_client c) && raising && negb (is_value v) then 1 else 0).
Proof.
  intros [Hlocal Hshared]. unfold get.
  assert (Hrest :
    forall l : gmap string local_entry,
      let r :=
        match redis_client (with_local c l) with
        | Some db =>
            match f with
            | Some e => (PNone, on_error ("Cache get error for key " +:+ k) e (with_local c l))
            | None =>
                match redis_get db now (_get_cache_key k) with
                | Some cached_data =>
                    (_deserialize cached_data,
                     count_hit (with_local (with_local c l)
                       (<[k := mkEntry (_deserialize cached_data) (now + CACHE_SHORT_TTL)]>
                          (local_cache (with_local c l)))))
                | None => (PNone, count_miss (with_local c l))
                end
            end
        | None => (PNone, count_miss (with_local c l))
        end in
      let raising := match f with Some _ => true | None => false end in
      is_connected (redis_client (snd r)) = is_connected (redis_client c) /\
      hits (cache_stats (snd r)) = hits (cache_stats c) + (if is_value (fst r) then 1 else 0) /\
      misses (cache_stats (snd r))
      = misses (cache_stats c)
        + (if is_value (fst r) then 0
           else if is_connected (redis_client c) && raising then 0 else 1) /\
      errors (cache_stats (snd r))
      = errors (cache_stats c)
        + (if is_connected (redis_client c) && raising && negb (is_value (fst r))
           then 1 else 0)).
  { intros l. cbn [with_local redis_client local_cache].
    destruct (redis_client c) as [db |] eqn:Hdb.
    - destruct f as [e |].
      + cbn. rewrite Hdb. cbn. repeat split; lia.
      + unfold redis_get.
        destruct (db !! _get_cache_key k) as [r |] eqn:Hr.
        * destruct (now <? rexpires r).
          -- assert (Hv : document (rvalue r) <> PNone) by eauto.
             unfold _deserialize.
             destruct (document (rvalue r)); try contradiction;
               cbn; rewrite Hdb; cbn; repeat split; lia.
          -- cbn. rewrite Hdb. cbn. repeat split; lia.
        * cbn. rewrite Hdb. cbn. repeat split; lia.
    - destruct f; cbn; rewrite Hdb; cbn; repeat split; lia. }
  destruct (local_cache c !! k) as [e |] eqn:Hk.
  - destruct (now <? expires_at e).
    + assert (Hv : data e <> PNone) by eauto.
      destruct (data e) eqn:Hd; try contradiction;
        cbn; rewrite ?Hd; cbn; destruct (redis_client c), f; cbn; repeat split; lia.
    + apply (Hrest (base.delete k (local_cache c))).
  - replace c with (with_local c (local_cache c)) at 1 2 3 4 by (destruct c; reflexivity).
    apply (Hrest (local_cache c)).
Qed.

Lemma set_counters (c : CacheService) (now : Z) (f : option string) (k : string)
    (v : pyval) (ttl : option Z) :
  let c' := snd (set c now f k v ttl) in
  let failed :=
    match f with Some _ => true | None => false end
    || match ttl with Some t => t <? 0 | None => false end in
  is_connected (redis_client c') = is_connected (redis_client c) /\
  hits (cache_stats c') = hits (cache_stats c) /\
  misses (cache_stats c') = misses (cache_stats c) /\
  errors (cache_stats c')
  = errors (cache_stats c) + (if is_connected (redis_client c) && failed then 1 else 0).
Proof.
  unfold set. cbn [with_local redis_client local_cache].
  destruct (redis_client c) as [db |] eqn:Hdb.
  - destruct f as [e |].
    + cbn. rewrite Hdb. cbn. repeat split; lia.
    + unfold redis_setex, effective_ttl, CACHE_DEFAULT_TTL.
      destruct ttl as [t |].
      * destruct (Z.eqb_spec t 0) as [-> | Hne].
        -- cbn. repeat split; lia.
        -- destruct (Z.leb_spec t 0) as [Hle | Hgt], (Z.ltb_spec t 0) as [Hlt | Hge];
             try lia; cbn; rewrite ?Hdb; cbn; repeat split; lia.
      * cbn. repeat split; lia.
  - cbn. rewrite Hdb. cbn. repeat split; lia.
Qed.

Lemma delete_counters (c : CacheService) (now : Z) (f : option string) (k : string) :
  let c' := snd (delete c now f k) in
  let raising := match f with Some _ => true | None => false end in
  is_connected (redis_client c') = is_connected (redis_client c) /\
  hits (cache_stats c') = hits (cache_stats c) /\
  misses (cache_stats c') = misses (cache_stats c) /\
  errors (cache_stats c')
  = errors (cache_stats c) + (if is_connected (redis_client c) && raising then 1 else 0).
Proof.
  unfold delete. cbn [with_local redis_client local_cache].
  destruct (redis_client c) as [db |] eqn:Hdb.
  - destruct f as [e |]; cbn; rewrite ?Hdb; cbn; repeat split; lia.
  - cbn. rewrite Hdb. cbn. repeat split; lia.
Qed.

Lemma delete_pattern_counters (c : CacheService) (now : Z) (f : option string)
    (pattern : string) :
  let c' := snd (delete_pattern c now f pattern) in
  let raising := match f with Some _ => true | None => false end in
  is_connected (redis_client c') = is_connected (redis_client c) /\
  hits (cache_stats c') = hits (cache_stats c) /\
  misses (cache_stats c') = misses (cache_stats c) /\
  errors (cache_stats c')
  = errors (cache_stats c) + (if is_connected (redis_client c) && raising then 1 else 0).
Proof.
  unfold delete_pattern.
  destruct (redis_client c) as [db |] eqn:Hdb.
  - destruct f as [e |].
    + cbn. rewrite Hdb. cbn. repeat split; lia.
    + destruct (decide _); cbn; rewrite ?Hdb; cbn; repeat split; lia.
  - cbn. rewrite Hdb. cbn. repeat split; lia.
Qed.

Lemma count_gets_cons (s : step) (rest : list step) :
  count_gets (s :: rest) = (if is_get s then 1 else 0) + count_gets rest.
Proof.
  unfold count_gets. cbn [List.filter]. destruct (is_get s); cbn [length]; lia.
Qed.

Lemma count_values_cons (v : pyval) (rs : list pyval) :
  count_values (v :: rs) = (if is_value v then 1 else 0) + count_values rs.
Proof.
  unfold count_values. cbn [List.filter]. destruct (is_value v); cbn [length]; lia.
Qed.

Lemma count_failed_writes_cons (client : option (gmap string redis_entry)) (s : step)
    (rest : list step) :
  count_failed_writes client (s :: rest)
  = (if is_connected client && failed_write s then 1 else 0) + count_failed_writes client rest.
Proof.
  unfold count_failed_writes. cbn [List.filter].
  destruct (is_connected client), (failed_write s); cbn [andb length]; lia.
Qed.

Lemma count_failed_reads_get (client : option (gmap string redis_entry)) (s : step)
    (rest : list step) (v : pyval) (rs : list pyval) :
  is_get s = true ->
  count_failed_reads client (s :: rest) (v :: rs)
  = (if is_connected client && faulty s && negb (is_value v) then 1 else 0)
    + count_failed_reads client rest rs.
Proof.
  intros Hget. unfold count_failed_reads. cbn [List.filter]. rewrite Hget.
  cbn [combine List.filter]. unfold failed_read at 1. cbn [fst snd].
  destruct (is_connected client), (faulty s), (is_value v); cbn [andb negb length]; lia.
Qed.

Lemma count_failed_reads_other (client : option (gmap string redis_entry)) (s : step)
    (rest : list step) (rs : list pyval) :
  is_get s = false ->
  count_failed_reads client (s :: rest) rs = count_failed_reads client rest rs.
Proof.
  intros Hget. unfold count_failed_reads. cbn [List.filter]. now rewrite Hget.
Qed.

Lemma counts_follow_connection (client client' : option (gmap string redis_entry))
    (steps : list step) (rs : list pyval) :
  is_connected client' = is_connected client ->
  count_failed_reads client' steps rs = count_failed_reads client steps rs /\
  count_failed_writes client' steps = count_failed_writes client steps.
Proof.
  intros H. unfold count_failed_reads, count_failed_writes. now rewrite H.
Qed.

(** The counters after a whole sequence, from any state that holds no
    [None]. *)
Lemma run_counters (steps : list step) (c : CacheService) :
  holds_values c -> stores_values steps ->
  hits (cache_stats (snd (run c steps)))
  = hits (cache_stats c) + count_values (fst (run c steps)) /\
  misses (cache_stats (snd (run c steps)))
  = misses (cache_stats c) + count_gets steps - count_values (fst (run c steps))
    - count_failed_reads (redis_client c) steps (fst (run c steps)) /\
  errors (cache_stats (snd (run c steps)))
  = errors (cache_stats c) + count_failed_reads (redis_client c) steps (fst (run c steps))
    + count_failed_writes (redis_client c) steps.
Proof.
  revert c. induction steps as [| s rest IH]; intros c Hc Hsteps.
  - cbn. unfold count_values, count_gets, count_failed_reads, count_failed_writes.
    cbn. destruct (is_connected _); lia.
  - assert (Hrest : stores_values rest).
    { intros s' key ttl Hin. apply Hsteps. now right. }
    assert (Hs : forall key ttl, what s <> CallSet key PNone ttl).
    { intros key ttl. apply Hsteps. now left. }
    rewrite count_gets_cons, count_failed_writes_cons.
    cbn [run]. unfold run_step.
    destruct (what s) as [key | key value ttl | key | pattern] eqn:Hwhat.
    + assert (Hget : is_get s = true) by (unfold is_get; now rewrite Hwhat).
      assert (Hwrite : failed_write s = false) by (unfold failed_write; now rewrite Hwhat).
      pose proof (get_counters c (at_time s) (fault s) key Hc) as (Hcon & Hh & Hm & He).
      pose proof (proj1 (get_accounting c (at_time s) (fault s) key Hc)) as Hc'.
      destruct (get c (at_time s) (fault s) key) as [v c'].
      cbn [fst snd] in Hc', Hcon, Hh, Hm, He.
      specialize (IH c' Hc' Hrest). destruct (run c' rest) as [rs c''].
      cbn [fst snd] in IH |- *. destruct IH as (IHh & IHm & IHe).
      destruct (counts_follow_connection (redis_client c) (redis_client c') rest rs Hcon)
        as [Hreads Hwrites].
      rewrite Hreads in IHm, IHe. rewrite Hwrites in IHe.
      rewrite count_values_cons, (count_failed_reads_get _ _ _ _ _ Hget), Hget, Hwrite.
      unfold faulty.
      destruct (is_connected (redis_client c)), (fault s), (is_value v);
        cbn [andb negb] in *; lia.
    + assert (Hget : is_get s = false) by (unfold is_get; now rewrite Hwhat).
      assert (Hwrite : failed_write s
                       = faulty s || match ttl with Some t => t <? 0 | None => false end)
        by (unfold failed_write; now rewrite Hwhat).
      assert (Hv : value <> PNone).
      { intros ->. now apply (Hs key ttl). }
      pose proof (set_counters c (at_time s) (fault s) key value ttl) as (Hcon & Hh & Hm & He).
      pose proof (proj1 (set_accounting c (at_time s) (fault s) key value ttl Hc Hv)) as Hc'.
      specialize (IH _ Hc' Hrest).
      destruct (run (snd (set c (at_time s) (fault s) key value ttl)) rest) as [rs c''].
      cbn [fst snd] in IH |- *. destruct IH as (IHh & IHm & IHe).
      destruct (counts_follow_connection (redis_client c) _ rest rs Hcon) as [Hreads Hwrites].
      rewrite Hreads in IHm, IHe. rewrite Hwrites in IHe.
      rewrite (count_failed_reads_other _ _ _ _ Hget), Hget, Hwrite.
      unfold faulty.
      destruct (is_connected (redis_client c));
        destruct (_ || _); cbn [andb] in *; lia.
    + assert (Hget : is_get s = false) by (unfold is_get; now rewrite Hwhat).
      assert (Hwrite : failed_write s = faulty s) by (unfold failed_write; now rewrite Hwhat).
      pose proof (delete_counters c (at_time s) (fault s) key) as (Hcon & Hh & Hm & He).
      pose proof (proj1 (delete_accounting c (at_time s) (fault s) key Hc)) as Hc'.
      specialize (IH _ Hc' Hrest).
      destruct (run (snd (delete c (at_time s) (fault s) key)) rest) as [rs c''].
      cbn [fst snd] in IH |- *. destruct IH as (IHh & IHm & IHe).
      destruct (counts_follow_connection (redis_client c) _ rest rs Hcon) as [Hreads Hwrites].
      rewrite Hreads in IHm, IHe. rewrite Hwrites in IHe.
      rewrite (count_failed_reads_other _ _ _ _ Hget), Hget, Hwrite.
      unfold faulty.
      destruct (is_connected (redis_client c)), (fault s); cbn [andb] in *; lia.
    + assert (Hget : is_get s = false) by (unfold is_get; now rewrite Hwhat).
      assert (Hwrite : failed_write s = faulty s) by (unfold failed_write; now rewrite Hwhat).
      pose proof (delete_pattern_counters c (at_time s) (fault s) pattern)
        as (Hcon & Hh & Hm & He).
      pose proof (proj1 (delete_pattern_accounting c (at_time s) (fault s) pattern Hc)) as Hc'.
      specialize (IH _ Hc' Hrest).
      destruct (run (snd (delete_pattern c (at_time s) (fault s) pattern)) rest) as [rs c''].
      cbn [fst snd] in IH |- *. destruct IH as (IHh & IHm & IHe).
      destruct (counts_follow_connection (redis_client c) _ rest rs Hcon) as [Hreads Hwrites].
      rewrite Hreads in IHm, IHe. rewrite Hwrites in IHe.
      rewrite (count_failed_reads_other _ _ _ _ Hget), Hget, Hwrite.
      unfold faulty.
      destruct (is_connected (redis_client c)), (fault s); cbn [andb] in *; lia.
Qed.

(** Each read that fails against the shared tier leaves one line in the log:
    on a new cache the lines that start with "Cache get error for key " are
    as many as the [get] calls that returned nothing while the shared tier
    was raising. *)
Lemma failed_reads_are_logged (client : option (gmap string redis_entry))
    (steps : list step) :
  holds_values (new client) ->
  stores_values steps ->
  count_get_errors (logged (snd (run (new client) steps)))
  = count_failed_reads client steps (fst (run (new client) steps)).
Proof.
  intros Hc Hsteps.
  pose proof (run_counters steps (new client) Hc Hsteps) as (_ & Hm & _).
  pose proof (run_accounting steps (new client) Hc Hsteps) as (_ & Hlog & _).
  cbn [new cache_stats redis_client logged misses] in Hm, Hlog.
  change (count_get_errors []) with 0 in Hlog. lia.
Qed.






End CacheFacts.


(** ** Metrics aggregator *)
Module MonitorFacts.
Import Py Config Monitor.
Local Open Scope list_scope.

(** *** The rolling window *)

Lemma keep_last_short {A : Type} (n : nat) (l : list A) :
  (length l <= n)%nat -> keep_last n l = l.
Proof.
  intros H. unfold keep_last. now replace (length l - n)%nat with 0%nat by lia.
Qed.

Lemma keep_last_cons {A : Type} (n : nat) (a : A) (l : list A) :
  (n <= length l)%nat -> keep_last n (a :: l) = keep_last n l.
Proof.
  intros H. unfold keep_last. cbn [length].
  now replace (S (length l) - n)%nat with (S (length l - n)) by lia.
Qed.

Lemma length_keep_last {A : Type} (n : nat) (l : list A) :
  (n <= length l)%nat -> length (keep_last n l) = n.
Proof.
  intros H. unfold keep_last. rewrite List.length_skipn. lia.
Qed.

(** [deque.append] either extends the deque or shifts it by one. *)
Lemma deque_append_cases {A : Type} (maxlen : Z) (d : list A) (x : A) :
  1 <= maxlen -> (length d <= Z.to_nat maxlen)%nat ->
  ((length d < Z.to_nat maxlen)%nat /\ deque_append maxlen d x = d ++ [x]) \/
  (length d = Z.to_nat maxlen /\
   exists a d', d = a :: d' /\ deque_append maxlen d x = d' ++ [x]).
Proof.
  intros Hpos Hlen. unfold deque_append. rewrite List.length_app. cbn [length].
  destruct (Z.ltb_spec maxlen (Z.of_nat (length d + 1))) as [Hfull | Hroom].
  - right. split; [lia |].
    destruct d as [| a d']; [cbn in Hfull; lia |].
    exists a, d'. split; reflexivity.
  - left. split; [lia | reflexivity].
Qed.

Lemma deque_append_bounded {A : Type} (maxlen : Z) (d : list A) (x : A) :
  1 <= maxlen -> (length d <= Z.to_nat maxlen)%nat ->
  (length (deque_append maxlen d x) <= Z.to_nat maxlen)%nat.
Proof.
  intros Hpos Hlen.
  destruct (deque_append_cases maxlen d x Hpos Hlen)
    as [[Hlt ->] | [Heq (a & d' & -> & ->)]];
    rewrite List.length_app; cbn [length] in *; lia.
Qed.

Lemma metrics_record_request (self : PerformanceMonitor) (env : probe) (o : observation) :
  metrics (record_request self env o)
  = deque_append METRICS_MAXLEN (metrics self) (make_metric env o).
Proof. reflexivity. Qed.

Lemma maxlen_positive : 1 <= METRICS_MAXLEN.
Proof. unfold METRICS_MAXLEN. lia. Qed.

(** After any series of calls the window holds the last [capacity] records
    of what it held before followed by what the calls appended. *)
Lemma window_after_calls (calls : list (probe * observation)) (self : PerformanceMonitor) :
  (length (metrics self) <= capacity)%nat ->
  metrics (record_all self calls) = keep_last capacity (metrics self ++ recorded calls).
Proof.
  unfold capacity, record_all.
  revert self. induction calls as [| [env o] rest IH]; intros self Hlen.
  - cbn [fold_left recorded map]. rewrite List.app_nil_r. symmetry. now apply keep_last_short.
  - cbn [fold_left fst snd recorded map].
    pose proof (deque_append_bounded METRICS_MAXLEN (metrics self) (make_metric env o)
                  maxlen_positive Hlen) as Hnext.
    rewrite <- metrics_record_request in Hnext.
    rewrite (IH _ Hnext), metrics_record_request.
    fold (recorded rest).
    destruct (deque_append_cases METRICS_MAXLEN (metrics self) (make_metric env o)
                maxlen_positive Hlen) as [[Hlt ->] | [Heq (a & d' & Hd & ->)]].
    + now rewrite <- List.app_assoc.
    + rewrite Hd, <- List.app_assoc. cbn [app].
      symmetry. apply keep_last_cons.
      rewrite Hd in Heq. cbn [length] in Heq.
      rewrite List.length_app. cbn [length]. lia.
Qed.

(** After [capacity + K] calls the window holds the records of the last
    [capacity] calls. *)
Lemma window_holds_last_calls (self : PerformanceMonitor)
    (calls : list (probe * observation)) (K : nat) :
  (length (metrics self) <= capacity)%nat ->
  length calls = (capacity + K)%nat ->
  metrics (record_all self calls) = recorded (skipn K calls) /\
  length (metrics (record_all self calls)) = capacity.
Proof.
  intros Hself Hcalls.
  rewrite (window_after_calls calls self Hself).
  assert (Hlast : keep_last capacity (metrics self ++ recorded calls)
                  = recorded (skipn K calls)).
  { unfold keep_last, recorded.
    rewrite List.length_app, List.length_map, Hcalls.
    replace (length (metrics self) + (capacity + K) - capacity)%nat
      with (length (metrics self) + K)%nat by lia.
    rewrite List.skipn_app, List.skipn_all2 by lia.
    replace (length (metrics self) + K - length (metrics self))%nat with K by lia.
    cbn [app]. apply List.skipn_map. }
  split; [exact Hlast |].
  rewrite Hlast. unfold recorded.
  rewrite List.length_map, List.length_skipn. lia.
Qed.

(** C7: after 10000 + K recorded observations, on an aggregator whose
    window held at most 10000 records, the rolling window holds exactly
    10000 records: those of the observations K+1 to 10000+K, in order, each
    carrying the observation's endpoint, method, response time, status code,
    user, address, cache flag, query count and database time together with
    the clock, memory and CPU readings of its call; the first K observations
    are gone. *)
Theorem rolling_window_keeps_most_recent (self : PerformanceMonitor)
    (calls : list (probe * observation)) (K : nat) :
  Z.of_nat (length (metrics self)) <= 10000 ->
  Z.of_nat (length calls) = 10000 + Z.of_nat K ->
  Z.of_nat (length (metrics (record_all self calls))) = 10000 /\
  metrics (record_all self calls)
  = map (fun call : probe * observation =>
           mkMetric (o_endpoint (snd call)) (o_method (snd call))
                    (o_response_time (snd call)) (o_status_code (snd call))
                    (clock (fst call)) (o_user_id (snd call)) (o_ip_address (snd call))
                    (o_cache_hit (snd call)) (o_database_queries (snd call))
                    (o_database_time (snd call))
                    (Some (memory_percent (fst call))) (Some (cpu_percent (fst call))))
        (skipn K calls).
Proof.
  intros Hself Hcalls.
  assert (Hcap : Z.of_nat capacity = 10000) by (unfold capacity, METRICS_MAXLEN; lia).
  destruct (window_holds_last_calls self calls K) as [Hwindow Hlen]; [lia | lia |].
  split; [rewrite Hlen; exact Hcap |].
  rewrite Hwindow. unfold recorded. apply List.map_ext. intros call. reflexivity.
Qed.

Lemma rolling_window_keeps_most_recent_witness :
  Z.of_nat (length (metrics (record_all (Monitor.new 0) (Scenario.burst (Z.to_nat 10003)))))
  = 10000 /\
  nth_error (metrics (record_all (Monitor.new 0) (Scenario.burst (Z.to_nat 10003)))) 0
  = nth_error
      (map (fun call : probe * observation =>
              mkMetric (o_endpoint (snd call)) (o_method (snd call))
                       (o_response_time (snd call)) (o_status_code (snd call))
                       (clock (fst call)) (o_user_id (snd call)) (o_ip_address (snd call))
                       (o_cache_hit (snd call)) (o_database_queries (snd call))
                       (o_database_time (snd call))
                       (Some (memory_percent (fst call))) (Some (cpu_percent (fst call))))
           (skipn 3 (Scenario.burst (Z.to_nat 10003)))) 0.
Proof.
  destruct (rolling_window_keeps_most_recent (Monitor.new 0)
              (Scenario.burst (Z.to_nat 10003)) 3) as [Hlen Hwindow].
  - cbn [Monitor.new metrics length]. lia.
  - unfold Scenario.burst. rewrite List.length_map, List.length_seq. lia.
  - split; [exact Hlen | now rewrite Hwindow].
Defined.

(** *** Percentiles *)

Lemma qleb_transitive : Transitive (fun x y : Q => is_true (QOrder.leb x y)).
Proof.
  intros x y z Hxy Hyz. unfold QOrder.leb, is_true in *.
  rewrite Qle_bool_iff in *. eapply Qle_trans; eassumption.
Qed.

(** A list in ascending order that is a rearrangement of a strictly
    ascending list is that list. *)
Lemma ascending_unique (l r : list Q) :
  StronglySorted (fun x y => is_true (QOrder.leb x y)) l ->
  StronglySorted Qlt r ->
  Permutation l r -> l = r.
Proof.
  revert l. induction r as [| a r IH]; intros l Hl Hr Hperm.
  - apply Permutation_sym, Permutation_nil in Hperm. exact Hperm.
  - destruct l as [| b l'].
    + apply Permutation_nil in Hperm. discriminate.
    + apply StronglySorted_inv in Hl as [Hl Hb].
      apply StronglySorted_inv in Hr as [Hr Ha].
      assert (b = a) as ->.
      { assert (Hb_in : In b (a :: r)) by (eapply Permutation_in; [exact Hperm | now left]).
        assert (Ha_in : In a (b :: l'))
          by (eapply Permutation_in; [apply Permutation_sym, Hperm | now left]).
        destruct Hb_in as [-> | Hb_in]; [reflexivity |].
        destruct Ha_in as [-> | Ha_in]; [reflexivity |].
        rewrite List.Forall_forall in Ha, Hb.
        specialize (Ha b Hb_in). specialize (Hb a Ha_in).
        unfold QOrder.leb, is_true in Hb. rewrite Qle_bool_iff in Hb.
        exfalso. exact (Qlt_not_le _ _ Ha Hb). }
      f_equal. apply IH; try assumption.
      eapply Permutation_cons_inv. exact Hperm.
Qed.

Lemma tenths_ascending : StronglySorted Qlt tenths.
Proof.
  unfold tenths.
  repeat (apply SSorted_cons; [| repeat (apply List.Forall_cons; [reflexivity |]);
                                  apply List.Forall_nil]).
  apply SSorted_nil.
Qed.

(** Whatever the order of arrival, sorting a window that holds the tenths
    gives them in ascending order. *)
Lemma sorted_tenths (self : PerformanceMonitor) :
  Permutation (map response_time (metrics self)) tenths ->
  sorted_response_times self = tenths.
Proof.
  intros Hperm. unfold sorted_response_times.
  apply ascending_unique.
  - apply QSort.StronglySorted_sort, qleb_transitive.
  - exact tenths_ascending.
  - eapply Permutation_trans; [| exact Hperm].
    apply Permutation_sym, QSort.Permuted_sort.
Qed.

(** Every percentile of a snapshot is the element of the sorted window at
    index [int(n * p)], the minimum is its first element and the sorted
    window is an ascending rearrangement of the window. *)
Lemma percentiles_are_order_statistics (self : PerformanceMonitor) (env : probe) :
  metrics self <> [] ->
  let sorted := sorted_response_times self in
  let n := length sorted in
  Permutation (map response_time (metrics self)) sorted /\
  StronglySorted (fun x y => is_true (QOrder.leb x y)) sorted /\
  dict_get (m_response_times (get_metrics self env)) "p50" = Some (nth (rank n (1 # 2)) sorted 0%Q) /\
  dict_get (m_response_times (get_metrics self env)) "p90" = Some (nth (rank n (9 # 10)) sorted 0%Q) /\
  dict_get (m_response_times (get_metrics self env)) "p95" = Some (nth (rank n (95 # 100)) sorted 0%Q) /\
  dict_get (m_response_times (get_metrics self env)) "p99" = Some (nth (rank n (99 # 100)) sorted 0%Q).
Proof.
  intros Hne sorted n.
  assert (Hperm : Permutation (map response_time (metrics self)) sorted)
    by apply QSort.Permuted_sort.
  split; [exact Hperm |].
  split; [apply QSort.StronglySorted_sort, qleb_transitive |].
  unfold get_metrics. cbn [m_response_times]. fold sorted. unfold percentiles.
  destruct sorted as [| x rest] eqn:Hs.
  - apply Permutation_sym, Permutation_nil in Hperm.
    destruct (metrics self); [contradiction | discriminate].
  - repeat split; reflexivity.
Qed.

(** C8: for a window holding exactly the response times 0.1, 0.2, ..., 1.0,
    in any order, the snapshot reports p50 = 0.6 (the element at index
    int(10 * 0.5) = 5 of the sorted window), p90 = p95 = p99 = 1.0 (index 9),
    min = 0.1, max = 1.0 and avg = 0.55. *)
Theorem percentiles_of_tenths (self : PerformanceMonitor) (env : probe) :
  Permutation (map response_time (metrics self)) tenths ->
  exists avg : Q,
    m_response_times (get_metrics self env)
    = [ ("p50", 6 # 10); ("p90", 10 # 10); ("p95", 10 # 10); ("p99", 10 # 10);
        ("min", 1 # 10); ("max", 10 # 10); ("avg", avg) ]%Q /\
    (avg == 55 # 100)%Q.
Proof.
  intros Hperm. unfold get_metrics. cbn [m_response_times].
  rewrite (sorted_tenths self Hperm).
  eexists. split; [vm_compute; reflexivity |]. vm_compute. reflexivity.
Qed.

Lemma percentiles_of_tenths_witness :
  exists avg : Q,
    m_response_times (get_metrics Scenario.ten_requests Scenario.quiet)
    = [ ("p50", 6 # 10); ("p90", 10 # 10); ("p95", 10 # 10); ("p99", 10 # 10);
        ("min", 1 # 10); ("max", 10 # 10); ("avg", avg) ]%Q /\
    (avg == 55 # 100)%Q.
Proof.
  apply (percentiles_of_tenths Scenario.ten_requests Scenario.quiet).
  vm_compute. apply Permutation_sym, Permutation_rev.
Defined.

(** *** The empty aggregator *)

(** C9, as stated, fails: the snapshot of a fresh aggregator holds no
    percentile at all, so p50 is absent rather than 0. *)
Lemma empty_snapshot_has_no_percentiles :
  dict_get (m_response_times (get_metrics (Monitor.new 0) Scenario.quiet)) "p50" = None /\
  dict_get (m_response_times (get_metrics (Monitor.new 0) Scenario.quiet)) "p50" <> Some 0%Q.
Proof.
  split; [reflexivity | discriminate].
Qed.

(** C9, amended: on an aggregator holding no observation, no endpoint
    statistics, no cache-type counter and no recorded query, the snapshot is
    computed and its percentile map, per-endpoint map and cache-hit-rate map
    are empty (a reader defaulting to 0 reads 0), and the database average
    time and slow-query rate are 0. *)
Theorem empty_snapshot (self : PerformanceMonitor) (env : probe) :
  metrics self = [] ->
  endpoint_stats self = [] ->
  Monitor.cache_stats self = [] ->
  db_total_queries (database_performance self) = 0 ->
  m_response_times (get_metrics self env) = [] /\
  m_endpoints (get_metrics self env) = [] /\
  m_cache_hit_rates (get_metrics self env) = [] /\
  dv_average_time (m_database_performance (get_metrics self env)) = 0%Q /\
  dv_slow_query_rate (m_database_performance (get_metrics self env)) = 0%Q /\
  (forall name, Dashboard.key_or_zero (m_response_times (get_metrics self env)) name = 0%Q).
Proof.
  intros Hm He Hc Hq. unfold get_metrics, sorted_response_times, db_view.
  cbn [m_response_times m_endpoints m_cache_hit_rates m_database_performance
       dv_average_time dv_slow_query_rate].
  rewrite Hm, He, Hc, Hq. cbn. repeat split; reflexivity.
Qed.

Lemma empty_snapshot_witness :
  m_response_times (get_metrics (reset_metrics Scenario.ten_requests 50) Scenario.quiet) = [] /\
  m_endpoints (get_metrics (reset_metrics Scenario.ten_requests 50) Scenario.quiet) = [] /\
  m_cache_hit_rates (get_metrics (reset_metrics Scenario.ten_requests 50) Scenario.quiet) = [] /\
  dv_average_time
    (m_database_performance (get_metrics (reset_metrics Scenario.ten_requests 50) Scenario.quiet))
  = 0%Q /\
  dv_slow_query_rate
    (m_database_performance (get_metrics (reset_metrics Scenario.ten_requests 50) Scenario.quiet))
  = 0%Q /\
  (forall name,
     Dashboard.key_or_zero
       (m_response_times (get_metrics (reset_metrics Scenario.ten_requests 50) Scenario.quiet))
       name = 0%Q).
Proof.
  apply (empty_snapshot (reset_metrics Scenario.ten_requests 50) Scenario.quiet);
    reflexivity.
Defined.

End MonitorFacts.


(** ** Alert evaluator *)
Module AlertFacts.
Import Py Config Monitor Dashboard.
Local Open Scope list_scope.

Lemma dict_set_Forall {V : Type} (P : V -> Prop) (d : pydict V) (k : string) (v : V) :
  Forall (fun kv => P (snd kv)) d -> P v -> Forall (fun kv => P (snd kv)) (dict_set d k v).
Proof.
  intros Hd Hv. induction d as [| [k' v'] rest IH]; cbn [dict_set].
  - apply List.Forall_cons; [exact Hv | apply List.Forall_nil].
  - apply List.Forall_cons_iff in Hd as [Hhead Hrest].
    destruct (String.eqb k' k); apply List.Forall_cons; auto.
Qed.

Lemma dict_get_Forall {V : Type} (P : V -> Prop) (d : pydict V) (k : string) (v : V) :
  Forall (fun kv => P (snd kv)) d -> dict_get d k = Some v -> P v.
Proof.
  intros Hd. induction d as [| [k' v'] rest IH]; cbn [dict_get]; [discriminate |].
  apply List.Forall_cons_iff in Hd as [Hhead Hrest].
  destruct (String.eqb k' k); [intros [= <-]; exact Hhead | auto].
Qed.

Lemma update_stats_consistent (stats : EndpointStats) (o : observation) :
  stats_consistent stats ->
  stats_consistent (update_stats stats o) /\ 1 <= st_total_requests (update_stats stats o).
Proof.
  unfold stats_consistent, update_stats. cbn [st_errors st_total_requests].
  destruct (400 <=? o_status_code o); lia.
Qed.

Lemma stats_of_consistent (d : pydict EndpointStats) (k : string) :
  Forall (fun kv => stats_consistent (snd kv)) d -> stats_consistent (stats_of d k).
Proof.
  intros Hd. unfold stats_of. destruct (dict_get d k) as [st |] eqn:Hk.
  - exact (dict_get_Forall _ d k st Hd Hk).
  - unfold stats_consistent, fresh_stats. cbn. lia.
Qed.

(** The stored rate is a fraction of the requests, never above 1. *)
Lemma fraction_at_most_one (errors total : Z) :
  0 <= errors <= total -> 1 <= total -> (inject_Z errors / inject_Z total <= 1)%Q.
Proof.
  intros He Ht. apply Qle_shift_div_r.
  - change 0%Q with (inject_Z 0). rewrite <- Zlt_Qlt. lia.
  - rewrite Qmult_1_l. rewrite <- Zle_Qle. lia.
Qed.

Lemma record_request_rates_bounded (self : PerformanceMonitor) (env : probe) (o : observation) :
  rates_bounded self -> rates_bounded (record_request self env o).
Proof.
  intros [Hrates Hstats]. unfold rates_bounded, record_request.
  cbn [error_rates endpoint_stats].
  pose proof (update_stats_consistent _ o (stats_of_consistent _ (o_endpoint o) Hstats))
    as [Hnew Hone].
  split.
  - destruct (400 <=? o_status_code o); [| exact Hrates].
    apply (dict_set_Forall (fun r => (r <= 1)%Q)); [exact Hrates |].
    now apply fraction_at_most_one.
  - now apply (dict_set_Forall stats_consistent).
Qed.

Lemma record_all_rates_bounded (calls : list (probe * observation)) (self : PerformanceMonitor) :
  rates_bounded self -> rates_bounded (record_all self calls).
Proof.
  unfold record_all. revert self.
  induction calls as [| call rest IH]; intros self Hself; [exact Hself |].
  cbn [fold_left]. apply IH. now apply record_request_rates_bounded.
Qed.

Lemma new_rates_bounded (now : Z) : rates_bounded (Monitor.new now).
Proof. split; apply List.Forall_nil. Qed.

Lemma no_error_rate_alert (now : Z) (rates : pydict Q) :
  Forall (fun kv => (snd kv <= 1)%Q) rates -> error_rate_alerts now rates = [].
Proof.
  induction rates as [| [endpoint rate] rest IH]; intros Hall; [reflexivity |].
  apply List.Forall_cons_iff in Hall as [Hrate Hrest]. cbn [error_rate_alerts].
  rewrite (IH Hrest). cbn [snd] in Hrate.
  assert (Hle : Qle_bool rate 5 = true).
  { apply Qle_bool_iff. eapply Qle_trans; [exact Hrate | discriminate]. }
  unfold gt. now rewrite Hle.
Qed.

Lemma error_alerts_app (a b : list alert) : error_alerts (a ++ b) = error_alerts a ++ error_alerts b.
Proof. apply List.filter_app. Qed.

Lemma cache_hit_alerts_not_errors (now : Z) (rates : pydict Q) :
  error_alerts (cache_hit_alerts now rates) = [].
Proof.
  induction rates as [| [cache_type rate] rest IH]; [reflexivity |].
  cbn [cache_hit_alerts]. rewrite error_alerts_app, IH.
  now destruct (gt 50 rate).
Qed.

(** On every state reached from a fresh aggregator by [record_request]
    calls, and whatever the error rates of its endpoints, evaluating the
    alert rules on its snapshot yields no alert of type error. *)
Lemma error_rate_alert_never_fires (start : Z) (calls : list (probe * observation))
    (env : probe) (now : Z) (cache_stats : Cache.stats_view) (system : option system_metrics) :
  error_alerts
    (_check_alerts now (get_metrics (record_all (Monitor.new start) calls) env)
                   cache_stats system) = [].
Proof.
  pose proof (record_all_rates_bounded calls _ (new_rates_bounded start)) as [Hrates _].
  unfold _check_alerts, get_metrics. cbn [m_response_times m_error_rates m_cache_hit_rates
                                           m_database_performance].
  rewrite (no_error_rate_alert now _ Hrates).
  rewrite !error_alerts_app, cache_hit_alerts_not_errors.
  unfold response_time_alerts, usage_alerts, slow_query_alerts.
  repeat match goal with |- context [if ?b then _ else _] => destruct b end; reflexivity.
Qed.

(** C3 (the code departs from it): after a single request to /orders that
    ended with status 500, the endpoint's error rate in the snapshot is 100 %,
    the rate that the alert rule reads is the fraction 1, and the evaluator
    emits no error alert for the endpoint. *)
Theorem full_error_rate_raises_no_alert :
  em_error_rate <$> dict_get (m_endpoints (get_metrics Scenario.one_failure Scenario.quiet))
                             "/orders" = Some 100%Q /\
  m_error_rates (get_metrics Scenario.one_failure Scenario.quiet) = [("/orders", 1%Q)] /\
  error_alerts_for "/orders"
    (_check_alerts 1000 (get_metrics Scenario.one_failure Scenario.quiet)
                   (Cache.get_stats Scenario.connected) (Some Scenario.busy)) = [] /\
  _check_alerts 1000 (get_metrics Scenario.one_failure Scenario.quiet)
                (Cache.get_stats Scenario.connected) (Some Scenario.busy) = [].
Proof.
  repeat split; vm_compute; reflexivity.
Qed.

End AlertFacts.


(** ** Two-tier cache: further operations *)
Module CacheOpsFacts.
Import Py Config Cache CacheOps.
Local Open Scope list_scope.

(** *** Keys *)

Lemma append_inj_r (p s t : string) : p +:+ s = p +:+ t -> s = t.
Proof.
  induction p as [| ch p IH]; cbn; [auto |]. intros [= H]. auto.
Qed.

Lemma full_key_inj (k1 k2 : string) : _get_cache_key k1 = _get_cache_key k2 -> k1 = k2.
Proof.
  unfold _get_cache_key. intros H.
  apply append_inj_r in H. now apply (append_inj_r ":") in H.
Qed.

Lemma to_int_not_nil (z : Z) :
  Z.to_int z <> Decimal.Pos Decimal.Nil /\ Z.to_int z <> Decimal.Neg Decimal.Nil.
Proof.
  destruct z as [| p | p]; cbn; (split; [| try discriminate]); try discriminate;
    intros [= H]; exact (DecimalPos.Unsigned.to_uint_nonnil p H).
Qed.

Lemma str_int_inj (a b : Z) : str_int a = str_int b -> a = b.
Proof.
  unfold str_int. intros H. apply DecimalZ.to_int_inj.
  destruct (to_int_not_nil a) as [Ha1 Ha2]. destruct (to_int_not_nil b) as [Hb1 Hb2].
  pose proof (NilZero.isi (Z.to_int a) Ha1 Ha2) as Ia.
  pose proof (NilZero.isi (Z.to_int b) Hb1 Hb2) as Ib.
  rewrite H in Ia. rewrite Ia in Ib. now injection Ib.
Qed.

(** *** Reads of one key do not see writes of another *)

Lemma get_depends_on_key (c c' : CacheService) (now : Z) (f : option string) (k : string) :
  local_cache c' !! k = local_cache c !! k ->
  (match redis_client c', redis_client c with
   | Some db', Some db => db' !! _get_cache_key k = db !! _get_cache_key k
   | None, None => True
   | _, _ => False
   end) ->
  fst (get c' now f k) = fst (get c now f k).
Proof.
  intros Hlocal Hshared. unfold get. rewrite Hlocal.
  destruct (local_cache c !! k) as [e |].
  - destruct (now <? expires_at e); [reflexivity |]. cbn.
    destruct (redis_client c') as [db' |], (redis_client c) as [db |]; try contradiction;
      [| reflexivity].
    destruct f; [reflexivity |]. unfold redis_get. rewrite Hshared.
    destruct (db !! _get_cache_key k) as [r |]; [| reflexivity].
    now destruct (now <? rexpires r).
  - cbn.
    destruct (redis_client c') as [db' |], (redis_client c) as [db |]; try contradiction;
      [| reflexivity].
    destruct f; [reflexivity |]. unfold redis_get. rewrite Hshared.
    destruct (db !! _get_cache_key k) as [r |]; [| reflexivity].
    now destruct (now <? rexpires r).
Qed.

Lemma set_keeps_other_keys (c : CacheService) (now now' : Z) (f f' : option string)
    (k other : string) (v : pyval) (ttl : option Z) :
  k <> other ->
  fst (get (snd (set c now f k v ttl)) now' f' other) = fst (get c now' f' other).
Proof.
  intros Hne.
  assert (Hfull : _get_cache_key k <> _get_cache_key other)
    by (intros H; apply Hne; now apply full_key_inj).
  apply get_depends_on_key.
  - unfold set. cbn [with_local redis_client local_cache].
    destruct (redis_client c) as [db |]; [destruct f |]; cbn;
      try (destruct (redis_setex _ _ _ _ _); cbn); now apply lookup_insert_ne.
  - unfold set. cbn [with_local redis_client local_cache].
    destruct (redis_client c) as [db |] eqn:Hdb; [destruct f |]; cbn; rewrite ?Hdb; auto.
    unfold redis_setex. destruct (effective_ttl ttl <=? 0); cbn; rewrite ?Hdb; auto.
    now apply lookup_insert_ne.
Qed.

Lemma delete_keeps_other_keys (c : CacheService) (now now' : Z) (f f' : option string)
    (k other : string) :
  k <> other ->
  fst (get (snd (delete c now f k)) now' f' other) = fst (get c now' f' other).
Proof.
  intros Hne.
  assert (Hfull : _get_cache_key k <> _get_cache_key other)
    by (intros H; apply Hne; now apply full_key_inj).
  apply get_depends_on_key.
  - unfold delete. cbn [with_local redis_client local_cache].
    destruct (redis_client c) as [db |]; [destruct f |]; cbn; now apply lookup_delete_ne.
  - unfold delete. cbn [with_local redis_client local_cache].
    destruct (redis_client c) as [db |] eqn:Hdb; [destruct f |]; cbn; rewrite ?Hdb; auto.
    now apply lookup_delete_ne.
Qed.

(** The time the local copy written by [set] lives, in seconds. *)
Lemma local_ttl (ttl : option Z) :
  Z.min (effective_ttl ttl) CACHE_SHORT_TTL
  = match ttl with
    | Some t => if t =? 0 then 300 else Z.min t 300
    | None => 300
    end.
Proof.
  unfold effective_ttl, CACHE_SHORT_TTL, CACHE_DEFAULT_TTL.
  destruct ttl as [t |]; [| reflexivity].
  destruct (t =? 0); reflexivity.
Qed.

(** The time the shared copy written by [set] lives, in seconds. *)
Lemma shared_ttl (ttl : option Z) :
  effective_ttl ttl
  = match ttl with
    | Some t => if t =? 0 then 3600 else t
    | None => 3600
    end.
Proof. reflexivity. Qed.

Lemma still_fresh (now now' : Z) (ttl : option Z) :
  now' < now + 300 ->
  (forall t, ttl = Some t -> t = 0 \/ now' < now + t) ->
  now' < now + Z.min (effective_ttl ttl) CACHE_SHORT_TTL.
Proof.
  intros Hsoon Httl. rewrite local_ttl. destruct ttl as [t |]; [| lia].
  destruct (Z.eqb_spec t 0) as [-> | Hne]; [lia |].
  destruct (Httl t eq_refl) as [-> | Ht]; [contradiction | lia].
Qed.

Lemma set_then_get (c : CacheService) (now now' : Z) (f f' : option string) (k : string)
    (v : pyval) (ttl : option Z) :
  now' < now + 300 ->
  (forall t, ttl = Some t -> t = 0 \/ now' < now + t) ->
  get (snd (set c now f k v ttl)) now' f' k = (v, count_hit (snd (set c now f k v ttl))).
Proof.
  intros Hsoon Httl.
  pose proof (CacheFacts.set_local_entry c now f k v ttl) as Hentry.
  now rewrite (CacheFacts.get_local_hit _ now' f' k _ Hentry (still_fresh _ _ _ Hsoon Httl)).
Qed.

Lemma delete_clears_key (c c1 : CacheService) (now now' : Z) (f : option string)
    (k : string) :
  delete c now f k = (true, c1) ->
  local_cache c1 !! k = None /\
  get c1 now' None k = (PNone, count_miss c1) /\
  deletes (cache_stats c1) = deletes (cache_stats c) + 1.
Proof.
  unfold delete. cbn [with_local redis_client local_cache].
  destruct (redis_client c) as [db |] eqn:Hdb.
  - destruct f as [e |]; [intros [=] |]. intros [= <-].
    split; [cbn; apply lookup_delete_eq |]. split; [| reflexivity].
    unfold get. cbn [count_deletes with_redis with_local local_cache redis_client].
    rewrite lookup_delete_eq. cbn. unfold redis_get. now rewrite lookup_delete_eq.
  - intros [= <-]. split; [cbn; apply lookup_delete_eq |]. split; [| reflexivity].
    unfold get. cbn [count_deletes with_local local_cache redis_client].
    rewrite lookup_delete_eq. cbn. now rewrite Hdb.
Qed.

(** After a [set] that reported success on a connected service, both tiers
    hold the value: the shared copy, under perf_demo:key, expires ttl seconds
    after the call (3600 s when the ttl is absent or zero), and the local
    copy expires after the smaller of that time and 300 s, so never later
    than the shared copy. *)
Theorem set_caps_local_expiry (c c1 : CacheService) (now : Z) (f : option string)
    (k : string) (v : pyval) (ttl : option Z) (db1 : gmap string redis_entry) :
  set c now f k v ttl = (true, c1) ->
  redis_client c1 = Some db1 ->
  exists (e : local_entry) (r : redis_entry),
    local_cache c1 !! k = Some e /\
    db1 !! ("perf_demo:" +:+ k) = Some r /\
    Cache.data e = v /\
    document (rvalue r) = v /\
    rexpires r = now + match ttl with
                       | Some t => if t =? 0 then 3600 else t
                       | None => 3600
                       end /\
    expires_at e = now + Z.min (match ttl with
                                | Some t => if t =? 0 then 3600 else t
                                | None => 3600
                                end) 300 /\
    expires_at e <= rexpires r.
Proof.
  change ("perf_demo:" +:+ k) with (_get_cache_key k). rewrite <- shared_ttl.
  unfold set. cbn [with_local redis_client local_cache].
  destruct (redis_client c) as [db |] eqn:Hclient.
  - destruct f as [e |]; [intros [=] |].
    unfold redis_setex. destruct (effective_ttl ttl <=? 0); [intros [=] |].
    intros [= <-] [= <-].
    exists (mkEntry v (now + Z.min (effective_ttl ttl) CACHE_SHORT_TTL)),
           (mkRedisEntry (_serialize v) (now + effective_ttl ttl)).
    cbn [count_set with_redis with_local local_cache expires_at rexpires rvalue Cache.data].
    rewrite !lookup_insert_eq. unfold CACHE_SHORT_TTL.
    repeat split; try reflexivity; [| lia].
    unfold _serialize. now destruct (_ && _).
  - intros [= <-] Hdb. cbn in Hdb. congruence.
Qed.

Lemma set_caps_local_expiry_witness :
  exists (e : local_entry) (r : redis_entry),
    local_cache Scenario.after_set !! "product:1" = Some e /\
    expires_at e = 300 /\ rexpires r = 3600.
Proof.
  destruct (set_caps_local_expiry Scenario.connected Scenario.after_set 0 None "product:1"
              Scenario.product (Some 3600)
              (<[_get_cache_key "product:1" :=
                   mkRedisEntry (_serialize Scenario.product) 3600]> ∅))
    as (e & r & He & _ & _ & _ & Hr & Hexp & _).
  - vm_compute. reflexivity.
  - vm_compute. reflexivity.
  - exists e, r. split; [exact He |]. split; [exact Hexp | exact Hr].
Defined.

(** A write touches its own key and no other: what [get] returns for any
    other key is as it was before a [set] or a [delete], whatever the shared
    tier does during the write; for the written key, a [get] less than 300 s
    after the [set] (and less than the ttl, when one is given and not zero)
    returns the new value, and a [get] after a [delete] that reported success
    returns [None]. *)
Theorem writes_do_not_cross_keys (c : CacheService) (now now' : Z)
    (f f' : option string) (k other : string) (v : pyval) (ttl : option Z) :
  k <> other ->
  fst (get (snd (set c now f k v ttl)) now' f' other) = fst (get c now' f' other) /\
  fst (get (snd (delete c now f k)) now' f' other) = fst (get c now' f' other) /\
  (now' < now + 300 -> (forall t, ttl = Some t -> t = 0 \/ now' < now + t) ->
   fst (get (snd (set c now f k v ttl)) now' f' k) = v) /\
  (fst (delete c now f k) = true ->
   fst (get (snd (delete c now f k)) now' None k) = PNone).
Proof.
  intros Hne.
  split; [now apply set_keeps_other_keys |].
  split; [now apply delete_keeps_other_keys |].
  split.
  - intros Hsoon Httl. now rewrite set_then_get.
  - intros Hok. destruct (delete c now f k) as [ok c1] eqn:Hdel. cbn [fst snd] in *.
    subst ok. destruct (delete_clears_key c c1 now now' f k Hdel) as (_ & Hget & _).
    now rewrite Hget.
Qed.

Lemma writes_do_not_cross_keys_witness :
  fst (get (snd (set Scenario.after_set 5 None "product:2" (PInt 2) (Some 60)))
           10 None "product:1") = Scenario.product /\
  fst (get (snd (delete Scenario.after_set 5 None "product:2")) 10 None "product:1")
  = Scenario.product /\
  fst (get (snd (set Scenario.after_set 5 None "product:2" (PInt 2) (Some 60)))
           10 None "product:2") = PInt 2.
Proof.
  destruct (writes_do_not_cross_keys Scenario.after_set 5 10 None None
              "product:2" "product:1" (PInt 2) (Some 60)) as (Hset & Hdelete & Hown & _).
  - discriminate.
  - rewrite Hset, Hdelete. split; [vm_compute; reflexivity |].
    split; [vm_compute; reflexivity |].
    apply Hown; [lia |]. intros t [= <-]. right. lia.
Defined.

(** *** Deleting, expiring and reading through *)



(** Without a shared tier, a value written by [set] is no longer served
    once its local copy has run out, 300 s after the [set] or ttl seconds
    after it when a ttl other than zero is given and is shorter: the [get] is
    a miss, returns [None] and removes the entry. *)
Theorem local_copy_expires (c : CacheService) (now now' : Z) (f f' : option string)
    (k : string) (v : pyval) (ttl : option Z) :
  redis_client c = None ->
  now + 300 <= now' \/ (exists t, ttl = Some t /\ t <> 0 /\ now + t <= now') ->
  fst (get (snd (set c now f k v ttl)) now' f' k) = PNone /\
  local_cache (snd (get (snd (set c now f k v ttl)) now' f' k)) !! k = None /\
  misses (cache_stats (snd (get (snd (set c now f k v ttl)) now' f' k)))
  = misses (cache_stats c) + 1 /\
  hits (cache_stats (snd (get (snd (set c now f k v ttl)) now' f' k)))
  = hits (cache_stats c).
Proof.
  intros Hnone Hlate.
  assert (Hgone : now + Z.min (effective_ttl ttl) CACHE_SHORT_TTL <= now').
  { rewrite local_ttl. destruct Hlate as [Hlate | (t & -> & Hne & Hlate)].
    - destruct ttl as [t |]; [destruct (t =? 0) |]; lia.
    - destruct (Z.eqb_spec t 0); [contradiction | lia]. }
  unfold set. cbn [with_local redis_client local_cache].
  rewrite Hnone. cbn [snd]. unfold get.
  cbn [count_set with_local local_cache redis_client].
  rewrite lookup_insert_eq. cbn [expires_at].
  destruct (Z.ltb_spec now' (now + Z.min (effective_ttl ttl) CACHE_SHORT_TTL)) as [Hlt | _];
    [lia |].
  cbn. rewrite Hnone. cbn. repeat split; [apply lookup_delete_eq].
Qed.

Lemma local_copy_expires_witness :
  fst (get (snd (set Scenario.local_only 0 None "product:1" Scenario.product (Some 3600)))
           300 None "product:1") = PNone /\
  fst (get (snd (set Scenario.local_only 0 None "product:1" Scenario.product (Some 60)))
           60 None "product:1") = PNone.
Proof.
  split.
  - apply (local_copy_expires Scenario.local_only 0 300 None None "product:1"
             Scenario.product (Some 3600)); [reflexivity |]. left. lia.
  - apply (local_copy_expires Scenario.local_only 0 60 None None "product:1"
             Scenario.product (Some 60)); [reflexivity |].
    right. exists 60. repeat split; lia.
Defined.

(** Read-through: when the local tier has no live copy of a key and the
    shared tier holds one, [get] returns the shared document, counted as one
    hit, and every [get] less than 300 s later returns it again, counted as
    one more hit, even if the shared tier then raises. *)
Theorem read_through_then_local (c : CacheService) (now now' : Z) (f' : option string)
    (k : string) (db : gmap string redis_entry) (r : redis_entry) :
  (forall e, local_cache c !! k = Some e -> expires_at e <= now) ->
  redis_client c = Some db ->
  db !! _get_cache_key k = Some r ->
  now < rexpires r ->
  now' < now + 300 ->
  fst (get c now None k) = document (rvalue r) /\
  hits (cache_stats (snd (get c now None k))) = hits (cache_stats c) + 1 /\
  misses (cache_stats (snd (get c now None k))) = misses (cache_stats c) /\
  fst (get (snd (get c now None k)) now' f' k) = document (rvalue r) /\
  hits (cache_stats (snd (get (snd (get c now None k)) now' f' k)))
  = hits (cache_stats c) + 2 /\
  errors (cache_stats (snd (get (snd (get c now None k)) now' f' k)))
  = errors (cache_stats c).
Proof.
  intros Hlocal Hdb Hr Hlive Hsoon.
  assert (Hget : exists l,
             get c now None k
             = (document (rvalue r),
                count_hit (with_local (with_local c l)
                  (<[k := mkEntry (document (rvalue r)) (now + CACHE_SHORT_TTL)]> l)))).
  { unfold get. apply Z.ltb_lt in Hlive.
    destruct (local_cache c !! k) as [e |] eqn:Hk.
    - specialize (Hlocal e eq_refl).
      destruct (Z.ltb_spec now (expires_at e)) as [Hlt | _]; [lia |].
      cbn. rewrite Hdb. unfold redis_get. rewrite Hr, Hlive.
      eexists. reflexivity.
    - cbn. rewrite Hdb. unfold redis_get. rewrite Hr, Hlive.
      exists (local_cache c). now destruct c. }
  destruct Hget as [l Hget]. rewrite Hget. cbn [fst snd].
  rewrite (CacheFacts.get_local_hit _ now' f' k
             (mkEntry (document (rvalue r)) (now + CACHE_SHORT_TTL))).
  - cbn. repeat split; lia.
  - cbn. apply lookup_insert_eq.
  - cbn [expires_at]. unfold CACHE_SHORT_TTL. exact Hsoon.
Qed.

Lemma read_through_then_local_witness :
  fst (get Scenario.after_set 350 None "product:1") = Scenario.product /\
  fst (get (snd (get Scenario.after_set 350 None "product:1")) 400 Scenario.refused
           "product:1") = Scenario.product.
Proof.
  pose proof (read_through_then_local Scenario.after_set 350 400 Scenario.refused "product:1"
                (<[_get_cache_key "product:1" :=
                     mkRedisEntry (_serialize Scenario.product) 3600]> ∅)
                (mkRedisEntry (_serialize Scenario.product) 3600)) as H.
  destruct H as (H1 & _ & _ & H3 & _).
  - intros e He. vm_compute in He. injection He as <-. vm_compute. discriminate.
  - vm_compute. reflexivity.
  - vm_compute. reflexivity.
  - vm_compute. reflexivity.
  - lia.
  - split; [exact H1 | exact H3].
Defined.

(** *** Pattern invalidation and clearing *)

Lemma no_match_left (db : gmap string redis_entry) (now : Z) (pattern : string) :
  redis_keys (redis_delete_keys db now pattern) now pattern = ∅.
Proof.
  apply map_empty. intros key. unfold redis_keys, redis_delete_keys.
  destruct (filter _ (filter _ db) !! key) as [entry |] eqn:Hkey; [| reflexivity].
  apply map_lookup_filter_Some in Hkey as [Hkey Hyes].
  apply map_lookup_filter_Some in Hkey as [_ Hno].
  contradiction.
Qed.

Lemma others_kept (db : gmap string redis_entry) (now : Z) (pattern key : string)
    (entry : redis_entry) :
  db !! key = Some entry ->
  Redis.glob pattern key && live now entry = false ->
  redis_delete_keys db now pattern !! key = Some entry.
Proof.
  intros Hkey Hno. unfold redis_delete_keys.
  apply map_lookup_filter_Some. split; [exact Hkey |].
  cbn [fst snd]. rewrite Hno. auto.
Qed.

(** With the shared tier reachable, [delete_pattern] returns the number of
    shared keys that match the pattern under the service's prefix and have
    not expired, and adds it to the deletes counter; afterwards each of these
    keys is gone, every other shared key is as before, and the local tier is
    untouched. *)
Theorem delete_pattern_removes_matches (c : CacheService) (now : Z) (pattern : string)
    (db : gmap string redis_entry) :
  redis_client c = Some db ->
  fst (delete_pattern c now None pattern)
  = Z.of_nat (size (filter
                      (fun kv : string * redis_entry =>
                         Is_true (Redis.glob ("perf_demo:" +:+ pattern) (fst kv)
                                  && (now <? rexpires (snd kv)))) db)) /\
  (forall key,
     shared_entry (snd (delete_pattern c now None pattern)) key
     = match db !! key with
       | Some entry =>
           if Redis.glob ("perf_demo:" +:+ pattern) key && (now <? rexpires entry)
           then None else Some entry
       | None => None
       end) /\
  deletes (cache_stats (snd (delete_pattern c now None pattern)))
  = deletes (cache_stats c) + fst (delete_pattern c now None pattern) /\
  local_cache (snd (delete_pattern c now None pattern)) = local_cache c.
Proof.
  intros Hdb.
  change ("perf_demo:" +:+ pattern) with (_get_cache_key pattern).
  change (filter
            (fun kv : string * redis_entry =>
               Is_true (Redis.glob (_get_cache_key pattern) (fst kv)
                        && (now <? rexpires (snd kv)))) db)
    with (redis_keys db now (_get_cache_key pattern)).
  unfold delete_pattern, shared_entry. rewrite Hdb.
  destruct (decide (redis_keys db now (_get_cache_key pattern) = ∅)) as [Hnone | Hsome];
    cbn [fst snd].
  - rewrite Hdb, Hnone, map_size_empty. repeat split; auto; [| lia].
    intros key. destruct (db !! key) as [entry |] eqn:Hkey; [| reflexivity].
    destruct (Redis.glob (_get_cache_key pattern) key && (now <? rexpires entry)) eqn:Hyes;
      [| reflexivity].
    assert (Hin : redis_keys db now (_get_cache_key pattern) !! key = Some entry).
    { apply map_lookup_filter_Some. split; [exact Hkey |].
      cbn [fst snd]. unfold live. now rewrite Hyes. }
    rewrite Hnone, lookup_empty in Hin. discriminate.
  - cbn [count_deletes with_redis redis_client cache_stats deletes local_cache].
    repeat split; auto.
    intros key. destruct (db !! key) as [entry |] eqn:Hkey.
    + destruct (Redis.glob (_get_cache_key pattern) key && (now <? rexpires entry)) eqn:Hyes.
      * destruct (redis_delete_keys db now (_get_cache_key pattern) !! key) as [x |] eqn:Hx;
          [| reflexivity].
        apply map_lookup_filter_Some in Hx as [Hx Hno]. exfalso. apply Hno.
        rewrite Hkey in Hx. injection Hx as <-. cbn [fst snd]. unfold live. now rewrite Hyes.
      * now apply others_kept.
    + destruct (redis_delete_keys db now (_get_cache_key pattern) !! key) as [x |] eqn:Hx;
        [| reflexivity].
      apply map_lookup_filter_Some in Hx as [Hx _]. congruence.
Qed.

Lemma delete_pattern_removes_matches_witness :
  fst (delete_pattern Scenario.after_set 1 None "product:*") = 1 /\
  shared_entry (snd (delete_pattern Scenario.after_set 1 None "product:*"))
               "perf_demo:product:1" = None /\
  deletes (cache_stats (snd (delete_pattern Scenario.after_set 1 None "product:*"))) = 1.
Proof.
  pose proof (delete_pattern_removes_matches Scenario.after_set 1 "product:*"
                (<[_get_cache_key "product:1" :=
                     mkRedisEntry (_serialize Scenario.product) 3600]> ∅)) as H.
  destruct H as (H1 & H2 & H3 & _).
  - vm_compute. reflexivity.
  - rewrite H3, H2, H1. repeat split; vm_compute; reflexivity.
Defined.

(** Without a client, [delete_pattern] does nothing at all: it returns 0
    and the service, counters and log included, is unchanged, whatever the
    local tier holds. *)
Lemma delete_pattern_without_client (c : CacheService) (now : Z) (f : option string)
    (pattern : string) :
  redis_client c = None ->
  delete_pattern c now f pattern = (0, c).
Proof.
  intros Hnone. unfold delete_pattern. now rewrite Hnone.
Qed.

Lemma star_matches_rest (s : list ascii) :
  (fix star (t : list ascii) : bool :=
     Redis.glob_from [] None t || match t with [] => false | _ :: t' => star t' end) s = true.
Proof.
  induction s as [| ch s IH]; [reflexivity |].
  rewrite IH. apply orb_true_r.
Qed.

Lemma literal_prefix_matches (p : string) (k : string) :
  forallb (fun ch => negb (ch =? "*")%char && negb (ch =? "?")%char
                     && negb (ch =? "[")%char && negb (ch =? "\")%char)
          (list_ascii_of_string p) = true ->
  Redis.glob (p +:+ "*") (p +:+ k) = true.
Proof.
  unfold Redis.glob. induction p as [| ch p IH]; intros Hlit.
  - cbn. apply star_matches_rest.
  - cbn in Hlit. apply andb_prop in Hlit as [Hch Hrest].
    apply andb_prop in Hch as [Hch Hslash]. apply andb_prop in Hch as [Hch Hbracket].
    apply andb_prop in Hch as [Hstar Hany].
    apply negb_true_iff in Hstar, Hany, Hbracket, Hslash.
    change (list_ascii_of_string (String ch p +:+ "*"))
      with (ch :: list_ascii_of_string (p +:+ "*")).
    change (list_ascii_of_string (String ch p +:+ k))
      with (ch :: list_ascii_of_string (p +:+ k)).
    cbn [Redis.glob_from].
    rewrite Hstar, Hany, Hbracket, Hslash, Ascii.eqb_refl. cbn [andb].
    now apply IH.
Qed.

Lemma prefix_pattern_matches (k : string) :
  Redis.glob (CACHE_PREFIX +:+ ":*") (_get_cache_key k) = true.
Proof.
  unfold _get_cache_key.
  change (CACHE_PREFIX +:+ ":*") with ((CACHE_PREFIX +:+ ":") +:+ "*").
  change (CACHE_PREFIX +:+ ":" +:+ k) with ((CACHE_PREFIX +:+ ":") +:+ k).
  apply literal_prefix_matches. reflexivity.
Qed.

Lemma get_without_local (c : CacheService) (now : Z) (k : string) :
  local_cache c !! k = None ->
  fst (get c now None k)
  = match redis_client c with
    | Some db =>
        match redis_get db now (_get_cache_key k) with
        | Some cached_data => _deserialize cached_data
        | None => PNone
        end
    | None => PNone
    end.
Proof.
  intros Hk. unfold get. rewrite Hk.
  destruct (redis_client c) as [db |]; [| reflexivity].
  now destruct (redis_get db now (_get_cache_key k)).
Qed.

(** [clear_all] empties the local tier whatever the shared tier does; when
    the shared tier answers, the call reports success, leaves every counter
    as it was, keeps the shared keys that do not start with perf_demo: and
    every later [get], of any key, returns [None]. *)
Theorem clear_all_empties_both_tiers (c : CacheService) (now now' : Z) (k : string) :
  now <= now' ->
  fst (clear_all c now None) = true /\
  local_cache (snd (clear_all c now None)) = ∅ /\
  cache_stats (snd (clear_all c now None)) = cache_stats c /\
  fst (get (snd (clear_all c now None)) now' None k) = PNone /\
  (forall key entry,
     shared_entry c key = Some entry ->
     Redis.glob "perf_demo:*" key = false ->
     shared_entry (snd (clear_all c now None)) key = Some entry).
Proof.
  intros Hlater. unfold clear_all, shared_entry.
  cbn [with_local redis_client local_cache].
  destruct (redis_client c) as [db |] eqn:Hdb.
  - assert (Hgone : forall db',
              (db' = db /\ redis_keys db now (CACHE_PREFIX +:+ ":*") = ∅) \/
              db' = redis_delete_keys db now (CACHE_PREFIX +:+ ":*") ->
              redis_get db' now' (_get_cache_key k) = None).
    { intros db' Hcase. unfold redis_get.
      destruct (db' !! _get_cache_key k) as [r |] eqn:Hr; [| reflexivity].
      destruct (Z.ltb_spec now' (rexpires r)) as [Hlive | _]; [| reflexivity].
      exfalso.
      assert (Hmatch : Is_true (Redis.glob (CACHE_PREFIX +:+ ":*") (_get_cache_key k)
                                && live now r)).
      { rewrite prefix_pattern_matches. unfold live.
        destruct (Z.ltb_spec now (rexpires r)); [exact I | lia]. }
      destruct Hcase as [[-> Hnone] | ->].
      - assert (Hin : redis_keys db now (CACHE_PREFIX +:+ ":*") !! _get_cache_key k = Some r).
        { apply map_lookup_filter_Some. split; [exact Hr | exact Hmatch]. }
        rewrite Hnone, lookup_empty in Hin. discriminate.
      - apply map_lookup_filter_Some in Hr as [_ Hno]. exact (Hno Hmatch). }
    destruct (decide (redis_keys db now (CACHE_PREFIX +:+ ":*") = ∅)) as [Hnone | Hsome];
      cbn [fst snd log_info with_redis with_local redis_client local_cache cache_stats].
    + repeat split; auto.
      * rewrite get_without_local by apply lookup_empty.
        cbn [log_info with_local redis_client]. rewrite Hdb.
        now rewrite (Hgone db (or_introl (conj eq_refl Hnone))).
      * rewrite Hdb. auto.
    + repeat split; auto.
      * rewrite get_without_local by apply lookup_empty.
        cbn [log_info with_local with_redis redis_client].
        now rewrite (Hgone _ (or_intror eq_refl)).
      * intros key entry Hkey Hout. apply others_kept; [exact Hkey |].
        change (CACHE_PREFIX +:+ ":*") with "perf_demo:*". now rewrite Hout.
  - cbn [fst snd log_info with_local redis_client local_cache cache_stats].
    repeat split; auto.
    + rewrite get_without_local by apply lookup_empty.
      cbn [log_info with_local redis_client]. now rewrite Hdb.
    + intros key entry Hkey. discriminate Hkey.
Qed.

Lemma clear_all_empties_both_tiers_witness :
  fst (clear_all Scenario.after_set 5 None) = true /\
  local_cache (snd (clear_all Scenario.after_set 5 None)) = ∅ /\
  fst (get (snd (clear_all Scenario.after_set 5 None)) 6 None "product:1") = PNone.
Proof.
  pose proof (clear_all_empties_both_tiers Scenario.after_set 5 6 "product:1") as H.
  destruct H as (H1 & H2 & _ & H4 & _).
  - lia.
  - repeat split; assumption.
Defined.

(** When the shared tier raises, [clear_all] reports failure with one more
    error counted, and the local tier has been emptied all the same. *)
Theorem clear_all_failure (c : CacheService) (now : Z) (e : string)
    (db : gmap string redis_entry) :
  redis_client c = Some db ->
  fst (clear_all c now (Some e)) = false /\
  local_cache (snd (clear_all c now (Some e))) = ∅ /\
  shared_entry (snd (clear_all c now (Some e))) = shared_entry c /\
  errors (cache_stats (snd (clear_all c now (Some e)))) = errors (cache_stats c) + 1.
Proof.
  intros Hdb. unfold clear_all, shared_entry. cbn [with_local redis_client].
  rewrite Hdb. cbn. now rewrite Hdb.
Qed.

Lemma clear_all_failure_witness :
  fst (clear_all Scenario.after_set 5 Scenario.refused) = false /\
  local_cache (snd (clear_all Scenario.after_set 5 Scenario.refused)) = ∅.
Proof.
  pose proof (clear_all_failure Scenario.after_set 5 "Connection refused"
                (<[_get_cache_key "product:1" :=
                     mkRedisEntry (_serialize Scenario.product) 3600]> ∅)) as H.
  destruct H as (H1 & H2 & _).
  - vm_compute. reflexivity.
  - split; [exact H1 | exact H2].
Defined.

(** *** Bulk operations *)

Lemma store_local_other (now ttl : Z) (data : pydict pyval) (l : gmap string local_entry)
    (k : string) :
  ~ In k (dict_keys data) -> store_local now ttl data l !! k = l !! k.
Proof.
  revert l. induction data as [| [k' v'] rest IH]; intros l Hnot; [reflexivity |].
  unfold store_local in *. cbn [fold_left fst snd].
  rewrite IH by (intros Hin; apply Hnot; now right).
  apply lookup_insert_ne. intros ->. apply Hnot. now left.
Qed.

Lemma store_local_lookup (now ttl : Z) (data : pydict pyval) (l : gmap string local_entry)
    (k : string) (v : pyval) :
  dict_wf data -> dict_get data k = Some v ->
  store_local now ttl data l !! k = Some (mkEntry v (now + Z.min ttl CACHE_SHORT_TTL)).
Proof.
  revert l. induction data as [| [k' v'] rest IH]; intros l Hwf Hget; [discriminate |].
  apply List.NoDup_cons_iff in Hwf as [Hfresh Hwf].
  cbn [dict_get] in Hget. unfold store_local in *. cbn [fold_left fst snd].
  destruct (String.eqb_spec k' k) as [-> | Hne].
  - injection Hget as ->.
    fold (store_local now ttl rest
            (<[k := mkEntry v (now + Z.min ttl CACHE_SHORT_TTL)]> l)).
    rewrite (store_local_other now ttl rest _ k Hfresh). apply lookup_insert_eq.
  - now apply IH.
Qed.

Lemma store_shared_other (now ttl : Z) (data : pydict pyval) (db : gmap string redis_entry)
    (k : string) :
  ~ In k (dict_keys data) ->
  store_shared now ttl data db !! _get_cache_key k = db !! _get_cache_key k.
Proof.
  revert db. induction data as [| [k' v'] rest IH]; intros db Hnot; [reflexivity |].
  unfold store_shared in *. cbn [fold_left fst snd].
  rewrite IH by (intros Hin; apply Hnot; now right).
  apply lookup_insert_ne. intros Heq. apply full_key_inj in Heq as ->. apply Hnot. now left.
Qed.

Lemma store_shared_lookup (now ttl : Z) (data : pydict pyval) (db : gmap string redis_entry)
    (k : string) (v : pyval) :
  dict_wf data -> dict_get data k = Some v ->
  store_shared now ttl data db !! _get_cache_key k
  = Some (mkRedisEntry (_serialize v) (now + ttl)).
Proof.
  revert db. induction data as [| [k' v'] rest IH]; intros db Hwf Hget; [discriminate |].
  apply List.NoDup_cons_iff in Hwf as [Hfresh Hwf].
  cbn [dict_get] in Hget. unfold store_shared in *. cbn [fold_left fst snd].
  destruct (String.eqb_spec k' k) as [-> | Hne].
  - injection Hget as ->.
    fold (store_shared now ttl rest
            (<[_get_cache_key k := mkRedisEntry (_serialize v) (now + ttl)]> db)).
    rewrite (store_shared_other now ttl rest _ k Hfresh). apply lookup_insert_eq.
  - now apply IH.
Qed.

Lemma set_many_local (c : CacheService) (now : Z) (f : option string) (data : pydict pyval)
    (ttl : option Z) :
  local_cache (snd (set_many c now f data ttl))
  = store_local now (effective_ttl ttl) data (local_cache c).
Proof.
  unfold set_many. cbn [with_local redis_client].
  destruct (redis_client c) as [db |]; [| reflexivity].
  destruct f as [e |]; [reflexivity |].
  destruct data as [| item rest]; [reflexivity |].
  destruct (effective_ttl ttl <=? 0); reflexivity.
Qed.

(** [set_many] writes every item of the dict to the local tier, whatever the
    shared tier does: a [get] of any of its keys less than 300 s later (and
    less than the ttl, when one is given and not zero) returns the item,
    counted as a hit; and when [set_many] reports success the sets counter has
    grown by the number of items and, with a client, the shared tier holds
    the item under perf_demo:key until ttl seconds after the call, 3600 s
    when the ttl is absent or zero. *)
Theorem set_many_stores_every_item (c : CacheService) (now now' : Z)
    (f f' : option string) (data : pydict pyval) (ttl : option Z) (k : string) (v : pyval) :
  dict_wf data ->
  dict_get data k = Some v ->
  now' < now + 300 ->
  (forall t, ttl = Some t -> t = 0 \/ now' < now + t) ->
  fst (get (snd (set_many c now f data ttl)) now' f' k) = v /\
  hits (cache_stats (snd (get (snd (set_many c now f data ttl)) now' f' k)))
  = hits (cache_stats c) + 1 /\
  (fst (set_many c now f data ttl) = true ->
   sets (cache_stats (snd (set_many c now f data ttl)))
   = sets (cache_stats c) + Z.of_nat (length data) /\
   (redis_client c <> None ->
    exists entry,
      shared_entry (snd (set_many c now f data ttl)) ("perf_demo:" +:+ k) = Some entry /\
      document (rvalue entry) = v /\
      rexpires entry = now + match ttl with
                             | Some t => if t =? 0 then 3600 else t
                             | None => 3600
                             end)).
Proof.
  intros Hwf Hget Hsoon Httl.
  assert (Hlocal : local_cache (snd (set_many c now f data ttl)) !! k
                   = Some (mkEntry v (now + Z.min (effective_ttl ttl) CACHE_SHORT_TTL))).
  { rewrite set_many_local. now apply store_local_lookup. }
  assert (Hhits : hits (cache_stats (snd (set_many c now f data ttl))) = hits (cache_stats c)).
  { unfold set_many. cbn [with_local redis_client].
    destruct (redis_client c) as [db |]; [| reflexivity].
    destruct f as [e |]; [reflexivity |].
    destruct data as [| item rest]; [reflexivity |].
    destruct (effective_ttl ttl <=? 0); reflexivity. }
  rewrite (CacheFacts.get_local_hit _ now' f' k _ Hlocal (still_fresh _ _ _ Hsoon Httl)).
  cbn [fst snd Cache.data count_hit cache_stats hits].
  split; [reflexivity |]. split; [now rewrite Hhits |].
  change ("perf_demo:" +:+ k) with (_get_cache_key k). rewrite <- shared_ttl.
  unfold set_many, shared_entry. cbn [with_local redis_client local_cache].
  destruct (redis_client c) as [db |] eqn:Hdb.
  - destruct f as [e |]; [intros [=] |].
    destruct data as [| item rest]; [discriminate Hget |].
    destruct (effective_ttl ttl <=? 0); [intros [=] |].
    intros _.
    cbn [fst snd count_sets with_redis with_local redis_client cache_stats sets].
    split; [reflexivity |]. intros _.
    exists (mkRedisEntry (_serialize v) (now + effective_ttl ttl)).
    split; [now apply store_shared_lookup |].
    cbn [rvalue rexpires]. split; [| reflexivity].
    unfold _serialize. now destruct (_ && _).
  - intros _.
    cbn [fst snd count_sets with_redis with_local redis_client cache_stats sets].
    split; [reflexivity |]. congruence.
Qed.

Lemma set_many_stores_every_item_witness :
  fst (set_many Scenario.connected 0 None
                [("product:1", Scenario.product); ("product:2", PInt 2)] None) = true /\
  fst (get (snd (set_many Scenario.connected 0 None
                          [("product:1", Scenario.product); ("product:2", PInt 2)] None))
           10 Scenario.refused "product:2") = PInt 2 /\
  sets (cache_stats (snd (set_many Scenario.connected 0 None
                           [("product:1", Scenario.product); ("product:2", PInt 2)] None)))
  = 2.
Proof.
  destruct (set_many_stores_every_item Scenario.connected 0 10 None Scenario.refused
              [("product:1", Scenario.product); ("product:2", PInt 2)] None "product:2"
              (PInt 2)) as (Hget & _ & Hok).
  - unfold dict_wf, dict_keys. cbn [map fst].
    apply List.NoDup_cons; [intros [H | []]; discriminate H |].
    apply List.NoDup_cons; [intros [] | apply List.NoDup_nil].
  - reflexivity.
  - lia.
  - intros t [=].
  - split; [vm_compute; reflexivity |]. split; [exact Hget |].
    exact (proj1 (Hok eq_refl)).
Defined.

Lemma dict_get_set {V : Type} (d : pydict V) (k k' : string) (v : V) :
  dict_get (dict_set d k v) k' = if String.eqb k k' then Some v else dict_get d k'.
Proof.
  induction d as [| [j x] rest IH]; cbn [dict_set dict_get].
  - reflexivity.
  - destruct (String.eqb_spec j k) as [-> | Hjk]; cbn [dict_get].
    + now destruct (String.eqb k k').
    + rewrite IH. destruct (String.eqb_spec j k') as [-> | Hjk']; [| reflexivity].
      destruct (String.eqb_spec k k') as [-> | _]; [contradiction | reflexivity].
Qed.

Lemma get_many_from_step (c : CacheService) (now : Z) (key : string) (fault : option string)
    (rest : list (string * option string)) (results : pydict pyval) :
  get_many_from c now ((key, fault) :: rest) results
  = get_many_from (snd (get c now fault key)) now rest
      (if is_value (fst (get c now fault key))
       then dict_set results key (fst (get c now fault key)) else results).
Proof.
  cbn [get_many_from]. destruct (get c now fault key) as [value c'].
  cbn [fst snd]. destruct value; reflexivity.
Qed.

Lemma get_many_from_sound (keys : list (string * option string)) (c : CacheService)
    (now : Z) (results : pydict pyval) (k : string) (v : pyval) :
  dict_get (fst (get_many_from c now keys results)) k = Some v ->
  dict_get results k = Some v \/ (v <> PNone /\ In k (map fst keys)).
Proof.
  revert c results. induction keys as [| [key fault] rest IH]; intros c results Hget.
  - now left.
  - rewrite get_many_from_step in Hget.
    apply IH in Hget as [Hget | [Hv Hin]].
    + destruct (is_value (fst (get c now fault key))) eqn:Hvalue; [| now left].
      rewrite dict_get_set in Hget.
      destruct (String.eqb_spec key k) as [-> | _]; [| now left].
      injection Hget as <-. right. split; [| now left].
      intros Hnone. rewrite Hnone in Hvalue. discriminate.
    + right. split; [exact Hv | now right].
Qed.

Lemma get_keeps_live_entry (c : CacheService) (now : Z) (f : option string)
    (key k : string) (e : local_entry) :
  local_cache c !! k = Some e -> now < expires_at e ->
  local_cache (snd (get c now f key)) !! k = Some e /\
  (key = k -> fst (get c now f key) = data e).
Proof.
  intros Hk Hlive.
  destruct (String.eqb_spec key k) as [-> | Hne].
  - rewrite (CacheFacts.get_local_hit c now f k e Hk Hlive). cbn. auto.
  - split; [| contradiction].
    unfold get.
    destruct (local_cache c !! key) as [x |]; [destruct (now <? expires_at x) |];
      cbn [fst snd count_hit with_local local_cache redis_client]; try exact Hk;
      (destruct (redis_client c) as [db |];
       [destruct f; [| destruct (redis_get db now (_get_cache_key key))] |]);
      cbn [fst snd count_hit count_miss on_error with_local local_cache redis_client];
      rewrite ?lookup_insert_ne, ?lookup_delete_ne by exact Hne; exact Hk.
Qed.

Lemma get_many_from_complete (keys : list (string * option string)) (c : CacheService)
    (now : Z) (results : pydict pyval) (k : string) (e : local_entry) :
  local_cache c !! k = Some e -> now < expires_at e -> data e <> PNone ->
  In k (map fst keys) \/ dict_get results k = Some (data e) ->
  dict_get (fst (get_many_from c now keys results)) k = Some (data e).
Proof.
  revert c results. induction keys as [| [key fault] rest IH];
    intros c results Hk Hlive Hvalue Hcase.
  - destruct Hcase as [[] | Hres]. exact Hres.
  - rewrite get_many_from_step.
    destruct (get_keeps_live_entry c now fault key k e Hk Hlive) as [Hk' Hsame].
    apply IH; try assumption.
    destruct (String.eqb_spec key k) as [-> | Hne].
    + right. rewrite (Hsame eq_refl).
      assert (Hv : is_value (data e) = true) by (destruct (data e); auto; contradiction).
      rewrite Hv, dict_get_set, String.eqb_refl. reflexivity.
    + destruct Hcase as [[Hhead | Hin] | Hres]; [contradiction | now left |].
      right. destruct (is_value (fst (get c now fault key))); [| exact Hres].
      rewrite dict_get_set.
      destruct (String.eqb_spec key k) as [-> | _]; [contradiction | exact Hres].
Qed.

(** [get_many] returns only keys that were asked for, and never maps a key
    to [None]: a key whose [get] found nothing, or failed, is simply absent
    from the result; and a key that was asked for and has a live local copy
    holding a value is in the result with that value, whatever the shared
    tier does. *)
Theorem get_many_returns_found_values (c : CacheService) (now : Z)
    (keys : list (string * option string)) (k : string) :
  (forall v, dict_get (fst (get_many c now keys)) k = Some v ->
             v <> PNone /\ In k (map fst keys)) /\
  (forall e, local_cache c !! k = Some e -> now < expires_at e -> data e <> PNone ->
             In k (map fst keys) ->
             dict_get (fst (get_many c now keys)) k = Some (data e)).
Proof.
  split.
  - intros v Hget. unfold get_many in Hget.
    apply get_many_from_sound in Hget as [Hget | Hget]; [discriminate | exact Hget].
  - intros e Hk Hlive Hvalue Hin. unfold get_many.
    apply get_many_from_complete; auto.
Qed.

Lemma get_many_returns_found_values_witness :
  dict_get (fst (get_many Scenario.after_set 5
                          [("product:9", Scenario.refused); ("product:1", Scenario.refused)]))
           "product:1" = Some Scenario.product.
Proof.
  apply (proj2 (get_many_returns_found_values Scenario.after_set 5
                  [("product:9", Scenario.refused); ("product:1", Scenario.refused)]
                  "product:1")
           (mkEntry Scenario.product 300)).
  - vm_compute. reflexivity.
  - cbn. lia.
  - discriminate.
  - cbn. auto.
Defined.

(** *** Counters and the hit rate *)

Lemma counters_grow_refl (c : CacheService) : counters_grow c c.
Proof. unfold counters_grow. lia. Qed.

Lemma counters_grow_trans (a b c : CacheService) :
  counters_grow a b -> counters_grow b c -> counters_grow a c.
Proof. unfold counters_grow. lia. Qed.

Lemma get_counters_grow (c : CacheService) (now : Z) (f : option string) (k : string) :
  counters_grow c (snd (get c now f k)).
Proof.
  unfold get, counters_grow.
  destruct (local_cache c !! k) as [e |]; [destruct (now <? expires_at e) |]; cbn;
    try lia;
    (destruct (redis_client c) as [db |]; [destruct f; [| destruct (redis_get _ _ _)] |]);
    cbn; lia.
Qed.

Lemma set_counters_grow (c : CacheService) (now : Z) (f : option string) (k : string)
    (v : pyval) (ttl : option Z) :
  counters_grow c (snd (set c now f k v ttl)).
Proof.
  unfold set, counters_grow. cbn [with_local redis_client].
  destruct (redis_client c) as [db |]; [destruct f; [| destruct (redis_setex _ _ _ _ _)] |];
    cbn; lia.
Qed.

Lemma delete_counters_grow (c : CacheService) (now : Z) (f : option string) (k : string) :
  counters_grow c (snd (delete c now f k)).
Proof.
  unfold delete, counters_grow. cbn [with_local redis_client].
  destruct (redis_client c) as [db |]; [destruct f |]; cbn; lia.
Qed.

Lemma delete_pattern_counters_grow (c : CacheService) (now : Z) (f : option string)
    (pattern : string) :
  counters_grow c (snd (delete_pattern c now f pattern)).
Proof.
  unfold delete_pattern, counters_grow.
  destruct (redis_client c) as [db |]; [destruct f; [| destruct (decide _)] |]; cbn; lia.
Qed.

Lemma run_counters_grow (steps : list step) (c : CacheService) :
  counters_grow c (snd (run c steps)).
Proof.
  revert c. induction steps as [| s rest IH]; intros c; [apply counters_grow_refl |].
  cbn [run]. unfold run_step.
  destruct (what s) as [key | key value ttl | key | pattern].
  - pose proof (get_counters_grow c (at_time s) (fault s) key) as Hstep.
    destruct (get c (at_time s) (fault s) key) as [v c']. cbn [snd] in Hstep.
    specialize (IH c'). destruct (run c' rest) as [rs c'']. cbn [snd] in *.
    exact (counters_grow_trans _ _ _ Hstep IH).
  - pose proof (set_counters_grow c (at_time s) (fault s) key value ttl) as Hstep.
    specialize (IH (snd (set c (at_time s) (fault s) key value ttl))).
    destruct (run _ rest) as [rs c'']. cbn [snd] in *.
    exact (counters_grow_trans _ _ _ Hstep IH).
  - pose proof (delete_counters_grow c (at_time s) (fault s) key) as Hstep.
    specialize (IH (snd (delete c (at_time s) (fault s) key))).
    destruct (run _ rest) as [rs c'']. cbn [snd] in *.
    exact (counters_grow_trans _ _ _ Hstep IH).
  - pose proof (delete_pattern_counters_grow c (at_time s) (fault s) pattern) as Hstep.
    specialize (IH (snd (delete_pattern c (at_time s) (fault s) pattern))).
    destruct (run _ rest) as [rs c'']. cbn [snd] in *.
    exact (counters_grow_trans _ _ _ Hstep IH).
Qed.

(** The counters are monotone: over any sequence of get, set, delete and
    delete_pattern calls, whatever the shared tier does, none of hits,
    misses, sets, deletes and errors ever goes down. *)
Theorem counters_never_decrease (steps : list step) (c : CacheService) :
  hits (cache_stats c) <= hits (cache_stats (snd (run c steps))) /\
  misses (cache_stats c) <= misses (cache_stats (snd (run c steps))) /\
  sets (cache_stats c) <= sets (cache_stats (snd (run c steps))) /\
  deletes (cache_stats c) <= deletes (cache_stats (snd (run c steps))) /\
  errors (cache_stats c) <= errors (cache_stats (snd (run c steps))).
Proof.
  exact (run_counters_grow steps c).
Qed.

Lemma round_half_even_bounds (q : Q) (n : Z) :
  (0 <= q)%Q -> (q <= inject_Z n)%Q -> 0 <= round_half_even q <= n.
Proof.
  intros Hlow Hhigh. unfold round_half_even.
  pose proof (Qfloor_le q) as Hfloor.
  assert (H0 : 0 <= Qfloor q).
  { change 0 with (Qfloor (inject_Z 0)). now apply Qfloor_resp_le. }
  assert (Hn : Qfloor q <= n).
  { rewrite <- (Qfloor_Z n). now apply Qfloor_resp_le. }
  assert (Hup : (0 < q - inject_Z (Qfloor q))%Q -> Qfloor q + 1 <= n).
  { intros Hfrac.
    assert (Hlt : (inject_Z (Qfloor q) < inject_Z n)%Q).
    { apply Qlt_le_trans with q; [| exact Hhigh].
      apply Qlt_minus_iff. exact Hfrac. }
    rewrite <- Zlt_Qlt in Hlt. lia. }
  destruct (q - inject_Z (Qfloor q) ?= 1 # 2)%Q eqn:Hcmp.
  - destruct (Z.even (Qfloor q)); [lia |].
    apply Qeq_alt in Hcmp. split; [lia |]. apply Hup. rewrite Hcmp. reflexivity.
  - lia.
  - apply Qgt_alt in Hcmp. split; [lia |]. apply Hup.
    apply Qlt_trans with (1 # 2)%Q; [reflexivity | exact Hcmp].
Qed.

Lemma round2_bounds (q : Q) :
  (0 <= q)%Q -> (q <= 100)%Q -> (0 <= round2 q)%Q /\ (round2 q <= 100)%Q.
Proof.
  intros Hlow Hhigh. unfold round2.
  destruct (round_half_even_bounds (q * 100) 10000) as [H0 H1].
  - apply Qmult_le_0_compat; [exact Hlow | discriminate].
  - change (inject_Z 10000) with (100 * 100)%Q.
    apply Qmult_le_compat_r; [exact Hhigh | discriminate].
  - split.
    + apply Qle_shift_div_l; [reflexivity |]. rewrite Qmult_0_l.
      change 0%Q with (inject_Z 0). now rewrite <- Zle_Qle.
    + apply Qle_shift_div_r; [reflexivity |].
      change (100 * 100)%Q with (inject_Z 10000). now rewrite <- Zle_Qle.
Qed.

Lemma round_half_even_close (q : Q) :
  (q - (1 # 2) <= inject_Z (round_half_even q) <= q + (1 # 2))%Q.
Proof.
  unfold round_half_even.
  pose proof (Qfloor_le q) as Hlow.
  pose proof (Qlt_floor q) as Hhigh.
  rewrite inject_Z_plus in Hhigh. change (inject_Z 1) with 1%Q in Hhigh.
  destruct (q - inject_Z (Qfloor q) ?= 1 # 2)%Q eqn:Hcmp.
  - apply Qeq_alt in Hcmp. destruct (Z.even (Qfloor q)).
    + split; lra.
    + rewrite inject_Z_plus; change (inject_Z 1) with 1%Q; split; lra.
  - apply Qlt_alt in Hcmp. split; lra.
  - apply Qgt_alt in Hcmp. rewrite inject_Z_plus; change (inject_Z 1) with 1%Q; split; lra.
Qed.

Lemma round2_close (q : Q) : (q - (1 # 200) <= round2 q <= q + (1 # 200))%Q.
Proof.
  unfold round2. pose proof (round_half_even_close (q * 100)) as [H1 H2].
  set (r := inject_Z (round_half_even (q * 100))) in *.
  unfold Qdiv. change (/ 100)%Q with (1 # 100)%Q. split; lra.
Qed.

(** The hit rate that [get_stats] reports is a percentage: whenever the hit
    and miss counters are not negative it lies between 0 and 100; it is 0,
    not an error, when no [get] has been counted; and otherwise it is within
    0.005 of 100 * hits / (hits + misses). *)
Theorem hit_rate_is_a_percentage (c : CacheService) :
  0 <= hits (cache_stats c) -> 0 <= misses (cache_stats c) ->
  (0 <= v_hit_rate (get_stats c))%Q /\ (v_hit_rate (get_stats c) <= 100)%Q /\
  (hits (cache_stats c) + misses (cache_stats c) = 0 -> (v_hit_rate (get_stats c) == 0)%Q) /\
  (0 < hits (cache_stats c) + misses (cache_stats c) ->
   (inject_Z (hits (cache_stats c))
    / inject_Z (hits (cache_stats c) + misses (cache_stats c)) * 100 - (1 # 200)
    <= v_hit_rate (get_stats c))%Q /\
   (v_hit_rate (get_stats c)
    <= inject_Z (hits (cache_stats c))
       / inject_Z (hits (cache_stats c) + misses (cache_stats c)) * 100 + (1 # 200))%Q).
Proof.
  intros Hh Hm. unfold get_stats. cbn [v_hit_rate].
  destruct (Z.ltb_spec 0 (hits (cache_stats c) + misses (cache_stats c))) as [Hpos | Hzero].
  - assert (Hfrac : (0 <= inject_Z (hits (cache_stats c))
                          / inject_Z (hits (cache_stats c) + misses (cache_stats c)))%Q
                    /\ (inject_Z (hits (cache_stats c))
                        / inject_Z (hits (cache_stats c) + misses (cache_stats c)) <= 1)%Q).
    { split.
      - apply Qle_shift_div_l.
        + change 0%Q with (inject_Z 0). rewrite <- Zlt_Qlt. exact Hpos.
        + rewrite Qmult_0_l. change 0%Q with (inject_Z 0). now rewrite <- Zle_Qle.
      - apply Qle_shift_div_r.
        + change 0%Q with (inject_Z 0). rewrite <- Zlt_Qlt. exact Hpos.
        + rewrite Qmult_1_l. rewrite <- Zle_Qle. lia. }
    destruct Hfrac as [Hf0 Hf1].
    destruct (round2_bounds (inject_Z (hits (cache_stats c))
                             / inject_Z (hits (cache_stats c) + misses (cache_stats c)) * 100))
      as [Hr0 Hr1].
    + apply Qmult_le_0_compat; [exact Hf0 | discriminate].
    + change 100%Q with (1 * 100)%Q at 2.
      apply Qmult_le_compat_r; [exact Hf1 | discriminate].
    + split; [exact Hr0 |]. split; [exact Hr1 |]. split; [lia |].
      intros _. apply round2_close.
  - destruct (round2_bounds 0) as [Hr0 Hr1]; [discriminate | discriminate |].
    split; [exact Hr0 |]. split; [exact Hr1 |]. split; [intros _; reflexivity | lia].
Qed.

Lemma hit_rate_is_a_percentage_witness :
  hits (cache_stats (snd (run Scenario.connected Scenario.mixed_calls))) = 1 /\
  misses (cache_stats (snd (run Scenario.connected Scenario.mixed_calls))) = 2 /\
  (33 <= v_hit_rate (get_stats (snd (run Scenario.connected Scenario.mixed_calls))))%Q /\
  (v_hit_rate (get_stats (snd (run Scenario.connected Scenario.mixed_calls))) <= 34)%Q.
Proof.
  assert (Hh : hits (cache_stats (snd (run Scenario.connected Scenario.mixed_calls))) = 1)
    by (vm_compute; reflexivity).
  assert (Hm : misses (cache_stats (snd (run Scenario.connected Scenario.mixed_calls))) = 2)
    by (vm_compute; reflexivity).
  split; [exact Hh |]. split; [exact Hm |].
  pose proof (hit_rate_is_a_percentage (snd (run Scenario.connected Scenario.mixed_calls))) as H.
  destruct H as (_ & _ & _ & H).
  - rewrite Hh. lia.
  - rewrite Hm. lia.
  - rewrite Hh, Hm in H. destruct H as [Hlow Hhigh]; [lia |].
    change (inject_Z 1 / inject_Z (1 + 2) * 100)%Q with (100 # 3)%Q in Hlow, Hhigh.
    split; lra.
Defined.

(** *** get_or_set and the per-product helpers *)

(** [get_or_set] on a key whose [get] finds a value returns that value and
    does not call the producer: the caller's world is unchanged. *)
Lemma get_or_set_hit_skips_producer {W : Type} (c : CacheService) (now_get now_set : Z)
    (fault_get fault_set : option string) (k : string) (producer : W -> pyval * W)
    (ttl : option Z) (w : W) :
  fst (get c now_get fault_get k) <> PNone ->
  get_or_set c now_get now_set fault_get fault_set k producer ttl w
  = (fst (get c now_get fault_get k), snd (get c now_get fault_get k), w).
Proof.
  intros Hvalue. unfold get_or_set.
  destruct (get c now_get fault_get k) as [cached c1]. cbn [fst snd] in *.
  destruct cached; try reflexivity. contradiction.
Qed.

(** After a [get_or_set] that missed and produced a value other than
    [None], a second [get_or_set] on the key less than 300 s after the first
    stored the value (and less than the ttl, when one is given and not zero)
    returns the produced value, counted as a hit, without calling its
    producer, even if the shared tier fails during both calls. *)
Theorem get_or_set_caches_produced_value {W : Type} (c : CacheService) (t1 t1' t2 t2' : Z)
    (f1 f1' f2 f2' : option string) (k : string) (producer producer' : W -> pyval * W)
    (ttl ttl' : option Z) (w w' : W) :
  fst (get c t1 f1 k) = PNone ->
  fst (producer w) <> PNone ->
  t2 < t1' + 300 ->
  (forall t, ttl = Some t -> t = 0 \/ t2 < t1' + t) ->
  fst (fst (get_or_set c t1 t1' f1 f1' k producer ttl w)) = fst (producer w) /\
  snd (get_or_set c t1 t1' f1 f1' k producer ttl w) = snd (producer w) /\
  fst (fst (get_or_set (snd (fst (get_or_set c t1 t1' f1 f1' k producer ttl w)))
                       t2 t2' f2 f2' k producer' ttl' w')) = fst (producer w) /\
  snd (get_or_set (snd (fst (get_or_set c t1 t1' f1 f1' k producer ttl w)))
                  t2 t2' f2 f2' k producer' ttl' w') = w' /\
  hits (cache_stats
          (snd (fst (get_or_set (snd (fst (get_or_set c t1 t1' f1 f1' k producer ttl w)))
                                t2 t2' f2 f2' k producer' ttl' w'))))
  = hits (cache_stats (snd (fst (get_or_set c t1 t1' f1 f1' k producer ttl w)))) + 1.
Proof.
  intros Hmiss Hvalue Hsoon Httl.
  assert (Hfirst : get_or_set c t1 t1' f1 f1' k producer ttl w
                   = (fst (producer w),
                      snd (set (snd (get c t1 f1 k)) t1' f1' k (fst (producer w)) ttl),
                      snd (producer w))).
  { unfold get_or_set.
    destruct (get c t1 f1 k) as [cached c1]. cbn [fst snd] in Hmiss |- *. subst cached.
    destruct (producer w) as [value w1]. cbn [fst snd].
    now destruct (set c1 t1' f1' k value ttl). }
  rewrite Hfirst. cbn [fst snd].
  split; [reflexivity |]. split; [reflexivity |].
  pose proof (set_then_get (snd (get c t1 f1 k)) t1' t2 f1' f2 k (fst (producer w)) ttl
                Hsoon Httl) as Hget.
  unfold get_or_set. rewrite Hget.
  destruct (fst (producer w)); try contradiction; cbn; auto.
Qed.

Lemma get_or_set_caches_produced_value_witness :
  get_or_set
    (snd (fst (get_or_set Scenario.connected 0 0 Scenario.refused Scenario.refused
                          "product:1" (fun n : nat => (PInt 7, S n)) None 0%nat)))
    10 10 Scenario.refused Scenario.refused "product:1" (fun n : nat => (PInt 8, S n)) None 5%nat
  = (PInt 7,
     snd (fst (get_or_set
                 (snd (fst (get_or_set Scenario.connected 0 0 Scenario.refused
                                       Scenario.refused "product:1"
                                       (fun n : nat => (PInt 7, S n)) None 0%nat)))
                 10 10 Scenario.refused Scenario.refused "product:1"
                 (fun n : nat => (PInt 8, S n)) None 5%nat)),
     5%nat).
Proof.
  pose proof (get_or_set_caches_produced_value Scenario.connected 0 0 10 10
                Scenario.refused Scenario.refused Scenario.refused Scenario.refused
                "product:1" (fun n : nat => (PInt 7, S n)) (fun n : nat => (PInt 8, S n))
                None None 0%nat 5%nat) as H.
  destruct H as (_ & _ & H3 & H4 & _).
  - vm_compute. reflexivity.
  - discriminate.
  - lia.
  - intros t [=].
  - cbn [fst snd] in H3, H4.
    destruct (get_or_set _ 10 10 _ _ _ _ _ _) as [[value c2] w2]. cbn [fst snd] in *.
    now subst.
Defined.

Lemma product_key_inj (a b : Z) : product_key a = product_key b -> a = b.
Proof.
  unfold product_key. intros H. apply append_inj_r in H. now apply str_int_inj.
Qed.

(** Product entries are kept per id: caching or invalidating one product
    never changes what [get_product] returns for another; [get_product] less
    than 300 s after [set_product] returns the product; and after
    [invalidate_product] reported success [get_product] of that id finds
    nothing. *)
Theorem product_entries_are_per_id (c : CacheService) (now now' : Z) (f f' : option string)
    (id other : Z) (product : pyval) :
  id <> other ->
  fst (get_product (snd (set_product c now f id product)) now' f' other)
  = fst (get_product c now' f' other) /\
  fst (get_product (snd (invalidate_product c now f id)) now' f' other)
  = fst (get_product c now' f' other) /\
  (now' < now + 300 ->
   fst (get_product (snd (set_product c now f id product)) now' f' id) = product) /\
  (fst (invalidate_product c now f id) = true ->
   fst (get_product (snd (invalidate_product c now f id)) now' None id) = PNone).
Proof.
  intros Hne. unfold get_product, set_product, invalidate_product.
  assert (Hkeys : product_key id <> product_key other)
    by (intros H; apply Hne; now apply product_key_inj).
  split; [now apply set_keeps_other_keys |].
  split; [now apply delete_keeps_other_keys |].
  split.
  - intros Hsoon. rewrite set_then_get; [reflexivity | exact Hsoon |].
    intros t [= <-]. right. unfold CACHE_DEFAULT_TTL. lia.
  - intros Hok.
    destruct (delete c now f (product_key id)) as [ok c1] eqn:Hdel. cbn [fst snd] in *.
    subst ok.
    destruct (delete_clears_key c c1 now now' f (product_key id) Hdel) as (_ & Hget & _).
    now rewrite Hget.
Qed.

Lemma product_entries_are_per_id_witness :
  fst (get_product (snd (set_product Scenario.after_set 5 None 2 (PInt 2))) 10 None 1)
  = Scenario.product /\
  fst (get_product (snd (set_product Scenario.after_set 5 None 2 (PInt 2))) 10 None 2)
  = PInt 2.
Proof.
  destruct (product_entries_are_per_id Scenario.after_set 5 10 None None 2 1 (PInt 2))
    as (Hother & _ & Hown & _).
  - discriminate.
  - rewrite Hother. split; [vm_compute; reflexivity | apply Hown; lia].
Defined.

End CacheOpsFacts.


(** ** Metrics aggregator: further properties *)
Module MonitorOpsFacts.
Import Py Config Monitor MonitorOps.
Local Open Scope list_scope.

(** *** Window size *)

(** Starting from a fresh aggregator, the length of the window is the
    smaller of the number of requests and 10000, and the snapshot's
    total_metrics reports that length; while no more than 10000 requests
    have been recorded the window holds one record per request, in order of
    arrival, each carrying the request's own figures and the clock, memory
    and CPU readings of its call. *)
Theorem window_size (start : Z) (calls : list (probe * observation)) (env : probe) :
  Z.of_nat (length (metrics (record_all (Monitor.new start) calls)))
  = Z.min (Z.of_nat (length calls)) 10000 /\
  Z.of_nat (m_total_metrics (get_metrics (record_all (Monitor.new start) calls) env))
  = Z.min (Z.of_nat (length calls)) 10000 /\
  (Z.of_nat (length calls) <= 10000 ->
   metrics (record_all (Monitor.new start) calls)
   = map (fun call : probe * observation =>
            mkMetric (o_endpoint (snd call)) (o_method (snd call))
                     (o_response_time (snd call)) (o_status_code (snd call))
                     (clock (fst call)) (o_user_id (snd call)) (o_ip_address (snd call))
                     (o_cache_hit (snd call)) (o_database_queries (snd call))
                     (o_database_time (snd call))
                     (Some (memory_percent (fst call))) (Some (cpu_percent (fst call))))
         calls).
Proof.
  assert (Hcap : Z.of_nat capacity = 10000) by (unfold capacity, METRICS_MAXLEN; lia).
  assert (Hwindow : metrics (record_all (Monitor.new start) calls)
                    = keep_last capacity (recorded calls)).
  { rewrite MonitorFacts.window_after_calls by apply Nat.le_0_l. reflexivity. }
  assert (Hlen : length (recorded calls) = length calls)
    by (unfold recorded; apply List.length_map).
  assert (Hsize : length (keep_last capacity (recorded calls))
                  = Nat.min (length calls) capacity).
  { unfold keep_last. rewrite List.length_skipn, Hlen. lia. }
  split; [rewrite Hwindow, Hsize; lia |].
  split; [unfold get_metrics; cbn [m_total_metrics]; rewrite Hwindow, Hsize; lia |].
  intros Hfew. rewrite Hwindow, MonitorFacts.keep_last_short by lia.
  unfold recorded. apply List.map_ext. intros call. reflexivity.
Qed.

(** *** Per-endpoint totals *)

Lemma code_total_bump (codes : list (Z * Z)) (code : Z) :
  code_total (bump_code codes code) = code_total codes + 1.
Proof.
  induction codes as [| [c n] rest IH]; cbn [bump_code code_total fold_right snd].
  - lia.
  - destruct (c =? code); cbn [code_total fold_right snd]; [lia |].
    fold (code_total (bump_code rest code)). rewrite IH.
    fold (code_total rest). lia.
Qed.

Lemma update_stats_sound (stats : EndpointStats) (o : observation) :
  stats = fresh_stats \/ stats_sound stats -> stats_sound (update_stats stats o).
Proof.
  intros Hstats. unfold stats_sound, update_stats.
  cbn [st_total_requests st_errors st_cache_hits st_status_codes].
  rewrite code_total_bump.
  destruct Hstats as [-> | (Htotal & Herrors & Hhits & Hcodes)].
  - cbn. destruct (400 <=? o_status_code o), (o_cache_hit o); lia.
  - destruct (400 <=? o_status_code o), (o_cache_hit o); lia.
Qed.

Lemma stats_of_sound (d : pydict EndpointStats) (k : string) :
  Forall (fun kv => stats_sound (snd kv)) d ->
  stats_of d k = fresh_stats \/ stats_sound (stats_of d k).
Proof.
  intros Hd. unfold stats_of. destruct (dict_get d k) as [st |] eqn:Hk; [| now left].
  right. exact (AlertFacts.dict_get_Forall _ d k st Hd Hk).
Qed.

Lemma record_all_sound (calls : list (probe * observation)) (self : PerformanceMonitor) :
  Forall (fun kv => stats_sound (snd kv)) (endpoint_stats self) ->
  Forall (fun kv => stats_sound (snd kv)) (endpoint_stats (record_all self calls)).
Proof.
  unfold record_all. revert self.
  induction calls as [| [env o] rest IH]; intros self Hself; [exact Hself |].
  cbn [fold_left fst snd]. apply IH. unfold record_request. cbn [endpoint_stats].
  apply (AlertFacts.dict_set_Forall stats_sound); [exact Hself |].
  apply update_stats_sound. now apply stats_of_sound.
Qed.

Lemma percentage_bounds (part total : Z) :
  0 <= part <= total -> 1 <= total ->
  (0 <= inject_Z part / inject_Z total * 100)%Q /\
  (inject_Z part / inject_Z total * 100 <= 100)%Q.
Proof.
  intros Hpart Htotal.
  assert (Hpos : (0 < inject_Z total)%Q).
  { change 0%Q with (inject_Z 0). rewrite <- Zlt_Qlt. lia. }
  split.
  - apply Qmult_le_0_compat; [| discriminate].
    apply Qle_shift_div_l; [exact Hpos |]. rewrite Qmult_0_l.
    change 0%Q with (inject_Z 0). rewrite <- Zle_Qle. lia.
  - change 100%Q with (1 * 100)%Q at 2. apply Qmult_le_compat_r; [| discriminate].
    apply Qle_shift_div_r; [exact Hpos |]. rewrite Qmult_1_l. rewrite <- Zle_Qle. lia.
Qed.

Lemma endpoint_views_sound (self : PerformanceMonitor) (items : pydict EndpointStats)
    (name : string) (view : EndpointMetrics) :
  Forall (fun kv => stats_sound (snd kv)) items ->
  In (name, view) (endpoint_views self items) ->
  1 <= em_total_requests view /\
  (0 <= em_error_rate view)%Q /\ (em_error_rate view <= 100)%Q /\
  (0 <= em_cache_hit_rate view)%Q /\ (em_cache_hit_rate view <= 100)%Q /\
  code_total (em_status_codes view) = em_total_requests view.
Proof.
  intros Hitems. induction items as [| [k st] rest IH]; cbn [endpoint_views]; [intros [] |].
  apply List.Forall_cons_iff in Hitems as [Hst Hrest]. cbn [snd] in Hst.
  destruct (0 <? st_total_requests st); [| now apply IH].
  intros [[= <- <-] | Hin]; [| now apply IH].
  destruct Hst as (Htotal & Herrors & Hhits & Hcodes).
  unfold endpoint_view.
  cbn [em_total_requests em_error_rate em_cache_hit_rate em_status_codes].
  destruct (percentage_bounds _ _ Herrors Htotal) as [He0 He1].
  destruct (percentage_bounds _ _ Hhits Htotal) as [Hh0 Hh1].
  repeat split; assumption.
Qed.

(** In every snapshot of an aggregator fed by [record_request] calls, each
    endpoint listed has at least one request, an error rate and a cache hit
    rate between 0 and 100, and a status-code histogram whose counts add up
    to its number of requests. *)
Theorem endpoint_figures_are_consistent (start : Z) (calls : list (probe * observation))
    (env : probe) (name : string) (view : EndpointMetrics) :
  In (name, view) (m_endpoints (get_metrics (record_all (Monitor.new start) calls) env)) ->
  1 <= em_total_requests view /\
  (0 <= em_error_rate view)%Q /\ (em_error_rate view <= 100)%Q /\
  (0 <= em_cache_hit_rate view)%Q /\ (em_cache_hit_rate view <= 100)%Q /\
  code_total (em_status_codes view) = em_total_requests view.
Proof.
  unfold get_metrics. cbn [m_endpoints].
  apply endpoint_views_sound.
  apply record_all_sound. apply List.Forall_nil.
Qed.

Lemma endpoint_figures_are_consistent_witness :
  1 <= 1 /\ (0 <= 100)%Q /\ (100 <= 100)%Q /\ (0 <= 0)%Q /\ (0 <= 100)%Q /\
  code_total [(500, 1)] = 1.
Proof.
  apply (endpoint_figures_are_consistent 0 [(Scenario.quiet, Scenario.hit "/orders" (1 # 10) 500)]
           Scenario.quiet "/orders"
           (mkEndpointMetrics 1 (1 # 10) (1 # 10) (1 # 10) 0 100 (1 # 60) [(500, 1)])).
  vm_compute. left. reflexivity.
Defined.

Lemma stats_of_set (d : pydict EndpointStats) (k k' : string) (st : EndpointStats) :
  stats_of (dict_set d k st) k' = if String.eqb k k' then st else stats_of d k'.
Proof.
  unfold stats_of. rewrite CacheOpsFacts.dict_get_set. now destruct (String.eqb k k').
Qed.

Lemma count_calls_cons (test : observation -> bool) (endpoint : string)
    (call : probe * observation) (rest : list (probe * observation)) :
  count_calls test endpoint (call :: rest)
  = (if String.eqb (o_endpoint (snd call)) endpoint && test (snd call) then 1 else 0)
    + count_calls test endpoint rest.
Proof.
  unfold count_calls. cbn [List.filter].
  destruct (String.eqb (o_endpoint (snd call)) endpoint && test (snd call));
    cbn [length]; lia.
Qed.

Lemma totals_count_calls (calls : list (probe * observation)) (self : PerformanceMonitor)
    (endpoint : string) :
  let before := stats_of (endpoint_stats self) endpoint in
  let after := stats_of (endpoint_stats (record_all self calls)) endpoint in
  st_total_requests after
  = st_total_requests before + count_calls (fun _ => true) endpoint calls /\
  st_errors after = st_errors before + count_calls failed endpoint calls /\
  st_cache_hits after = st_cache_hits before + count_calls o_cache_hit endpoint calls.
Proof.
  unfold record_all. revert self.
  induction calls as [| [env o] rest IH]; intros self.
  - cbn [fold_left]. unfold count_calls. cbn. lia.
  - cbn [fold_left fst snd]. specialize (IH (record_request self env o)).
    cbn zeta in IH |- *. destruct IH as (IHt & IHe & IHh).
    rewrite IHt, IHe, IHh, !count_calls_cons. cbn [snd].
    unfold record_request at 1 2 3. cbn [endpoint_stats]. rewrite stats_of_set.
    destruct (String.eqb_spec (o_endpoint o) endpoint) as [-> | Hne]; cbn [andb].
    + unfold update_stats, failed.
      cbn [st_total_requests st_errors st_cache_hits].
      destruct (400 <=? o_status_code o), (o_cache_hit o); lia.
    + lia.
Qed.

(** From a fresh aggregator, each endpoint's running totals count its
    calls: total_requests is the number of [record_request] calls made for
    the endpoint, errors the number of those with a status code of 400 or
    more, cache_hits the number of those flagged as cache hits; an endpoint
    never called has no figures at all. *)
Theorem totals_count_the_calls (start : Z) (calls : list (probe * observation))
    (endpoint : string) :
  let totals := stats_of (endpoint_stats (record_all (Monitor.new start) calls)) endpoint in
  st_total_requests totals = count_calls (fun _ => true) endpoint calls /\
  st_errors totals = count_calls failed endpoint calls /\
  st_cache_hits totals = count_calls o_cache_hit endpoint calls /\
  (count_calls (fun _ => true) endpoint calls = 0 ->
   get_endpoint_metrics (record_all (Monitor.new start) calls) endpoint = None).
Proof.
  cbn zeta.
  destruct (totals_count_calls calls (Monitor.new start) endpoint) as (Ht & He & Hh).
  cbn zeta in Ht, He, Hh.
  change (stats_of (endpoint_stats (Monitor.new start)) endpoint) with fresh_stats
    in Ht, He, Hh.
  cbn [fresh_stats st_total_requests st_errors st_cache_hits] in Ht, He, Hh.
  split; [lia |]. split; [lia |]. split; [lia |].
  intros Hzero. unfold get_endpoint_metrics. unfold stats_of in Ht.
  destruct (dict_get (endpoint_stats (record_all (Monitor.new start) calls)) endpoint)
    as [st |]; [| reflexivity].
  destruct (Z.eqb_spec (st_total_requests st) 0) as [_ | Hne]; [reflexivity | lia].
Qed.

(** *** Percentiles *)

Lemma nth_ascending (l : list Q) (i j : nat) :
  StronglySorted (fun x y => is_true (QOrder.leb x y)) l ->
  (i <= j)%nat -> (j < length l)%nat -> (nth i l 0 <= nth j l 0)%Q.
Proof.
  intros Hsorted. revert i j.
  induction Hsorted as [| a l Hl IH Ha]; intros i j Hij Hj; [cbn in Hj; lia |].
  destruct i as [| i], j as [| j]; cbn [nth length] in *; try lia.
  - apply Qle_refl.
  - rewrite List.Forall_forall in Ha.
    assert (Hin : In (nth j l 0%Q) l) by (apply nth_In; lia).
    specialize (Ha _ Hin). unfold QOrder.leb, is_true in Ha.
    now apply Qle_bool_iff in Ha.
  - apply IH; lia.
Qed.

Lemma rank_below (n : nat) (p : Q) :
  (1 <= n)%nat -> (0 <= p)%Q -> (p < 1)%Q -> (rank n p < n)%nat.
Proof.
  intros Hn Hp0 Hp1. unfold rank.
  assert (Hpos : (0 < inject_Z (Z.of_nat n))%Q).
  { change 0%Q with (inject_Z 0). rewrite <- Zlt_Qlt. lia. }
  assert (Hlt : (inject_Z (Qfloor (inject_Z (Z.of_nat n) * p)) < inject_Z (Z.of_nat n))%Q).
  { apply Qle_lt_trans with (inject_Z (Z.of_nat n) * p)%Q; [apply Qfloor_le |].
    rewrite <- (Qmult_1_r (inject_Z (Z.of_nat n))) at 2.
    apply Qmult_lt_l; assumption. }
  rewrite <- Zlt_Qlt in Hlt.
  assert (H0 : 0 <= Qfloor (inject_Z (Z.of_nat n) * p)).
  { change 0 with (Qfloor (inject_Z 0)). apply Qfloor_resp_le.
    apply Qmult_le_0_compat; [apply Qlt_le_weak, Hpos | exact Hp0]. }
  lia.
Qed.

Lemma rank_monotone (n : nat) (p q : Q) : (p <= q)%Q -> (rank n p <= rank n q)%nat.
Proof.
  intros Hpq. unfold rank.
  assert (Hle : Qfloor (inject_Z (Z.of_nat n) * p) <= Qfloor (inject_Z (Z.of_nat n) * q)).
  { apply Qfloor_resp_le.
    rewrite (Qmult_comm _ p), (Qmult_comm _ q).
    apply Qmult_le_compat_r; [exact Hpq |].
    change 0%Q with (inject_Z 0). rewrite <- Zle_Qle. lia. }
  lia.
Qed.

Lemma qmin_le (a b : Q) : (qmin a b <= a)%Q /\ (qmin a b <= b)%Q.
Proof.
  unfold qmin. destruct (Qle_bool a b) eqn:Hab.
  - apply Qle_bool_iff in Hab. split; [apply Qle_refl | exact Hab].
  - split; [| apply Qle_refl].
    destruct (Qlt_le_dec b a) as [Hlt | Hle]; [now apply Qlt_le_weak |].
    apply Qle_bool_iff in Hle. congruence.
Qed.

Lemma qmax_ge (a b : Q) : (a <= qmax a b)%Q /\ (b <= qmax a b)%Q.
Proof.
  unfold qmax. destruct (Qle_bool b a) eqn:Hba.
  - apply Qle_bool_iff in Hba. split; [apply Qle_refl | exact Hba].
  - split; [| apply Qle_refl].
    destruct (Qlt_le_dec a b) as [Hlt | Hle]; [now apply Qlt_le_weak |].
    apply Qle_bool_iff in Hle. congruence.
Qed.

Lemma fold_qmin_le (rest : list Q) (x : Q) :
  (fold_left qmin rest x <= x)%Q /\ (forall y, In y rest -> (fold_left qmin rest x <= y)%Q).
Proof.
  revert x. induction rest as [| a rest IH]; intros x; cbn [fold_left].
  - split; [apply Qle_refl | intros y []].
  - destruct (IH (qmin x a)) as [Hhead Hrest]. destruct (qmin_le x a) as [Hx Ha].
    split; [eapply Qle_trans; eassumption |].
    intros y [<- | Hy]; [eapply Qle_trans; eassumption | now apply Hrest].
Qed.

Lemma fold_qmax_ge (rest : list Q) (x : Q) :
  (x <= fold_left qmax rest x)%Q /\ (forall y, In y rest -> (y <= fold_left qmax rest x)%Q).
Proof.
  revert x. induction rest as [| a rest IH]; intros x; cbn [fold_left].
  - split; [apply Qle_refl | intros y []].
  - destruct (IH (qmax x a)) as [Hhead Hrest]. destruct (qmax_ge x a) as [Hx Ha].
    split; [eapply Qle_trans; eassumption |].
    intros y [<- | Hy]; [eapply Qle_trans; eassumption | now apply Hrest].
Qed.

Lemma list_min_max_bound (l : list Q) (y : Q) :
  In y l -> (list_min l <= y)%Q /\ (y <= list_max l)%Q.
Proof.
  destruct l as [| x rest]; [intros [] |]. unfold list_min, list_max.
  destruct (fold_qmin_le rest x) as [Hmin Hmins].
  destruct (fold_qmax_ge rest x) as [Hmax Hmaxs].
  intros [<- | Hy]; split; auto.
Qed.

(** On any window that holds at least one record, the snapshot reports
    min <= p50 <= p90 <= p95 <= p99 <= max, and each of the four percentiles
    is the response time of a record of the window. *)
Theorem percentiles_are_ordered_observations (self : PerformanceMonitor) (env : probe) :
  metrics self <> [] ->
  exists lo p50 p90 p95 p99 hi : Q,
    dict_get (m_response_times (get_metrics self env)) "min" = Some lo /\
    dict_get (m_response_times (get_metrics self env)) "p50" = Some p50 /\
    dict_get (m_response_times (get_metrics self env)) "p90" = Some p90 /\
    dict_get (m_response_times (get_metrics self env)) "p95" = Some p95 /\
    dict_get (m_response_times (get_metrics self env)) "p99" = Some p99 /\
    dict_get (m_response_times (get_metrics self env)) "max" = Some hi /\
    (lo <= p50)%Q /\ (p50 <= p90)%Q /\ (p90 <= p95)%Q /\ (p95 <= p99)%Q /\ (p99 <= hi)%Q /\
    Forall (fun p => In p (map response_time (metrics self))) [p50; p90; p95; p99].
Proof.
  intros Hne. unfold get_metrics. cbn [m_response_times].
  pose proof (QSort.Permuted_sort (map response_time (metrics self))) as Hperm.
  pose proof (QSort.StronglySorted_sort (map response_time (metrics self))
                MonitorFacts.qleb_transitive) as Hsorted.
  fold (sorted_response_times self) in Hperm, Hsorted.
  destruct (sorted_response_times self) as [| x rest] eqn:Hs.
  { apply Permutation_sym, Permutation_nil in Hperm.
    destruct (metrics self); [contradiction | discriminate]. }
  set (l := x :: rest) in *.
  assert (Hn : (1 <= length l)%nat) by (unfold l; cbn [length]; lia).
  assert (Hrank : forall p, (0 <= p)%Q -> (p < 1)%Q -> (rank (length l) p < length l)%nat)
    by (intros p; now apply rank_below).
  assert (Hin : forall p, (0 <= p)%Q -> (p < 1)%Q ->
                          In (nth (rank (length l) p) l 0%Q) l)
    by (intros p Hp0 Hp1; apply nth_In; now apply Hrank).
  assert (Hback : forall y, In y l -> In y (map response_time (metrics self)))
    by (intros y Hy; eapply Permutation_in; [apply Permutation_sym, Hperm | exact Hy]).
  assert (Hstep : forall p q, (0 <= p)%Q -> (p <= q)%Q -> (q < 1)%Q ->
                              (nth (rank (length l) p) l 0 <= nth (rank (length l) q) l 0)%Q).
  { intros p q Hp Hpq Hq. apply nth_ascending; [exact Hsorted | now apply rank_monotone |].
    apply Hrank; [eapply Qle_trans; eassumption | exact Hq]. }
  exists (list_min l), (nth (rank (length l) (1 # 2)) l 0%Q),
    (nth (rank (length l) (9 # 10)) l 0%Q), (nth (rank (length l) (95 # 100)) l 0%Q),
    (nth (rank (length l) (99 # 100)) l 0%Q), (list_max l).
  unfold percentiles. fold l.
  repeat (split; [reflexivity |]).
  split; [apply list_min_max_bound, Hin; [discriminate | reflexivity] |].
  split; [apply Hstep; [discriminate | discriminate | reflexivity] |].
  split; [apply Hstep; [discriminate | discriminate | reflexivity] |].
  split; [apply Hstep; [discriminate | discriminate | reflexivity] |].
  split; [apply list_min_max_bound, Hin; [discriminate | reflexivity] |].
  repeat (apply List.Forall_cons; [apply Hback, Hin; [discriminate | reflexivity] |]).
  apply List.Forall_nil.
Qed.

Lemma percentiles_are_ordered_observations_witness :
  exists lo p50 p90 p95 p99 hi : Q,
    dict_get (m_response_times (get_metrics Scenario.ten_requests Scenario.quiet)) "min"
    = Some lo /\
    dict_get (m_response_times (get_metrics Scenario.ten_requests Scenario.quiet)) "p50"
    = Some p50 /\
    dict_get (m_response_times (get_metrics Scenario.ten_requests Scenario.quiet)) "p90"
    = Some p90 /\
    dict_get (m_response_times (get_metrics Scenario.ten_requests Scenario.quiet)) "p95"
    = Some p95 /\
    dict_get (m_response_times (get_metrics Scenario.ten_requests Scenario.quiet)) "p99"
    = Some p99 /\
    dict_get (m_response_times (get_metrics Scenario.ten_requests Scenario.quiet)) "max"
    = Some hi /\
    (lo <= p50)%Q /\ (p50 <= p90)%Q /\ (p90 <= p95)%Q /\ (p95 <= p99)%Q /\ (p99 <= hi)%Q /\
    Forall (fun p => In p (map response_time (metrics Scenario.ten_requests)))
           [p50; p90; p95; p99].
Proof.
  apply (percentiles_are_ordered_observations Scenario.ten_requests Scenario.quiet).
  vm_compute. discriminate.
Defined.

(** *** The two readers of the per-endpoint totals *)

Lemma dict_set_keys {V : Type} (d : pydict V) (k : string) (v : V) :
  dict_keys (dict_set d k v)
  = if existsb (String.eqb k) (dict_keys d) then dict_keys d else dict_keys d ++ [k].
Proof.
  induction d as [| [j x] rest IH]; cbn [dict_set dict_keys map fst existsb]; [reflexivity |].
  rewrite (String.eqb_sym k j).
  destruct (String.eqb_spec j k) as [-> | Hne]; cbn [dict_keys map fst orb]; [reflexivity |].
  fold (dict_keys (dict_set rest k v)). fold (dict_keys rest). rewrite IH.
  now destruct (existsb (String.eqb k) (dict_keys rest)).
Qed.

Lemma dict_set_wf {V : Type} (d : pydict V) (k : string) (v : V) :
  dict_wf d -> dict_wf (dict_set d k v).
Proof.
  unfold dict_wf. intros Hwf. rewrite dict_set_keys.
  destruct (existsb (String.eqb k) (dict_keys d)) eqn:Hk; [exact Hwf |].
  apply List.NoDup_app; [exact Hwf | | ].
  - apply List.NoDup_cons; [intros [] | apply List.NoDup_nil].
  - intros j Hj [Hjk | []]. subst j.
    assert (Habs : existsb (String.eqb k) (dict_keys d) = true).
    { apply existsb_exists. exists k. split; [exact Hj | apply String.eqb_refl]. }
    congruence.
Qed.

Lemma record_all_wf (calls : list (probe * observation)) (self : PerformanceMonitor) :
  dict_wf (endpoint_stats self) -> dict_wf (endpoint_stats (record_all self calls)).
Proof.
  unfold record_all. revert self.
  induction calls as [| [env o] rest IH]; intros self Hself; [exact Hself |].
  cbn [fold_left fst snd]. apply IH. unfold record_request. cbn [endpoint_stats].
  now apply dict_set_wf.
Qed.

Lemma endpoint_views_lookup (self : PerformanceMonitor) (items : pydict EndpointStats)
    (name : string) :
  dict_wf items ->
  dict_get (endpoint_views self items) name
  = match dict_get items name with
    | Some stats =>
        if 0 <? st_total_requests stats then Some (endpoint_view self name stats) else None
    | None => None
    end.
Proof.
  induction items as [| [k st] rest IH]; intros Hwf; [reflexivity |].
  apply List.NoDup_cons_iff in Hwf as [Hfresh Hwf].
  cbn [endpoint_views dict_get].
  destruct (String.eqb_spec k name) as [-> | Hne].
  - destruct (0 <? st_total_requests st); cbn [dict_get].
    + now rewrite String.eqb_refl.
    + rewrite (IH Hwf). now rewrite (SearchKey.dict_get_absent rest name Hfresh).
  - destruct (0 <? st_total_requests st); cbn [dict_get].
    + destruct (String.eqb_spec k name) as [-> | _]; [contradiction | now apply IH].
    + now apply IH.
Qed.

(** [get_endpoint_metrics] and [get_metrics] agree: for an aggregator fed
    by [record_request] calls, the figures that [get_endpoint_metrics]
    returns for an endpoint are exactly the endpoint's entry in the
    snapshot, and it returns [None] exactly when the snapshot has no such
    entry. *)
Theorem endpoint_readers_agree (start : Z) (calls : list (probe * observation))
    (env : probe) (endpoint : string) :
  get_endpoint_metrics (record_all (Monitor.new start) calls) endpoint
  = option_map (pair endpoint)
      (dict_get (m_endpoints (get_metrics (record_all (Monitor.new start) calls) env))
                endpoint).
Proof.
  unfold get_metrics. cbn [m_endpoints].
  assert (Hwf : dict_wf (endpoint_stats (record_all (Monitor.new start) calls)))
    by (apply record_all_wf; apply List.NoDup_nil).
  assert (Hsound : Forall (fun kv => stats_sound (snd kv))
                          (endpoint_stats (record_all (Monitor.new start) calls)))
    by (apply record_all_sound; apply List.Forall_nil).
  rewrite (endpoint_views_lookup _ _ endpoint Hwf). unfold get_endpoint_metrics.
  destruct (dict_get (endpoint_stats (record_all (Monitor.new start) calls)) endpoint)
    as [st |] eqn:Hst; [| reflexivity].
  pose proof (AlertFacts.dict_get_Forall _ _ endpoint st Hsound Hst) as (Htotal & _).
  destruct (Z.eqb_spec (st_total_requests st) 0) as [Hz | _]; [lia |].
  destruct (Z.ltb_spec 0 (st_total_requests st)) as [_ | Hle]; [reflexivity | lia].
Qed.

(** *** Cache-type counters *)

Lemma counter_of_set (d : pydict Z) (k k' : string) (n : Z) :
  counter_of (dict_set d k n) k' = if String.eqb k k' then n else counter_of d k'.
Proof.
  unfold counter_of. rewrite CacheOpsFacts.dict_get_set. now destruct (String.eqb k k').
Qed.

Lemma record_cache_hits_count (cache_types : list string) (self : PerformanceMonitor)
    (cache_type : string) :
  counter_of (Monitor.cache_stats (record_cache_hits self cache_types)) cache_type
  = counter_of (Monitor.cache_stats self) cache_type
    + Z.of_nat (length (List.filter (String.eqb cache_type) cache_types)).
Proof.
  unfold record_cache_hits. revert self.
  induction cache_types as [| t rest IH]; intros self; cbn [fold_left List.filter].
  - cbn. lia.
  - rewrite IH. unfold record_cache_hit. cbn [Monitor.cache_stats].
    rewrite counter_of_set. rewrite (String.eqb_sym cache_type t).
    destruct (String.eqb_spec t cache_type) as [-> | _]; cbn [length]; lia.
Qed.

Lemma sum_q_scaled (stats : pydict Z) (total : Q) :
  (sum_q (map snd (map (fun '(cache_type, hits) =>
                          (cache_type, (inject_Z hits / total * 100)%Q)) stats))
   == inject_Z (fold_right Z.add 0%Z (map snd stats)) / total * 100)%Q.
Proof.
  induction stats as [| [t h] rest IH]; cbn [map snd sum_q fold_right].
  - unfold Qdiv. now rewrite Qmult_0_l, Qmult_0_l.
  - fold (sum_q (map snd (map (fun '(cache_type, hits) =>
                                 (cache_type, (inject_Z hits / total * 100)%Q)) rest))).
    rewrite IH, inject_Z_plus. unfold Qdiv. ring.
Qed.

Lemma fold_left_add (l : list Z) (a : Z) : fold_left Z.add l a = a + fold_right Z.add 0 l.
Proof.
  revert a. induction l as [| x l IH]; intros a; cbn [fold_left fold_right]; [lia |].
  rewrite IH. lia.
Qed.

(** The figures reported under cache_hit_rates are each cache type's share
    of all recorded cache hits: whenever at least one hit has been recorded
    they add up to 100, whatever the number of requests that missed. *)
Theorem cache_hit_rates_are_shares (self : PerformanceMonitor) (env : probe) :
  0 < fold_left Z.add (map snd (Monitor.cache_stats self)) 0 ->
  (sum_q (map snd (m_cache_hit_rates (get_metrics self env))) == 100)%Q /\
  map fst (m_cache_hit_rates (get_metrics self env)) = map fst (Monitor.cache_stats self).
Proof.
  intros Hpos. unfold get_metrics. cbn [m_cache_hit_rates]. unfold cache_hit_rates_of.
  destruct (Z.ltb_spec 0 (fold_left Z.add (map snd (Monitor.cache_stats self)) 0))
    as [_ | Hle]; [| lia].
  split.
  - rewrite sum_q_scaled. rewrite fold_left_add in Hpos |- *. rewrite Z.add_0_l in Hpos |- *.
    field. intros Hzero.
    assert (Heq : (inject_Z (fold_right Z.add 0%Z (map snd (Monitor.cache_stats self)))
                   == inject_Z 0)%Q) by exact Hzero.
    rewrite inject_Z_injective in Heq. lia.
  - rewrite List.map_map. apply List.map_ext. now intros [t h].
Qed.

Lemma cache_hit_rates_are_shares_witness :
  (sum_q (map snd (m_cache_hit_rates
                     (get_metrics (record_cache_hits (Monitor.new 0)
                                     ["product_search"; "get_product"; "product_search"])
                                  Scenario.quiet))) == 100)%Q.
Proof.
  apply (cache_hit_rates_are_shares
           (record_cache_hits (Monitor.new 0)
              ["product_search"; "get_product"; "product_search"]) Scenario.quiet).
  vm_compute. reflexivity.
Defined.

(** From a fresh aggregator, the counter of a cache type is the number of
    [record_cache_hit] calls made for it, and the other types are not
    affected. *)
Theorem cache_hits_are_counted_per_type (start : Z) (cache_types : list string)
    (cache_type : string) :
  counter_of (Monitor.cache_stats (record_cache_hits (Monitor.new start) cache_types))
             cache_type
  = Z.of_nat (length (List.filter (String.eqb cache_type) cache_types)).
Proof.
  rewrite record_cache_hits_count. reflexivity.
Qed.

(** *** Slow queries *)

Lemma insert_desc_perm (x : SlowQuery) (l : list SlowQuery) :
  Permutation (x :: l) (insert_desc x l).
Proof.
  induction l as [| y rest IH]; cbn [insert_desc]; [apply Permutation_refl |].
  destruct (Qle_bool (sq_database_time y) (sq_database_time x)); [apply Permutation_refl |].
  eapply Permutation_trans; [apply perm_swap |]. now apply perm_skip.
Qed.

Lemma sort_desc_perm (l : list SlowQuery) : Permutation l (sort_desc l).
Proof.
  induction l as [| x rest IH]; cbn [sort_desc fold_right]; [apply Permutation_refl |].
  eapply Permutation_trans; [apply perm_skip, IH | apply insert_desc_perm].
Qed.

Lemma insert_desc_sorted (x : SlowQuery) (l : list SlowQuery) :
  StronglySorted by_time_desc l -> StronglySorted by_time_desc (insert_desc x l).
Proof.
  intros Hl. induction Hl as [| y rest Hrest IH Hy]; cbn [insert_desc].
  - apply SSorted_cons; [apply SSorted_nil | apply List.Forall_nil].
  - destruct (Qle_bool (sq_database_time y) (sq_database_time x)) eqn:Hyx.
    + apply Qle_bool_iff in Hyx.
      apply SSorted_cons; [now apply SSorted_cons |].
      apply List.Forall_cons; [exact Hyx |].
      eapply List.Forall_impl; [| exact Hy].
      intros z Hz. unfold by_time_desc in *. eapply Qle_trans; eassumption.
    + assert (Hxy : (sq_database_time x <= sq_database_time y)%Q).
      { destruct (Qlt_le_dec (sq_database_time x) (sq_database_time y)) as [Hlt | Hle];
          [now apply Qlt_le_weak |].
        apply Qle_bool_iff in Hle. congruence. }
      apply SSorted_cons; [exact IH |].
      rewrite List.Forall_forall. intros z Hz.
      apply (Permutation_in _ (Permutation_sym (insert_desc_perm x rest))) in Hz.
      destruct Hz as [<- | Hz]; [exact Hxy |].
      rewrite List.Forall_forall in Hy. now apply Hy.
Qed.

Lemma sort_desc_sorted (l : list SlowQuery) : StronglySorted by_time_desc (sort_desc l).
Proof.
  induction l as [| x rest IH]; cbn [sort_desc fold_right]; [apply SSorted_nil |].
  now apply insert_desc_sorted.
Qed.

Lemma in_firstn {A : Type} (n : nat) (l : list A) (x : A) : In x (firstn n l) -> In x l.
Proof.
  revert n. induction l as [| y rest IH]; intros [| n]; cbn [firstn];
    [intros [] | intros [] | intros [] |].
  intros [<- | Hx]; [now left | right; now apply (IH n)].
Qed.

Lemma firstn_sorted {A : Type} (R : A -> A -> Prop) (n : nat) (l : list A) :
  StronglySorted R l -> StronglySorted R (firstn n l).
Proof.
  intros Hl. revert n. induction Hl as [| x rest Hrest IH Hx]; intros [| n];
    cbn [firstn]; try apply SSorted_nil.
  apply SSorted_cons; [apply IH |].
  rewrite List.Forall_forall in *. intros y Hy. apply Hx.
  now apply (in_firstn n).
Qed.

(** [get_slow_queries] returns at most 50 items, slowest first; each one
    gives the endpoint, database time, timestamp and user of a record of the
    window whose database time exceeds one second, and when the window holds
    no more than 50 such records every one of them is returned. *)
Theorem slow_queries_are_the_slowest (self : PerformanceMonitor) :
  (length (get_slow_queries self) <= 50)%nat /\
  StronglySorted (fun x y => (sq_database_time y <= sq_database_time x)%Q)
                 (get_slow_queries self) /\
  (forall q, In q (get_slow_queries self) ->
     exists m, In m (metrics self) /\
               q = mkSlowQuery (endpoint m) (database_time m) (timestamp m) (user_id m) /\
               (1 < database_time m)%Q) /\
  ((length (List.filter (fun m => negb (Qle_bool (database_time m) 1)) (metrics self)) <= 50)%nat ->
   Permutation
     (map (fun m => mkSlowQuery (endpoint m) (database_time m) (timestamp m) (user_id m))
          (List.filter (fun m => negb (Qle_bool (database_time m) 1)) (metrics self)))
     (get_slow_queries self)).
Proof.
  change (fun m => negb (Qle_bool (database_time m) 1)) with is_slow.
  change (fun m => mkSlowQuery (endpoint m) (database_time m) (timestamp m) (user_id m))
    with slow_entry.
  change (fun x y => (sq_database_time y <= sq_database_time x)%Q) with by_time_desc.
  unfold get_slow_queries.
  set (slow := map slow_entry (List.filter is_slow (metrics self))).
  split; [apply List.firstn_le_length |].
  split; [apply firstn_sorted, sort_desc_sorted |].
  split.
  - intros q Hq.
    assert (Hin : In q slow).
    { apply (Permutation_in _ (Permutation_sym (sort_desc_perm slow))).
      now apply (in_firstn 50). }
    unfold slow in Hin. apply in_map_iff in Hin as (m & <- & Hm).
    apply filter_In in Hm as [Hm Hslow].
    exists m. split; [exact Hm |]. split; [reflexivity |].
    unfold is_slow in Hslow. apply negb_true_iff in Hslow.
    destruct (Qlt_le_dec SLOW_QUERY_THRESHOLD (database_time m)) as [Hlt | Hle]; [exact Hlt |].
    apply Qle_bool_iff in Hle. congruence.
  - intros Hfew.
    rewrite List.firstn_all2; [apply sort_desc_perm |].
    rewrite <- (Permutation_length (sort_desc_perm slow)).
    unfold slow. now rewrite List.length_map.
Qed.

(** *** Database totals *)

Lemma database_totals_from (calls : list (probe * observation)) (self : PerformanceMonitor) :
  db_total_queries (database_performance (record_all self calls))
  = db_total_queries (database_performance self) + reported_queries calls /\
  db_slow_queries (database_performance (record_all self calls))
  = db_slow_queries (database_performance self) + slow_calls calls.
Proof.
  unfold record_all. revert self.
  induction calls as [| [env o] rest IH]; intros self.
  - cbn. unfold slow_calls. cbn. lia.
  - cbn [fold_left fst snd]. destruct (IH (record_request self env o)) as [IHq IHs].
    rewrite IHq, IHs. unfold record_request, update_db, slow_calls.
    cbn [database_performance db_total_queries db_slow_queries reported_queries fold_right
         snd List.filter].
    fold (reported_queries rest).
    change SLOW_QUERY_THRESHOLD with 1%Q.
    destruct (Qle_bool (o_database_time o) 1); cbn [negb length]; lia.
Qed.

(** From a fresh aggregator, total_queries is the sum of the query counts
    that the requests reported and slow_queries is the number of requests
    whose database time exceeded one second; slow_queries counts
    requests, so it is bounded by the number of requests and not by
    total_queries. *)
Theorem database_totals (start : Z) (calls : list (probe * observation)) :
  db_total_queries (database_performance (record_all (Monitor.new start) calls))
  = reported_queries calls /\
  db_slow_queries (database_performance (record_all (Monitor.new start) calls))
  = slow_calls calls /\
  0 <= slow_calls calls <= Z.of_nat (length calls).
Proof.
  destruct (database_totals_from calls (Monitor.new start)) as [Hq Hs].
  cbn [Monitor.new database_performance db_total_queries db_slow_queries] in Hq, Hs.
  split; [lia |]. split; [lia |].
  unfold slow_calls. pose proof (List.filter_length_le
    (fun call : probe * observation =>
       negb (Qle_bool (o_database_time (snd call)) 1)) calls). lia.
Qed.

(** *** Minimum and maximum per endpoint *)

Lemma min_le_trans (m : option Q) (x y : Q) : min_le m x -> (x <= y)%Q -> min_le m y.
Proof.
  destruct m as [lo |]; cbn; [| auto]. intros. eapply Qle_trans; eassumption.
Qed.

Lemma min_with_inf_le (m : option Q) (x : Q) :
  min_le (min_with_inf m x) x /\ (forall y, min_le m y -> min_le (min_with_inf m x) y).
Proof.
  destruct m as [lo |]; cbn [min_with_inf min_le].
  - destruct (qmin_le lo x) as [Hlo Hx]. split; [exact Hx |].
    intros y Hy. now apply Qle_trans with lo.
  - split; [apply Qle_refl | intros y []].
Qed.

Lemma bounds_persist (calls : list (probe * observation)) (self : PerformanceMonitor)
    (endpoint : string) (x : Q) :
  min_le (st_min_response_time (stats_of (endpoint_stats self) endpoint)) x ->
  (x <= st_max_response_time (stats_of (endpoint_stats self) endpoint))%Q ->
  min_le (st_min_response_time (stats_of (endpoint_stats (record_all self calls)) endpoint)) x /\
  (x <= st_max_response_time (stats_of (endpoint_stats (record_all self calls)) endpoint))%Q.
Proof.
  unfold record_all. revert self.
  induction calls as [| [env o] rest IH]; intros self Hmin Hmax; [now split |].
  cbn [fold_left fst snd]. apply IH.
  - unfold record_request. cbn [endpoint_stats]. rewrite stats_of_set.
    destruct (String.eqb_spec (o_endpoint o) endpoint) as [-> | _]; [| exact Hmin].
    unfold update_stats. cbn [st_min_response_time].
    now apply (proj2 (min_with_inf_le _ _)).
  - unfold record_request. cbn [endpoint_stats]. rewrite stats_of_set.
    destruct (String.eqb_spec (o_endpoint o) endpoint) as [-> | _]; [| exact Hmax].
    unfold update_stats. cbn [st_max_response_time].
    destruct (qmax_ge (st_max_response_time (stats_of (endpoint_stats self) endpoint))
                      (o_response_time o)) as [Hold _].
    eapply Qle_trans; eassumption.
Qed.

(** The running minimum and maximum of an endpoint bracket every response
    time recorded for it: after any series of calls, each recorded call of
    the endpoint has min_response_time <= response_time <= max_response_time. *)
Theorem min_max_bracket_every_call (self : PerformanceMonitor)
    (calls : list (probe * observation)) (env : probe) (o : observation) :
  In (env, o) calls ->
  min_le (st_min_response_time
            (stats_of (endpoint_stats (record_all self calls)) (o_endpoint o)))
         (o_response_time o) /\
  (o_response_time o
   <= st_max_response_time
        (stats_of (endpoint_stats (record_all self calls)) (o_endpoint o)))%Q.
Proof.
  revert self. induction calls as [| [env' o'] rest IH]; intros self Hin; [destruct Hin |].
  change (record_all self ((env', o') :: rest))
    with (record_all (record_request self env' o') rest).
  destruct Hin as [[= -> ->] | Hin]; [| now apply IH].
  apply bounds_persist.
  - unfold record_request. cbn [endpoint_stats]. rewrite stats_of_set, String.eqb_refl.
    unfold update_stats. cbn [st_min_response_time].
    apply (proj1 (min_with_inf_le _ _)).
  - unfold record_request. cbn [endpoint_stats]. rewrite stats_of_set, String.eqb_refl.
    unfold update_stats. cbn [st_max_response_time].
    apply (proj2 (qmax_ge _ _)).
Qed.

Lemma min_max_bracket_every_call_witness :
  min_le (st_min_response_time
            (stats_of (endpoint_stats Scenario.ten_requests) "/search")) (3 # 10) /\
  (3 # 10 <= st_max_response_time
               (stats_of (endpoint_stats Scenario.ten_requests) "/search"))%Q.
Proof.
  apply (min_max_bracket_every_call (Monitor.new 0)
           (map (fun t => (Scenario.quiet, Scenario.hit "/search" t 200)) (rev tenths))
           Scenario.quiet (Scenario.hit "/search" (3 # 10) 200)).
  vm_compute. tauto.
Defined.

End MonitorOpsFacts.


(** ** Search: pagination and the cache key *)
Module SearchOpsFacts.
Import Py Search SearchOps.
Local Open Scope list_scope.

(** With total the number of rows that match, the page count is the
    ceiling of total / size, and the pages partition the rows: page p holds
    the min(size, total - (p - 1) * size) rows that follow the first
    (p - 1) * size, every page from 1 to pages holds at least one row, and
    every later page is empty. *)
Theorem pagination_covers_the_rows {A : Type} (rows : list A) (request : ProductSearchRequest) :
  1 <= page request -> 1 <= size request ->
  let total := Z.of_nat (length rows) in
  (pages_of total request - 1) * size request < total <= pages_of total request * size request /\
  Z.of_nat (length (page_rows rows request))
  = Z.max 0 (Z.min (size request) (total - (page request - 1) * size request)) /\
  (page request <= pages_of total request <-> page_rows rows request <> []) /\
  page_rows rows request = firstn (Z.to_nat (size request))
                             (skipn (Z.to_nat ((page request - 1) * size request)) rows).
Proof.
  intros Hpage Hsize total.
  assert (Hceil : (pages_of total request - 1) * size request < total
                  <= pages_of total request * size request).
  { unfold pages_of.
    pose proof (Z.mul_div_le (total + size request - 1) (size request) ltac:(lia)).
    pose proof (Z.mul_succ_div_gt (total + size request - 1) (size request) ltac:(lia)).
    nia. }
  assert (Hlen : Z.of_nat (length (page_rows rows request))
                 = Z.max 0 (Z.min (size request) (total - offset_of request))).
  { unfold page_rows. rewrite List.length_firstn, List.length_skipn.
    unfold offset_of in *. subst total. nia. }
  unfold offset_of in Hlen.
  split; [exact Hceil |]. split; [exact Hlen |]. split; [| reflexivity].
  split.
  - intros Hin Hempty. rewrite Hempty in Hlen. cbn [length] in Hlen. nia.
  - intros Hne. destruct (page_rows rows request) as [| x rest]; [contradiction |].
    cbn [length] in Hlen. nia.
Qed.

Lemma pagination_covers_the_rows_witness :
  Z.of_nat (length (page_rows (seq 0 25) (with_page (with_size (base_request None) 10) 3))) = 5 /\
  pages_of 25 (with_page (with_size (base_request None) 10) 3) = 3.
Proof.
  pose proof (pagination_covers_the_rows (seq 0 25)
                (with_page (with_size (base_request None) 10) 3)) as H.
  destruct H as (_ & Hlen & _).
  - vm_compute. discriminate.
  - vm_compute. discriminate.
  - split; [rewrite Hlen; reflexivity | reflexivity].
Defined.

Lemma length_append (s t : string) :
  String.length (s +:+ t) = (String.length s + String.length t)%nat.
Proof.
  induction s as [| c s IH]; [reflexivity |].
  change (String c s +:+ t) with (String c (s +:+ t)). cbn [String.length]. now rewrite IH.
Qed.

Lemma append_inj_l (s1 s2 t : string) : s1 +:+ t = s2 +:+ t -> s1 = s2.
Proof.
  revert s2. induction s1 as [| c s1 IH]; intros [| d s2] H.
  - reflexivity.
  - exfalso. apply (f_equal String.length) in H.
    rewrite !length_append in H. cbn [String.length] in H. lia.
  - exfalso. apply (f_equal String.length) in H.
    rewrite !length_append in H. cbn [String.length] in H. lia.
  - change (String c (s1 +:+ t) = String d (s2 +:+ t)) in H.
    injection H as -> H. f_equal. now apply IH.
Qed.

(** Two requests that differ only in the page number, or only in the page
    size, never share a cache key, so a cached page is never served for
    another page. *)
Theorem cache_key_separates_pages (request : ProductSearchRequest) (a b : Z) :
  a <> b ->
  _create_cache_key (with_page request a) <> _create_cache_key (with_page request b) /\
  _create_cache_key (with_size request a) <> _create_cache_key (with_size request b).
Proof.
  intros Hne. unfold _create_cache_key, with_page, with_size.
  cbn [query category_id brand min_price max_price min_rating in_stock_only featured_only
       tags attributes sort_by sort_order page size join].
  split; intros H; repeat apply CacheOpsFacts.append_inj_r in H.
  - apply append_inj_l in H. now apply CacheOpsFacts.str_int_inj in H.
  - now apply CacheOpsFacts.str_int_inj in H.
Qed.

Lemma cache_key_separates_pages_witness :
  _create_cache_key (with_page (base_request None) 1)
  <> _create_cache_key (with_page (base_request None) 2).
Proof.
  apply (cache_key_separates_pages (base_request None) 1 2). discriminate.
Defined.

(** [clear_search_cache] never touches the local tier: a search result that
    was cached for 300 s under the request's key is still returned by [get]
    after the search cache has been cleared, whatever the shared tier does,
    until 300 s after it was cached. *)
Theorem cleared_search_result_is_still_served (c : Cache.CacheService) (now now' later : Z)
    (f f' : option string) (faults : option string * option string * option string)
    (request : ProductSearchRequest) (result : pyval) :
  later < now + 300 ->
  let cached := snd (Cache.set c now f (_create_cache_key request) result (Some 300)) in
  fst (clear_search_cache cached now' faults) = true /\
  Cache.local_cache (snd (clear_search_cache cached now' faults)) = Cache.local_cache cached /\
  fst (Cache.get (snd (clear_search_cache cached now' faults)) later f'
                 (_create_cache_key request)) = result.
Proof.
  intros Hsoon cached.
  assert (Hlocal : Cache.local_cache (snd (clear_search_cache cached now' faults))
                   = Cache.local_cache cached).
  { destruct faults as [[f1 f2] f3]. unfold clear_search_cache.
    cbn [snd CacheOps.log_info Cache.local_cache].
    now rewrite !CacheFacts.delete_pattern_keeps_local. }
  split; [now destruct faults as [[f1 f2] f3] |]. split; [exact Hlocal |].
  rewrite (CacheFacts.get_local_hit _ later f' (_create_cache_key request)
             (Cache.mkEntry result (now + Z.min SEARCH_CACHE_TTL Config.CACHE_SHORT_TTL))).
  - reflexivity.
  - rewrite Hlocal. unfold cached.
    exact (CacheFacts.set_local_entry c now f (_create_cache_key request) result
             (Some SEARCH_CACHE_TTL)).
  - cbn [Cache.expires_at]. unfold SEARCH_CACHE_TTL, Config.CACHE_SHORT_TTL in *. lia.
Qed.

Lemma cleared_search_result_is_still_served_witness :
  fst (Cache.get
         (snd (clear_search_cache
                 (snd (Cache.set Scenario.connected 0 None
                                 (_create_cache_key Scenario.request_ab) Scenario.product
                                 (Some 300)))
                 5 (None, None, None)))
         10 None (_create_cache_key Scenario.request_ab)) = Scenario.product.
Proof.
  apply (cleared_search_result_is_still_served Scenario.connected 0 5 10 None None
           (None, None, None) Scenario.request_ab Scenario.product).
  lia.
Defined.

End SearchOpsFacts.


(** ** Alert evaluator: system status *)
Module StatusFacts.
Import Py Config Monitor Dashboard.
Local Open Scope list_scope.

Lemma with_severity_app (level : string) (a b : list alert) :
  with_severity level (a ++ b) = with_severity level a ++ with_severity level b.
Proof. apply List.filter_app. Qed.

Lemma cache_hit_alerts_are_low (now : Z) (rates : pydict Q) :
  with_severity "critical" (cache_hit_alerts now rates) = [] /\
  with_severity "high" (cache_hit_alerts now rates) = [].
Proof.
  induction rates as [| [cache_type rate] rest [IHc IHh]]; [split; reflexivity |].
  cbn [cache_hit_alerts]. rewrite !with_severity_app, IHc, IHh.
  now destruct (gt 50 rate).
Qed.

Lemma gt_spec (x y : Q) : gt x y = true <-> (y < x)%Q.
Proof.
  unfold gt. rewrite negb_true_iff. split.
  - intros Hle. destruct (Qlt_le_dec y x) as [Hlt | Hge]; [exact Hlt |].
    apply Qle_bool_iff in Hge. congruence.
  - intros Hlt. destruct (Qle_bool x y) eqn:Hle; [| reflexivity].
    apply Qle_bool_iff in Hle. exfalso. exact (Qlt_not_le _ _ Hlt Hle).
Qed.

Lemma status_by_severity (alerts : list alert) :
  _determine_system_status alerts
  = match with_severity "critical" alerts, with_severity "high" alerts with
    | _ :: _, _ => "critical"
    | [], _ :: _ => "degraded"
    | [], [] => "healthy"
    end.
Proof. reflexivity. Qed.

(** For an aggregator fed by [record_request] calls, the overall status
    depends on the resource readings alone: it is "critical" when memory or
    CPU usage is above 90, "healthy" otherwise, and never "degraded",
    whatever the error rates, response times and cache hit rates are. *)
Theorem status_follows_resources (start : Z) (calls : list (probe * observation))
    (env : probe) (now : Z) (cache_stats : Cache.stats_view) (system : option system_metrics) :
  let alerts := _check_alerts now (get_metrics (record_all (Monitor.new start) calls) env)
                              cache_stats system in
  ((90 < memory_of system)%Q \/ (90 < cpu_of system)%Q ->
   _determine_system_status alerts = "critical") /\
  ((memory_of system <= 90)%Q -> (cpu_of system <= 90)%Q ->
   _determine_system_status alerts = "healthy") /\
  _determine_system_status alerts <> "degraded".
Proof.
  intros alerts.
  pose proof (AlertFacts.record_all_rates_bounded calls _ (AlertFacts.new_rates_bounded start))
    as [Hrates _].
  assert (Hstatus : _determine_system_status alerts
                    = if gt (memory_of system) 90 || gt (cpu_of system) 90
                      then "critical" else "healthy").
  { rewrite status_by_severity. unfold alerts, _check_alerts, get_metrics.
    cbn [m_response_times m_error_rates m_cache_hit_rates m_database_performance].
    fold (memory_of system). fold (cpu_of system).
    rewrite (AlertFacts.no_error_rate_alert now _ Hrates).
    rewrite !with_severity_app.
    destruct (cache_hit_alerts_are_low now
                (cache_hit_rates_of (Monitor.cache_stats
                                       (record_all (Monitor.new start) calls)))) as [-> ->].
    unfold response_time_alerts, usage_alerts, slow_query_alerts.
    repeat match goal with |- context [if gt ?a ?b then _ else _] => destruct (gt a b) end;
      reflexivity. }
  rewrite Hstatus. repeat split.
  - intros [Hm | Hc].
    + apply gt_spec in Hm. now rewrite Hm.
    + apply gt_spec in Hc. rewrite Hc. now rewrite orb_true_r.
  - intros Hm Hc.
    assert (gt (memory_of system) 90 = false) as ->.
    { unfold gt. apply Qle_bool_iff in Hm. now rewrite Hm. }
    assert (gt (cpu_of system) 90 = false) as ->.
    { unfold gt. apply Qle_bool_iff in Hc. now rewrite Hc. }
    reflexivity.
  - destruct (gt (memory_of system) 90 || gt (cpu_of system) 90); discriminate.
Qed.

Lemma status_follows_resources_witness :
  _determine_system_status
    (_check_alerts 1000 (get_metrics (record_all (Monitor.new 0)
                                        [(Scenario.quiet, Scenario.hit "/orders" (1 # 10) 500)])
                                     Scenario.quiet)
                   (Cache.get_stats Scenario.connected) (Some (mkSystem 20 95)))
  = "critical".
Proof.
  apply (status_follows_resources 0 [(Scenario.quiet, Scenario.hit "/orders" (1 # 10) 500)]
           Scenario.quiet 1000 (Cache.get_stats Scenario.connected) (Some (mkSystem 20 95))).
  left. reflexivity.
Defined.

End StatusFacts.
